(** * alx-backend-user-data: the file-backed object store, the User entity,
      the user views and the request gate

    A shallow embedding of
      - 0x00-personal_data/filtered_logger.py ([filter_datum])
      - 0x01-Basic_authentication/models/{base,user}.py
      - 0x01-Basic_authentication/api/v1/app.py
      - 0x02-Session_authentication/models/{base,user,user_session}.py
      - 0x02-Session_authentication/api/v1/views/users.py
      - 0x02-Session_authentication/api/v1/app.py
    followed by the properties proved about them.

    Python objects live in a heap and are handled through references, the
    module-level dictionary [DATA] maps class names to insertion-ordered
    dictionaries of references, and the JSON files are part of the state.
    The standard library calls the code depends on ([hashlib.sha256],
    [datetime.utcnow], [uuid.uuid4]) are the fields of the class [Env].
    A [str] is held as the bytes of its UTF-8 form. *)

From Stdlib Require Import ZArith Lia List String Ascii Bool DecimalString.
From stdpp Require Import base list.
Import ListNotations.
Local Open Scope string_scope.
Local Open Scope Z_scope.

(** ** Python values, exceptions and dictionaries *)

Module Py.

(** A naive [datetime.datetime]. *)
Record datetime := mk_datetime
  { year : Z; month : Z; day : Z;
    hour : Z; minute : Z; second : Z; microsecond : Z }.

(** The values an attribute can hold: the JSON scalars (numbers are
    integers) and datetimes. *)
Inductive value :=
| VNone
| VBool (b : bool)
| VInt (n : Z)
| VStr (s : string)
| VDatetime (d : datetime).

(** Truth value testing: [None], [False], [0] and [""] are false. *)
Definition truthy (v : value) : bool :=
  match v with
  | VNone => false
  | VBool b => b
  | VInt n => negb (n =? 0)%Z
  | VStr s => negb (s =? "")%string
  | VDatetime _ => true
  end.

(** [isinstance(v, str)] *)
Definition isinstance_str (v : value) : bool :=
  match v with VStr _ => true | _ => false end.

Definition dt_fields (d : datetime) : list Z :=
  [year d; month d; day d; hour d; minute d; second d; microsecond d].

Fixpoint lex_compare (a b : list Z) : comparison :=
  match a, b with
  | [], [] => Eq
  | [], _ :: _ => Lt
  | _ :: _, [] => Gt
  | x :: a', y :: b' =>
      match x ?= y with
      | Eq => lex_compare a' b'
      | c => c
      end
  end.

(** Comparison of naive datetimes is lexicographic on their fields. *)
Definition dt_compare (a b : datetime) : comparison :=
  lex_compare (dt_fields a) (dt_fields b).

Definition dt_eqb (a b : datetime) : bool :=
  match dt_compare a b with Eq => true | _ => false end.


Definition bool_to_Z (b : bool) : Z := if b then 1 else 0.

(** Python's [==] on these values; [True == 1] and [False == 0] hold. *)
Definition py_eq (a b : value) : bool :=
  match a, b with
  | VNone, VNone => true
  | VBool x, VBool y => Bool.eqb x y
  | VBool x, VInt y => (bool_to_Z x =? y)%Z
  | VInt x, VBool y => (x =? bool_to_Z y)%Z
  | VInt x, VInt y => (x =? y)%Z
  | VStr x, VStr y => (x =? y)%string
  | VDatetime x, VDatetime y => dt_eqb x y
  | _, _ => false
  end.

(** *** Strings *)

Definition lower_char (c : ascii) : ascii :=
  let n := nat_of_ascii c in
  if (65 <=? n)%nat && (n <=? 90)%nat then ascii_of_nat (n + 32) else c.

(** [str.lower()], on ASCII. *)
Fixpoint lower (s : string) : string :=
  match s with
  | EmptyString => EmptyString
  | String c r => String (lower_char c) (lower r)
  end.


(** [sub in s] for two strings. *)
Fixpoint contains (s sub : string) : bool :=
  String.prefix sub s ||
  match s with
  | EmptyString => false
  | String _ r => contains r sub
  end.

Definition digit_char (n : Z) : ascii :=
  nth (Z.to_nat n)
      ["0"; "1"; "2"; "3"; "4"; "5"; "6"; "7"; "8"; "9"]%char "0"%char.

(** [n] written on [w] decimal digits, zero padded (the ["%0wd"] of a
    number [0 <= n < 10^w]). *)
Fixpoint zfill (w : nat) (n : Z) : string :=
  match w with
  | O => ""
  | S w' => zfill w' (n / 10) ++ String (digit_char (n mod 10)) ""
  end.

Definition str_int (n : Z) : string := NilZero.string_of_int (Z.to_int n).

(** [datetime.__str__], that is [isoformat(sep=' ')]. *)
Definition str_datetime (d : datetime) : string :=
  zfill 4 (year d) ++ "-" ++ zfill 2 (month d) ++ "-" ++ zfill 2 (day d)
  ++ " " ++ zfill 2 (hour d) ++ ":" ++ zfill 2 (minute d) ++ ":"
  ++ zfill 2 (second d)
  ++ (if (microsecond d =? 0)%Z then "" else "." ++ zfill 6 (microsecond d)).

(** [str(v)], what an f-string inserts for [{v}]. *)
Definition py_str (v : value) : string :=
  match v with
  | VNone => "None"
  | VBool true => "True"
  | VBool false => "False"
  | VInt n => str_int n
  | VStr s => s
  | VDatetime d => str_datetime d
  end.

(** *** Exceptions *)

Inductive exn :=
| KeyError
| AttributeError
| TypeError
| ValueError (msg : string)
| HTTPException (code : Z)
| ReferenceError
| UnicodeEncodeError.

Inductive result (A : Type) :=
| Ok (a : A)
| Raise (e : exn).
Arguments Ok {A} a.
Arguments Raise {A} e.

Definition rbind {A B} (r : result A) (k : A -> result B) : result B :=
  match r with
  | Ok a => k a
  | Raise e => Raise e
  end.

(** *** Encoding

    A [str] is held as the bytes of its UTF-8 form.  A lone surrogate
    (U+D800 to U+DFFF) has no UTF-8 form: it is held as the three bytes
    the same scheme would give it, [0xED], a byte from [0xA0] to [0xBF]
    and a continuation byte.  In the UTF-8 form of every other character
    [0xED] is followed by a byte from [0x80] to [0x9F]. *)
Fixpoint has_surrogate (s : string) : bool :=
  match s with
  | EmptyString => false
  | String a r =>
      match r with
      | String b _ =>
          (nat_of_ascii a =? 237)%nat && (160 <=? nat_of_ascii b)%nat
          && (nat_of_ascii b <=? 191)%nat
      | EmptyString => false
      end
      || has_surrogate r
  end.

(** [s.encode()]: the UTF-8 bytes of [s]; a lone surrogate cannot be
    encoded. *)
Definition encode (s : string) : result string :=
  if has_surrogate s then Raise UnicodeEncodeError else Ok s.

(** *** Insertion-ordered dictionaries *)

Section Dict.
Context {K V : Type} (eqb : K -> K -> bool).

(** [d.get(k)] *)
Fixpoint dict_get (d : list (K * V)) (k : K) : option V :=
  match d with
  | [] => None
  | (k', v) :: r => if eqb k' k then Some v else dict_get r k
  end.

(** [k in d] *)
Definition dict_mem (d : list (K * V)) (k : K) : bool :=
  match dict_get d k with Some _ => true | None => false end.

(** [d[k] = v]: an existing key keeps its place (and its key object),
    a new key goes last. *)
Fixpoint dict_set (d : list (K * V)) (k : K) (v : V) : list (K * V) :=
  match d with
  | [] => [(k, v)]
  | (k', v') :: r =>
      if eqb k' k then (k', v) :: r else (k', v') :: dict_set r k v
  end.

(** [del d[k]] for a key that is present *)
Fixpoint dict_del (d : list (K * V)) (k : K) : list (K * V) :=
  match d with
  | [] => []
  | (k', v') :: r => if eqb k' k then r else (k', v') :: dict_del r k
  end.

(** [dict(pairs)] *)
Definition dict_of (pairs : list (K * V)) : list (K * V) :=
  fold_left (fun d kv => dict_set d (fst kv) (snd kv)) pairs [].
End Dict.

(** Dictionaries with string keys, and with arbitrary hashable keys. *)
Definition sget {V} (d : list (string * V)) (k : string) : option V :=
  dict_get String.eqb d k.
Definition sset {V} (d : list (string * V)) (k : string) (v : V) :=
  dict_set String.eqb d k v.
Definition smem {V} (d : list (string * V)) (k : string) : bool :=
  dict_mem String.eqb d k.

(** [kwargs.get(k)], with [None] for a missing key *)
Definition kwargs_get (kwargs : list (string * value)) (k : string) : value :=
  match sget kwargs k with Some v => v | None => VNone end.

(** *** Objects *)

(** An instance: the name of its class and its [__dict__]. *)
Record object := mk_object
  { class_name : string; attrs : list (string * value) }.

(** [self.k] for an instance attribute *)
Definition attr (self : object) (k : string) : result value :=
  match sget (attrs self) k with
  | Some v => Ok v
  | None => Raise AttributeError
  end.

(** [self.k = v] for a plain attribute *)
Definition setattr (self : object) (k : string) (v : value) : object :=
  {| class_name := class_name self; attrs := sset (attrs self) k v |}.

(** What a class provides under a name through the class statement itself
    and through [object] ([__class__], [__dict__], [__doc__],
    [__module__], [__hash__] and the like): nothing, a data descriptor
    (looked up before the [__dict__] of the instance) or a plain class
    attribute (looked up after it).  What is found is a value, or an
    object that is no value of this embedding (a class, a dictionary, a
    method), written [None] here. *)
Inductive class_attr :=
| NoClassAttr
| DataDescriptor (v : option value)
| ClassAttr (v : option value).

(** *** The library calls *)

Class Env := mk_env
  { (** [hashlib.sha256(b).hexdigest()] for the bytes [b] *)
    sha256_hexdigest : string -> string;
    (** the successive readings of [datetime.utcnow()] *)
    utcnow_at : nat -> datetime;
    (** the successive results of [str(uuid.uuid4())] *)
    uuid4_at : nat -> string;
    (** what the interpreter provides to the class of the given name under
        the given attribute name, beyond the properties and the methods
        the class defines *)
    object_attr : string -> string -> class_attr;
    (** a hexdigest is written with the digits [0-9a-f] *)
    hexdigest_lower : forall s, lower (sha256_hexdigest s) = sha256_hexdigest s }.

End Py.

Declare Scope result_scope.
Delimit Scope result_scope with R.
Notation "x <- r ;; k" := (Py.rbind r (fun x => k))
  (at level 100, r at next level, right associativity) : result_scope.

(** ** Timestamps: [strftime] and [strptime] with [TIMESTAMP_FORMAT] *)

Module Timestamp.
Import Py.

Definition TIMESTAMP_FORMAT : string := "%Y-%m-%dT%H:%M:%S".

(** [d.strftime(TIMESTAMP_FORMAT)].  Every field is zero padded; for a year
    below 1000 the padding of [%Y] is left to the C library, and the
    properties below are stated from year 1000 on. *)
Definition strftime (d : datetime) : string :=
  zfill 4 (year d) ++ "-" ++ zfill 2 (month d) ++ "-" ++ zfill 2 (day d)
  ++ "T" ++ zfill 2 (hour d) ++ ":" ++ zfill 2 (minute d) ++ ":"
  ++ zfill 2 (second d).

Definition digit_val (c : ascii) : option Z :=
  let n := Z.of_nat (nat_of_ascii c) in
  if (48 <=? n) && (n <=? 57) then Some (n - 48) else None.

(** The text before the first separator and the text after it. *)
Fixpoint cut (sep : ascii -> bool) (s : string) : option (string * string) :=
  match s with
  | EmptyString => None
  | String c r =>
      if sep c then Some (EmptyString, r)
      else match cut sep r with
           | Some (a, b) => Some (String c a, b)
           | None => None
           end
  end.

Definition is_char (c : ascii) : ascii -> bool := Ascii.eqb c.

(** The literal [T] of the format is matched ignoring case. *)
Definition is_T (c : ascii) : bool := Ascii.eqb c "T" || Ascii.eqb c "t".

(** One or two decimal digits. *)
Definition digits12 (s : string) : option Z :=
  match s with
  | String a EmptyString => digit_val a
  | String a (String b EmptyString) =>
      match digit_val a, digit_val b with
      | Some x, Some y => Some (10 * x + y)
      | _, _ => None
      end
  | _ => None
  end.

Definition in_range (lo hi : Z) (o : option Z) : option Z :=
  match o with
  | Some n => if (lo <=? n) && (n <=? hi) then Some n else None
  | None => None
  end.

(** [%Y]: exactly four digits. *)
Definition directive_Y (s : string) : option Z :=
  match s with
  | String a (String b (String c (String d EmptyString))) =>
      match digit_val a, digit_val b, digit_val c, digit_val d with
      | Some x, Some y, Some z, Some t =>
          Some (1000 * x + 100 * y + 10 * z + t)
      | _, _, _, _ => None
      end
  | _ => None
  end.

(** [%m]: [1[0-2]|0[1-9]|[1-9]] *)
Definition directive_m (s : string) : option Z := in_range 1 12 (digits12 s).

(** [%d]: [3[0-1]|[1-2]\d|0[1-9]|[1-9]| [1-9]] *)
Definition directive_d (s : string) : option Z :=
  match s with
  | String " " (String b EmptyString) => in_range 1 9 (digit_val b)
  | _ => in_range 1 31 (digits12 s)
  end.

(** [%H]: [2[0-3]|[0-1]\d|\d] *)
Definition directive_H (s : string) : option Z := in_range 0 23 (digits12 s).

(** [%M]: [[0-5]\d|\d] *)
Definition directive_M (s : string) : option Z := in_range 0 59 (digits12 s).

(** [%S]: [6[0-1]|[0-5]\d|\d] *)
Definition directive_S (s : string) : option Z := in_range 0 61 (digits12 s).

Definition is_leap (y : Z) : bool :=
  (y mod 4 =? 0) && (negb (y mod 100 =? 0) || (y mod 400 =? 0)).

Definition days_in_month (y m : Z) : Z :=
  if m =? 2 then (if is_leap y then 29 else 28)
  else if (m =? 4) || (m =? 6) || (m =? 9) || (m =? 11) then 30
  else 31.

(** The range checks of the [datetime] constructor. *)
Definition dt_validb (d : datetime) : bool :=
  (1 <=? year d) && (year d <=? 9999)
  && (1 <=? month d) && (month d <=? 12)
  && (1 <=? day d) && (day d <=? days_in_month (year d) (month d))
  && (0 <=? hour d) && (hour d <=? 23)
  && (0 <=? minute d) && (minute d <=? 59)
  && (0 <=? second d) && (second d <=? 59)
  && (0 <=? microsecond d) && (microsecond d <=? 999999).

(** [datetime.strptime(s, TIMESTAMP_FORMAT)] for an ASCII text [s];
    [None] stands for the [ValueError] of a string that does not match the
    format or does not denote a date.  The fields are the texts between
    the separators, each of which has to match its directive entirely.
    The library also reads the decimal digits of other scripts, which are
    not followed here: what is said of a string this function rejects is
    said of ASCII strings. *)
Definition strptime (s : string) : option datetime :=
  '(fY, r1) ← cut (is_char "-") s;
  '(fm, r2) ← cut (is_char "-") r1;
  '(fd, r3) ← cut is_T r2;
  '(fH, r4) ← cut (is_char ":") r3;
  '(fM, fS) ← cut (is_char ":") r4;
  y ← directive_Y fY;
  mo ← directive_m fm;
  da ← directive_d fd;
  ho ← directive_H fH;
  mi ← directive_M fM;
  se ← directive_S fS;
  let dt := mk_datetime y mo da ho mi se 0 in
  if dt_validb dt then Some dt else None.

(** A datetime without its microseconds. *)
Definition truncate_second (d : datetime) : datetime :=
  mk_datetime (year d) (month d) (day d) (hour d) (minute d) (second d) 0.

End Timestamp.

(** ** 0x01-Basic_authentication/models/user.py *)

Module Basic_authentication.
Module User.
Import Py.

Section WithEnv.
Context `{E : Env}.

(** [User._hash_password] *)
Definition _hash_password (pwd : string) : result string :=
  (b <- encode pwd ;; Ok (lower (sha256_hexdigest b)))%R.

(** the getter of the property [password] *)
Definition password (self : object) : result value := attr self "_password".

(** the setter of the property [password] *)
Definition set_password (self : object) (pwd : value) : result object :=
  (v <- match pwd with
        | VStr s => h <- _hash_password s ;; Ok (VStr h)
        | _ => Ok VNone
        end ;;
   Ok (setattr self "_password" v))%R.

(** [User.is_valid_password] *)
Definition is_valid_password (self : object) (pwd : value) : result bool :=
  match pwd with
  | VStr s =>
      (p <- password self ;;
       match p with
       | VNone => Ok false
       | _ =>
           h <- _hash_password s ;;
           p' <- password self ;;
           Ok (py_eq (VStr h) p')
       end)%R
  | _ => Ok false
  end.

End WithEnv.

(** [f"{a} {b}"] *)
Definition fstring_pair (a b : value) : value :=
  VStr (py_str a ++ " " ++ py_str b).

(** [User.display_name] *)
Definition display_name (self : object) : result value :=
  (f <- attr self "first_name" ;;
   both <- (if truthy f
            then l <- attr self "last_name" ;; Ok (truthy l)
            else Ok false) ;;
   if (both : bool) then
     f <- attr self "first_name" ;;
     l <- attr self "last_name" ;;
     Ok (fstring_pair f l)
   else
     f <- attr self "first_name" ;;
     if truthy f then Ok f else
     l <- attr self "last_name" ;;
     if truthy l then Ok l else
     e <- attr self "email" ;;
     if truthy e then Ok e else
     Ok (VStr ""))%R.

End User.
End Basic_authentication.

(** ** 0x02-Session_authentication *)

Module Session_authentication.
Import Py Timestamp.

(** *** The state: heap, [DATA], files, and the positions reached in the
    clock and uuid streams *)

(** What a [.db_<class>.json] file holds: the object written by
    [json.dump], or the remains of a dump that raised. *)
Inductive file_content :=
| JsonDoc (objs : list (string * list (string * value)))
| Truncated.

Record world := mk_world
  { heap : list object;
    DATA : list (string * list (value * nat));
    files : list (string * file_content);
    clock : nat;
    uuids : nat }.

Definition with_heap (h : list object) (w : world) : world :=
  mk_world h (DATA w) (files w) (clock w) (uuids w).
Definition with_DATA (D : list (string * list (value * nat))) (w : world)
  : world :=
  mk_world (heap w) D (files w) (clock w) (uuids w).
Definition with_files (fs : list (string * file_content)) (w : world)
  : world :=
  mk_world (heap w) (DATA w) fs (clock w) (uuids w).

(** State and exceptions: an exception keeps the state reached so far. *)
Definition M (A : Type) : Type := world -> result A * world.

Definition ret {A} (a : A) : M A := fun w => (Ok a, w).
Definition raise {A} (e : exn) : M A := fun w => (Raise e, w).
Definition bind {A B} (m : M A) (k : A -> M B) : M B :=
  fun w =>
    match m w with
    | (Ok a, w') => k a w'
    | (Raise e, w') => (Raise e, w')
    end.
(** [try: m except Exception as e: h e] *)
Definition try_except {A} (m : M A) (h : exn -> M A) : M A :=
  fun w =>
    match m w with
    | (Ok a, w') => (Ok a, w')
    | (Raise e, w') => h e w'
    end.
Definition lift {A} (r : result A) : M A := fun w => (r, w).

Declare Scope M_scope.
Delimit Scope M_scope with M.
Notation "x <- m ;; k" := (bind m (fun x => k))
  (at level 100, m at next level, right associativity) : M_scope.
Notation "m ;;; k" := (bind m (fun _ => k))
  (at level 100, right associativity) : M_scope.

Fixpoint for_each {A} (l : list A) (body : A -> M unit) : M unit :=
  match l with
  | [] => ret tt
  | x :: r => (body x ;;; for_each r body)%M
  end.

Fixpoint map_M {A B} (f : A -> M B) (l : list A) : M (list B) :=
  match l with
  | [] => ret []
  | x :: r => (y <- f x ;; ys <- map_M f r ;; ret (y :: ys))%M
  end.

Fixpoint filter_M {A} (f : A -> M bool) (l : list A) : M (list A) :=
  match l with
  | [] => ret []
  | x :: r =>
      (b <- f x ;; ys <- filter_M f r ;; ret (if b then x :: ys else ys))%M
  end.

Definition get_DATA : M (list (string * list (value * nat))) :=
  fun w => (Ok (DATA w), w).
Definition set_DATA (D : list (string * list (value * nat))) : M unit :=
  fun w => (Ok tt, with_DATA D w).
Definition get_files : M (list (string * file_content)) :=
  fun w => (Ok (files w), w).
Definition set_files (fs : list (string * file_content)) : M unit :=
  fun w => (Ok tt, with_files fs w).

(** A new object; its reference is its position in the heap. *)
Definition alloc (o : object) : M nat :=
  fun w => (Ok (length (heap w)), with_heap (heap w ++ [o])%list w).
(** The object behind a reference ([ReferenceError] is never raised on a
    reference obtained from [alloc]). *)
Definition deref (r : nat) : M object :=
  fun w =>
    match heap w !! r with
    | Some o => (Ok o, w)
    | None => (Raise ReferenceError, w)
    end.
Definition store (r : nat) (o : object) : M unit :=
  fun w => (Ok tt, with_heap (<[r := o]> (heap w)) w).

(** [obj.k = v] through a reference *)
Definition set_attr (r : nat) (k : string) (v : value) : M unit :=
  (o <- deref r ;; store r (setattr o k v))%M.

(** [DATA[s_class]] *)
Definition data_of (s_class : string) : M (list (value * nat)) :=
  (D <- get_DATA ;;
   match sget D s_class with
   | Some d => ret d
   | None => raise KeyError
   end)%M.

(** [DATA[s_class][k] = r] *)
Definition data_set (s_class : string) (k : value) (r : nat) : M unit :=
  (d <- data_of s_class ;;
   D <- get_DATA ;;
   set_DATA (sset D s_class (dict_set py_eq d k r)))%M.

Section WithEnv.
Context `{E : Env}.

(** [datetime.utcnow()] *)
Definition utcnow : M datetime :=
  fun w =>
    (Ok (utcnow_at (clock w)),
     mk_world (heap w) (DATA w) (files w) (S (clock w)) (uuids w)).

(** [str(uuid.uuid4())] *)
Definition uuid4 : M string :=
  fun w =>
    (Ok (uuid4_at (uuids w)),
     mk_world (heap w) (DATA w) (files w) (clock w) (S (uuids w))).

End WithEnv.

(** A class: its name, its constructor (which returns the [__dict__] of
    the new instance), its properties with the attribute each one reads,
    the names of its methods, and what it inherits under the other
    names. *)
Record klass := mk_klass
  { cls_name : string;
    cls_init : list (string * value) -> M (list (string * value));
    cls_properties : list (string * string);
    cls_methods : list string;
    cls_inherited : string -> class_attr }.

(** Calling the class [cls] with keyword arguments [kwargs]. *)
Definition new (cls : klass) (kwargs : list (string * value)) : M nat :=
  (a <- cls_init cls kwargs ;; alloc (mk_object (cls_name cls) a))%M.

(** The three outcomes of [getattr(obj, k)]: a value, an object that is
    no value of this embedding (a bound method, a class, a dictionary) and
    so equals none of them, or an [AttributeError]. *)
Inductive attr_lookup :=
| AttrValue (v : value)
| AttrMethod
| AttrMissing.

Definition inherited (v : option value) : attr_lookup :=
  match v with
  | Some x => AttrValue x
  | None => AttrMethod
  end.

(** The lookup order of Python: the data descriptors of the class (its
    properties among them), the [__dict__] of the instance, then the
    other attributes of the class (its methods among them). *)
Definition getattr (cls : klass) (obj : object) (k : string) : attr_lookup :=
  match sget (cls_properties cls) k with
  | Some backing =>
      match sget (attrs obj) backing with
      | Some v => AttrValue v
      | None => AttrMissing
      end
  | None =>
      match cls_inherited cls k with
      | DataDescriptor v => inherited v
      | from_class =>
          match sget (attrs obj) k with
          | Some v => AttrValue v
          | None =>
              if existsb (String.eqb k) (cls_methods cls) then AttrMethod
              else
                match from_class with
                | ClassAttr v => inherited v
                | _ => AttrMissing
                end
          end
      end
  end.

(** *** models/base.py *)

Module Base.

Definition file_path (s_class : string) : string :=
  ".db_" ++ s_class ++ ".json".

Section WithEnv.
Context `{E : Env}.

(** [Base._parse_datetime] *)
Definition _parse_datetime (date_str : value) : M datetime :=
  if truthy date_str then
    match date_str with
    | VStr s =>
        match strptime s with
        | Some d => ret d
        | None => raise (ValueError "time data does not match format")
        end
    | _ => raise TypeError
    end
  else utcnow.

(** [Base.__init__], for an instance of the class named [s_class]; the
    default of [kwargs.get('id', ...)] is computed whether it is used or
    not. *)
Definition __init__ (s_class : string) (kwargs : list (string * value))
  : M (list (string * value)) :=
  (D <- get_DATA ;;
   (if negb (smem D s_class) then set_DATA (sset D s_class []) else ret tt) ;;;
   u <- uuid4 ;;
   let self := sset [] "id"
                 (match sget kwargs "id" with Some v => v | None => VStr u end)
   in
   created_at <- _parse_datetime (kwargs_get kwargs "created_at") ;;
   let self := sset self "created_at" (VDatetime created_at) in
   updated_at <- _parse_datetime (kwargs_get kwargs "updated_at") ;;
   let self := sset self "updated_at" (VDatetime updated_at) in
   ret self)%M.

End WithEnv.

(** [value.strftime(TIMESTAMP_FORMAT) if isinstance(value, datetime)
    else value] *)
Definition json_value (v : value) : value :=
  match v with
  | VDatetime d => VStr (strftime d)
  | _ => v
  end.

(** [Base.to_json] *)
Definition to_json (self : object) (for_serialization : bool)
  : list (string * value) :=
  fold_left
    (fun result kv =>
       if negb for_serialization && String.prefix "_" (fst kv) then result
       else sset result (fst kv) (json_value (snd kv)))
    (attrs self) [].

(** The key [json.dump] writes for a dictionary key; a datetime key is a
    [TypeError]. *)
Definition json_key (k : value) : option string :=
  match k with
  | VStr s => Some s
  | VInt n => Some (str_int n)
  | VBool true => Some "true"
  | VBool false => Some "false"
  | VNone => Some "null"
  | VDatetime _ => None
  end.

Fixpoint json_dump (objs : list (value * list (string * value)))
  : option (list (string * list (string * value))) :=
  match objs with
  | [] => Some []
  | (k, o) :: r =>
      match json_key k, json_dump r with
      | Some s, Some r' => Some ((s, o) :: r')
      | _, _ => None
      end
  end.

(** [Base.load_from_file] *)
Definition load_from_file (cls : klass) : M unit :=
  let s_class := cls_name cls in
  (D <- get_DATA ;;
   set_DATA (sset D s_class []) ;;;
   fs <- get_files ;;
   match sget fs (file_path s_class) with
   | None => ret tt
   | Some Truncated => raise (ValueError "JSONDecodeError")
   | Some (JsonDoc objs) =>
       for_each (dict_of String.eqb objs)
         (fun kv =>
            r <- new cls (snd kv) ;;
            data_set s_class (VStr (fst kv)) r)
   end)%M.

(** [Base.save_to_file]; the class enters through its name only.  The file
    is opened for writing, hence emptied, before [json.dump] runs. *)
Definition save_to_file (s_class : string) : M unit :=
  (d <- data_of s_class ;;
   objs_json <- map_M (fun kr => o <- deref (snd kr) ;;
                                 ret (fst kr, Base.to_json o true)) d ;;
   let objs_json := dict_of py_eq objs_json in
   fs <- get_files ;;
   set_files (sset fs (file_path s_class) Truncated) ;;;
   match json_dump objs_json with
   | Some doc =>
       fs <- get_files ;;
       set_files (sset fs (file_path s_class) (JsonDoc doc))
   | None => raise TypeError
   end)%M.

Section WithEnv.
Context `{E : Env}.

(** [Base.save]; in [DATA[s_class][self.id] = self] the dictionary
    [DATA[s_class]] is looked up before [self.id] is read. *)
Definition save (self : nat) : M unit :=
  (o <- deref self ;;
   let s_class := class_name o in
   now <- utcnow ;;
   set_attr self "updated_at" (VDatetime now) ;;;
   data_of s_class ;;;
   o <- deref self ;;
   id <- lift (attr o "id") ;;
   data_set s_class id self ;;;
   save_to_file s_class)%M.

End WithEnv.

(** [Base.remove] *)
Definition remove (self : nat) : M unit :=
  (o <- deref self ;;
   let s_class := class_name o in
   id <- lift (attr o "id") ;;
   d <- data_of s_class ;;
   if dict_mem py_eq d id then
     d <- data_of s_class ;;
     D <- get_DATA ;;
     set_DATA (sset D s_class (dict_del py_eq d id)) ;;;
     save_to_file s_class
   else ret tt)%M.

(** [Base.count] *)
Definition count (cls : klass) : M Z :=
  (d <- data_of (cls_name cls) ;; ret (Z.of_nat (length d)))%M.

(** [Base.get] *)
Definition get (cls : klass) (id : value) : M (option nat) :=
  (d <- data_of (cls_name cls) ;; ret (dict_get py_eq d id))%M.

(** [all(getattr(obj, k) == v for k, v in attributes.items())] *)
Fixpoint all_equal (cls : klass) (obj : object)
    (attributes : list (string * value)) : result bool :=
  match attributes with
  | [] => Ok true
  | (k, v) :: rest =>
      match getattr cls obj k with
      | AttrMissing => Raise AttributeError
      | AttrMethod => Ok false
      | AttrValue x => if py_eq x v then all_equal cls obj rest else Ok false
      end
  end.

(** the inner function [_search] of [Base.search] *)
Definition _search (cls : klass) (attributes : list (string * value))
    (obj : nat) : M bool :=
  (o <- deref obj ;; lift (all_equal cls o attributes))%M.

(** [Base.search] *)
Definition search (cls : klass) (attributes : list (string * value))
  : M (list nat) :=
  (d <- data_of (cls_name cls) ;;
   filter_M (_search cls attributes) (map snd d))%M.

(** [Base.all] *)
Definition all (cls : klass) : M (list nat) := search cls [].

Definition methods : list string :=
  ["__init__"; "_parse_datetime"; "__eq__"; "to_json"; "load_from_file";
   "save_to_file"; "save"; "remove"; "count"; "all"; "get"; "search"].

Definition cls `{E : Env} : klass :=
  mk_klass "Base" (__init__ "Base") [] methods (object_attr "Base").

End Base.

(** *** models/user.py *)

Module User.

Section WithEnv.
Context `{E : Env}.

(** [User.__init__]; only the keys read here are taken from [kwargs]. *)
Definition __init__ (kwargs : list (string * value))
  : M (list (string * value)) :=
  (self <- Base.__init__ "User" kwargs ;;
   let self := sset self "email" (kwargs_get kwargs "email") in
   let self := sset self "_password" (kwargs_get kwargs "_password") in
   let self := sset self "first_name" (kwargs_get kwargs "first_name") in
   let self := sset self "last_name" (kwargs_get kwargs "last_name") in
   ret self)%M.

(** the getter of the property [password] *)
Definition password (self : object) : result value := attr self "_password".

(** the setter of the property [password] *)
Definition set_password (self : object) (pwd : value) : result object :=
  match pwd with
  | VStr s =>
      (b <- encode s ;;
       Ok (setattr self "_password" (VStr (lower (sha256_hexdigest b)))))%R
  | _ => Ok (setattr self "_password" VNone)
  end.

(** [User.is_valid_password] *)
Definition is_valid_password (self : object) (pwd : value) : result bool :=
  match pwd with
  | VStr s =>
      (p <- password self ;;
       match p with
       | VNone => Ok false
       | _ =>
           b <- encode s ;;
           let hashed_pwd := VStr (lower (sha256_hexdigest b)) in
           p' <- password self ;;
           Ok (py_eq hashed_pwd p')
       end)%R
  | _ => Ok false
  end.

End WithEnv.

(** [bool(self.k)] *)
Definition truth (self : object) (k : string) : result bool :=
  (v <- attr self k ;; Ok (truthy v))%R.

(** [not self.k] *)
Definition falsy (self : object) (k : string) : result bool :=
  (v <- attr self k ;; Ok (negb (truthy v)))%R.

(** [a and b] on conditions: [b] is evaluated only when [a] holds *)
Definition and_then (a b : result bool) : result bool :=
  (x <- a ;; if (x : bool) then b else Ok false)%R.

(** [User.display_name] *)
Definition display_name (self : object) : result value :=
  (c1 <- and_then (truth self "email")
           (and_then (falsy self "first_name") (falsy self "last_name")) ;;
   if (c1 : bool) then attr self "email" else
   c2 <- and_then (truth self "first_name") (falsy self "last_name") ;;
   if (c2 : bool) then attr self "first_name" else
   c3 <- and_then (truth self "last_name") (falsy self "first_name") ;;
   if (c3 : bool) then attr self "last_name" else
   c4 <- and_then (truth self "first_name") (truth self "last_name") ;;
   if (c4 : bool) then
     f <- attr self "first_name" ;;
     l <- attr self "last_name" ;;
     Ok (Basic_authentication.User.fstring_pair f l)
   else Ok (VStr ""))%R.

Definition methods : list string :=
  (Base.methods ++ ["is_valid_password"; "display_name"])%list.

Definition cls `{E : Env} : klass :=
  mk_klass "User" __init__ [("password", "_password")] methods
    (object_attr "User").

End User.

(** *** models/user_session.py *)

Module UserSession.

(** [UserSession.__init__] *)
Definition __init__ `{E : Env} (kwargs : list (string * value))
  : M (list (string * value)) :=
  (self <- Base.__init__ "UserSession" kwargs ;;
   let self := sset self "user_id" (kwargs_get kwargs "user_id") in
   let self := sset self "session_id" (kwargs_get kwargs "session_id") in
   ret self)%M.

Definition cls `{E : Env} : klass :=
  mk_klass "UserSession" __init__ [] Base.methods
    (object_attr "UserSession").

End UserSession.

(** *** api/v1/views/users.py *)

Module views.

(** What [request.get_json()] gives: a failure to parse, or the parsed
    document. *)
Inductive json_body :=
| BodyInvalid
| BodyScalar (v : value)
| BodyArray (l : list value)
| BodyObject (d : list (string * value)).

(** The request: its path, its body, and the attribute [current_user],
    which exists once the request gate has set it. *)
Record request := mk_request
  { path : string;
    body : json_body;
    current_user : option (option nat) }.

(** What is handed to [jsonify]. *)
Inductive payload :=
| PList (l : list (list (string * value)))
| PDict (d : list (string * value))
| PError (e : exn).

Definition response : Type := payload * Z.

(** [abort(code)] *)
Definition abort {A} (code : Z) : M A := raise (HTTPException code).

(** [request.get_json()] *)
Definition get_json (req : request) : M json_body :=
  match body req with
  | BodyInvalid => abort 400
  | rj => ret rj
  end.

(** [bool(rj)] *)
Definition body_truthy (rj : json_body) : bool :=
  match rj with
  | BodyInvalid => false
  | BodyScalar v => truthy v
  | BodyArray l => negb (Nat.eqb (length l) 0)
  | BodyObject d => negb (Nat.eqb (length d) 0)
  end.

(** [rj.get(k)]: only a dictionary has the method *)
Definition body_get (rj : json_body) (k : string) : M value :=
  match rj with
  | BodyObject d => ret (kwargs_get d k)
  | _ => raise AttributeError
  end.

(** [k in rj] *)
Definition body_contains (rj : json_body) (k : string) : M bool :=
  match rj with
  | BodyObject d => ret (smem d k)
  | BodyArray l => ret (existsb (py_eq (VStr k)) l)
  | BodyScalar (VStr s) => ret (contains s k)
  | _ => raise TypeError
  end.

Section WithEnv.
Context `{E : Env}.

(** [get_user_by_id] *)
Definition get_user_by_id (user_id : option string) : M nat :=
  match user_id with
  | None => abort 404
  | Some id =>
      (user <- Base.get User.cls (VStr id) ;;
       match user with
       | None => abort 404
       | Some u => ret u
       end)%M
  end.

(** [user.to_json()] through a reference *)
Definition to_json_of (r : nat) : M (list (string * value)) :=
  (o <- deref r ;; ret (Base.to_json o false))%M.

(** [GET /api/v1/users] *)
Definition view_all_users : M response :=
  (users <- Base.all User.cls ;;
   all_users <- map_M to_json_of users ;;
   ret (PList all_users, 200))%M.

(** [GET /api/v1/users/:id] *)
Definition view_one_user (req : request) (user_id : option string)
  : M response :=
  if match user_id with Some id => (id =? "me")%string | None => false end
  then
    match current_user req with
    | None => raise AttributeError
    | Some None => abort 404
    | Some (Some u) => (j <- to_json_of u ;; ret (PDict j, 200))%M
    end
  else
    (user <- get_user_by_id user_id ;;
     j <- to_json_of user ;;
     ret (PDict j, 200))%M.

(** [DELETE /api/v1/users/:id] *)
Definition delete_user (user_id : option string) : M response :=
  (user <- get_user_by_id user_id ;;
   Base.remove user ;;;
   ret (PDict [], 200))%M.

(** [POST /api/v1/users] *)
Definition create_user (req : request) : M response :=
  try_except
    (rj <- get_json req ;;
     (if negb (body_truthy rj) then raise (ValueError "Wrong format")
      else ret tt) ;;;
     e <- body_get rj "email" ;;
     (if negb (truthy e) then raise (ValueError "email missing")
      else ret tt) ;;;
     p <- body_get rj "password" ;;
     (if negb (truthy p) then raise (ValueError "password missing")
      else ret tt) ;;;
     email <- body_get rj "email" ;;
     password <- body_get rj "password" ;;
     first_name <- body_get rj "first_name" ;;
     last_name <- body_get rj "last_name" ;;
     user <- new User.cls [("email", email); ("password", password);
                           ("first_name", first_name);
                           ("last_name", last_name)] ;;
     Base.save user ;;;
     j <- to_json_of user ;;
     ret (PDict j, 201))%M
    (fun e => ret (PError e, 400)).

(** [PUT /api/v1/users/:id] *)
Definition update_user (req : request) (user_id : option string)
  : M response :=
  (user <- get_user_by_id user_id ;;
   try_except
     (rj <- get_json req ;;
      (if negb (body_truthy rj) then raise (ValueError "Wrong format")
       else ret tt) ;;;
      has_first <- body_contains rj "first_name" ;;
      (if (has_first : bool) then
         v <- body_get rj "first_name" ;; set_attr user "first_name" v
       else ret tt) ;;;
      has_last <- body_contains rj "last_name" ;;
      (if (has_last : bool) then
         v <- body_get rj "last_name" ;; set_attr user "last_name" v
       else ret tt) ;;;
      Base.save user ;;;
      j <- to_json_of user ;;
      ret (PDict j, 200))
     (fun e => ret (PError e, 400)))%M.

End WithEnv.
End views.

(** *** api/v1/app.py *)

Module app.
Import views.

(** The authentication strategies ([api/v1/auth/]) are used through four
    methods; a strategy is given by what they return. *)
Record Auth := mk_auth
  { require_auth : string -> list string -> bool;
    authorization_header : request -> value;
    session_cookie : request -> value;
    current_user_of : request -> option nat }.

Definition excluded_list : list string :=
  ["/api/v1/status/"; "/api/v1/unauthorized/"; "/api/v1/forbidden/";
   "/api/v1/auth_session/login/"].

(** [handle_auth], run before every request; [auth] is [None] when no
    strategy is configured.  Returns the outcome and the request, on which
    [current_user] may have been set. *)
Definition handle_auth (auth : option Auth) (req : request)
  : result unit * request :=
  match auth with
  | None => (Ok tt, req)
  | Some a =>
      if negb (require_auth a (path req) excluded_list) then (Ok tt, req)
      else if negb (truthy (authorization_header a req))
              && negb (truthy (session_cookie a req))
      then (Raise (HTTPException 401), req)
      else
        let req' :=
          mk_request (path req) (body req) (Some (current_user_of a req)) in
        match current_user req' with
        | Some (Some _) => (Ok tt, req')
        | _ => (Raise (HTTPException 403), req')
        end
  end.

End app.

End Session_authentication.

(** ** 0x01-Basic_authentication: models/base.py and api/v1/app.py

    The store of the first project has the same state as the one above (a
    module-level [DATA], the heap, the files); its functions differ in how
    they treat a missing class and a given time stamp. *)

Module Basic_authentication_api.
Import Py Timestamp Session_authentication.

Module Base.

Section WithEnv.
Context `{E : Env}.

(** [datetime.strptime(v, TIMESTAMP_FORMAT)] on a value *)
Definition strptime_value (v : value) : M datetime :=
  match v with
  | VStr s =>
      match strptime s with
      | Some d => ret d
      | None => raise (ValueError "time data does not match format")
      end
  | _ => raise TypeError
  end.

(** [datetime.strptime(kwargs[k], TIMESTAMP_FORMAT) if k in kwargs else
    datetime.utcnow()] *)
Definition timestamp_of (kwargs : list (string * value)) (k : string)
  : M datetime :=
  match sget kwargs k with
  | Some v => strptime_value v
  | None => utcnow
  end.

(** [Base.__init__] *)
Definition __init__ (s_class : string) (kwargs : list (string * value))
  : M (list (string * value)) :=
  (D <- get_DATA ;;
   (if smem D s_class then ret tt else set_DATA (sset D s_class [])) ;;;
   u <- uuid4 ;;
   let self := sset [] "id"
                 (match sget kwargs "id" with Some v => v | None => VStr u end)
   in
   created_at <- timestamp_of kwargs "created_at" ;;
   let self := sset self "created_at" (VDatetime created_at) in
   updated_at <- timestamp_of kwargs "updated_at" ;;
   let self := sset self "updated_at" (VDatetime updated_at) in
   ret self)%M.

End WithEnv.

(** [DATA.get(cls.__name__, {})] *)
Definition data_or_empty (cls : klass) : M (list (value * nat)) :=
  (D <- get_DATA ;;
   ret (match sget D (cls_name cls) with Some d => d | None => [] end))%M.

(** [Base.count] *)
Definition count (cls : klass) : M Z :=
  (d <- data_or_empty cls ;; ret (Z.of_nat (length d)))%M.

(** [Base.get] *)
Definition get (cls : klass) (id : value) : M (option nat) :=
  (d <- data_or_empty cls ;; ret (dict_get py_eq d id))%M.

(** [Base.search]: the empty map returns the values as they are, another
    map filters them. *)
Definition search (cls : klass) (attributes : list (string * value))
  : M (list nat) :=
  match attributes with
  | [] => (d <- data_or_empty cls ;; ret (map snd d))%M
  | _ =>
      (d <- data_or_empty cls ;;
       filter_M (Session_authentication.Base._search cls attributes)
         (map snd d))%M
  end.

(** [Base.all] *)
Definition all (cls : klass) : M (list nat) := search cls [].

End Base.

Module app.
Import views.

Definition excluded_paths : list string :=
  ["/api/v1/status/"; "/api/v1/unauthorized/"; "/api/v1/forbidden/"].

(** [handle_auth] of the first project: only the [Authorization] header
    counts, and the user found is not kept on the request. *)
Definition handle_auth (auth : option Session_authentication.app.Auth)
    (req : request) : result unit :=
  match auth with
  | None => Ok tt
  | Some a =>
      if negb (Session_authentication.app.require_auth a (path req)
                 excluded_paths)
      then Ok tt
      else if negb (truthy
                      (Session_authentication.app.authorization_header a req))
      then Raise (HTTPException 401)
      else
        match Session_authentication.app.current_user_of a req with
        | Some _ => Ok tt
        | None => Raise (HTTPException 403)
        end
  end.

End app.

End Basic_authentication_api.

(** ** 0x00-personal_data/filtered_logger.py *)

Module Personal_data.

Definition PII_FIELDS : list string :=
  ["name"; "email"; "phone"; "ssn"; "password"].

(** [RedactingFormatter.REDACTION] and [RedactingFormatter.SEPARATOR] *)
Definition REDACTION : string := "***".
Definition SEPARATOR : string := ";".

(** What is left of [s] after its prefix [p]. *)
Fixpoint strip_prefix (p s : string) : option string :=
  match p with
  | EmptyString => Some s
  | String a p' =>
      match s with
      | EmptyString => None
      | String b s' => if Ascii.eqb a b then strip_prefix p' s' else None
      end
  end.

(** The length of the longest run of characters other than the separator
    at the start of [s]: what [[^sep]+] takes. *)
Fixpoint value_length (sep : ascii) (s : string) : nat :=
  match s with
  | EmptyString => O
  | String c r => if Ascii.eqb c sep then O else S (value_length sep r)
  end.

(** The alternatives of the group [("|".join(fields))]: the fields in
    their order; joining no field leaves the empty alternative. *)
Definition alternatives (fields : list string) : list string :=
  match fields with
  | [] => [EmptyString]
  | _ => fields
  end.

(** A match of [(f1|f2|...)=([^sep]+)] at the start of [s]: the first
    alternative that is followed by [=] and by at least one character other
    than the separator, with the length of the whole match. *)
Fixpoint match_here (sep : ascii) (alts : list string) (s : string)
  : option (string * nat) :=
  match alts with
  | [] => None
  | f :: rest =>
      match strip_prefix (f ++ "=") s with
      | Some v =>
          match value_length sep v with
          | O => match_here sep rest s
          | S n => Some (f, (String.length f + 1 + S n)%nat)
          end
      | None => match_here sep rest s
      end
  end.

(** [re.sub]: the text is read from the left; where the pattern matches,
    the match is replaced by the field, [=] and the redaction, and reading
    goes on after the match; elsewhere the character is copied.  [skip]
    counts the characters of the current match still to pass over. *)
Fixpoint sub (sep : ascii) (alts : list string) (redaction : string)
    (skip : nat) (s : string) : string :=
  match s with
  | EmptyString => EmptyString
  | String c r =>
      match skip with
      | S n => sub sep alts redaction n r
      | O =>
          match match_here sep alts s with
          | Some (f, len) =>
              f ++ "=" ++ redaction ++ sub sep alts redaction (len - 1) r
          | None => String c (sub sep alts redaction O r)
          end
      end
  end.

(** [c] occurs in [s]. *)
Fixpoint has_char (c : ascii) (s : string) : bool :=
  match s with
  | EmptyString => false
  | String a r => Ascii.eqb a c || has_char c r
  end.

(** A letter, a digit or an underscore: a character a regular expression
    reads as itself. *)
Definition word_char (c : ascii) : bool :=
  let n := nat_of_ascii c in
  (Nat.leb 48 n && Nat.leb n 57) || (Nat.leb 65 n && Nat.leb n 90)
  || (Nat.leb 97 n && Nat.leb n 122) || Nat.eqb n 95.

Fixpoint literal (f : string) : bool :=
  match f with
  | EmptyString => true
  | String c r => word_char c && literal r
  end.

Definition backslash : ascii := ascii_of_nat 92.

(** The calls followed here, for a separator of the one character
    [separator]: every field is made of letters, digits and underscores,
    so that the pattern reads it as the text it is; the redaction has no
    backslash, so that the replacement template [\1=redaction] stands for
    the field, [=] and the redaction as they are; the separator is an
    ASCII character other than the backslash, so that [[^separator]] is
    the class of the other characters. *)
Definition followed (fields : list string) (redaction : string)
    (separator : ascii) : bool :=
  forallb literal fields && negb (has_char backslash redaction)
  && Nat.ltb (nat_of_ascii separator) 128
  && negb (Ascii.eqb separator backslash).

(** [filter_datum].  [None] stands for the calls that are not followed:
    there the separator is empty or has several characters, or the [re]
    module gives a meaning of its own to characters of the fields, of the
    redaction or of the separator, or rejects them. *)
Definition filter_datum (fields : list string) (redaction message : string)
    (separator : string) : option string :=
  match separator with
  | String c EmptyString =>
      if followed fields redaction c
      then Some (sub c (alternatives fields) redaction O message)
      else None
  | _ => None
  end.

End Personal_data.

(** ** A concrete environment for the examples *)

Module Examples.
Import Py Timestamp Session_authentication.

Definition hex_digit (n : nat) : ascii :=
  nth n ["0"; "1"; "2"; "3"; "4"; "5"; "6"; "7"; "8"; "9";
         "a"; "b"; "c"; "d"; "e"; "f"]%char "0"%char.

(** A stand-in for the digest: the bytes of the text in hexadecimal. *)
Fixpoint hexlify (s : string) : string :=
  match s with
  | EmptyString => EmptyString
  | String c r =>
      String (hex_digit (nat_of_ascii c / 16))
        (String (hex_digit (nat_of_ascii c mod 16)) (hexlify r))
  end.

Lemma hexlify_lower (s : string) : lower (hexlify s) = hexlify s.
Proof.
  induction s as [|c r IH]; [reflexivity|].
  cbn [hexlify lower]. rewrite IH. f_equal; [|f_equal].
  - destruct c as [[] [] [] [] [] [] [] []]; reflexivity.
  - destruct c as [[] [] [] [] [] [] [] []]; reflexivity.
Qed.

(** What every class of the repository inherits in the examples: its
    class and its [__dict__] (data descriptors of [object] and of the
    class), [__hash__], which is [None] for a class that defines [__eq__],
    and the name of its module. *)
Definition example_attr (s_class k : string) : class_attr :=
  if (k =? "__class__")%string || (k =? "__dict__")%string
  then DataDescriptor None
  else if (k =? "__hash__")%string then ClassAttr (Some VNone)
  else if (k =? "__module__")%string
  then ClassAttr
         (Some (VStr (if (s_class =? "UserSession")%string
                      then "models.user_session"
                      else "models." ++ lower s_class)))
  else NoClassAttr.

(** The clock advances by one year per reading; the uuids are numbered. *)
#[export] Instance env : Env :=
  mk_env hexlify
    (fun n => mk_datetime (2024 + Z.of_nat n) 1 1 0 0 0 123456)
    (fun n => "uuid-" ++ str_int (Z.of_nat n))
    example_attr
    hexlify_lower.

Definition empty_world : world := mk_world [] [] [] 0 0.

(** A stored user with a password, as [User.__init__] lays it out. *)
Definition alice : object :=
  mk_object "User"
    [("id", VStr "u1");
     ("created_at", VDatetime (mk_datetime 2023 5 17 8 30 59 250000));
     ("updated_at", VDatetime (mk_datetime 2023 5 17 8 31 0 17));
     ("email", VStr "a@b.com");
     ("_password", VStr (hexlify "secret"));
     ("first_name", VStr "Alice");
     ("last_name", VNone)].

Definition one_user : world :=
  mk_world [alice] [("User", [(VStr "u1", 0%nat)])] [] 0 0.

End Examples.

(** * Properties *)

Import Py Timestamp Session_authentication.

(** ** Passwords *)

Lemma sget_sset_same {V} (d : list (string * V)) (k : string) (v : V) :
  sget (sset d k v) k = Some v.
Proof.
  unfold sget, sset. induction d as [|[k' v'] d IH]; cbn.
  - now rewrite String.eqb_refl.
  - destruct (k' =? k)%string eqn:E; cbn; rewrite E; [reflexivity|exact IH].
Qed.

Lemma sget_sset_other {V} (d : list (string * V)) (k k' : string) (v : V) :
  k <> k' -> sget (sset d k v) k' = sget d k'.
Proof.
  intros Hne. unfold sget, sset. induction d as [|[k0 v0] d IH]; cbn.
  - destruct (String.eqb_spec k k'); [contradiction|reflexivity].
  - destruct (String.eqb_spec k0 k) as [->|Hk]; cbn.
    + destruct (String.eqb_spec k k'); [contradiction|reflexivity].
    + destruct (k0 =? k')%string; [reflexivity|exact IH].
Qed.

Lemma password_after_setattr (self : object) (v : value) :
  User.password (setattr self "_password" v) = Ok v.
Proof.
  unfold User.password, attr. cbn [attrs setattr]. now rewrite sget_sset_same.
Qed.

Lemma encode_encodable (s : string) : has_surrogate s = false -> encode s = Ok s.
Proof. intros H. unfold encode. now rewrite H. Qed.

Lemma set_password_encodable `{E : Env} (self : object) (P : string) :
  has_surrogate P = false ->
  User.set_password self (VStr P)
  = Ok (setattr self "_password" (VStr (lower (sha256_hexdigest P)))).
Proof. intros H. unfold User.set_password. now rewrite encode_encodable. Qed.

Lemma set_password_non_string `{E : Env} (self : object) (pwd : value) :
  isinstance_str pwd = false ->
  User.set_password self pwd = Ok (setattr self "_password" VNone)
  /\ Basic_authentication.User.set_password self pwd
     = Ok (setattr self "_password" VNone).
Proof.
  intros H. destruct pwd; try discriminate H; split; reflexivity.
Qed.

(** C4, as the code has it: for a string [P] without lone surrogate,
    [user.password = P] succeeds, after it [is_valid_password(P)] is true,
    and [is_valid_password(P')] is false for every string [P'] without
    lone surrogate whose SHA-256 hexdigest differs from that of [P]. *)
Theorem is_valid_password_after_set `{E : Env} (self : object) (P : string) :
  has_surrogate P = false ->
  exists user,
    User.set_password self (VStr P) = Ok user
    /\ User.is_valid_password user (VStr P) = Ok true
    /\ forall P' : string,
         has_surrogate P' = false ->
         sha256_hexdigest P' <> sha256_hexdigest P ->
         User.is_valid_password user (VStr P') = Ok false.
Proof.
  intros HP. eexists. split; [now apply set_password_encodable|].
  split; [|intros P' HP' Hne]; unfold User.is_valid_password;
    rewrite password_after_setattr, encode_encodable by assumption; cbn.
  - now rewrite String.eqb_refl.
  - rewrite !hexdigest_lower.
    destruct (String.eqb_spec (sha256_hexdigest P') (sha256_hexdigest P));
      [contradiction|reflexivity].
Qed.

Lemma is_valid_password_after_set_witness :
  has_surrogate "secret" = false
  /\ exists user,
       User.set_password (E := Examples.env) (mk_object "User" [])
         (VStr "secret") = Ok user
       /\ User.is_valid_password (E := Examples.env) user (VStr "secret")
          = Ok true
       /\ forall P' : string,
            has_surrogate P' = false ->
            sha256_hexdigest (Env := Examples.env) P'
            <> sha256_hexdigest (Env := Examples.env) "secret" ->
            User.is_valid_password (E := Examples.env) user (VStr P')
            = Ok false.
Proof.
  split; [reflexivity|].
  apply (is_valid_password_after_set (E := Examples.env)
           (mk_object "User" []) "secret").
  reflexivity.
Defined.

(** The string made of the one character U+D800, a lone surrogate. *)
Definition lone_surrogate : string :=
  String (ascii_of_nat 237)
    (String (ascii_of_nat 160) (String (ascii_of_nat 128) EmptyString)).

(** C4, as claimed, fails: a string that holds a lone surrogate (as
    [json.loads] gives for an escaped one) cannot be encoded, so assigning
    it as password raises [UnicodeEncodeError] and stores nothing, and on a
    user that has a password [is_valid_password] raises on it too. *)
Lemma password_with_lone_surrogate_raises :
  User.set_password (E := Examples.env)
    (mk_object "User" [("_password", VNone)]) (VStr lone_surrogate)
  = Raise UnicodeEncodeError
  /\ User.is_valid_password (E := Examples.env)
       (mk_object "User" [("_password", VStr (Examples.hexlify "secret"))])
       (VStr lone_surrogate)
     = Raise UnicodeEncodeError.
Proof. split; reflexivity. Qed.

(** C8: assigning a value that is not a string to [password] does not
    raise and stores [None], and from then on [is_valid_password] answers
    false to every candidate; in both implementations of [User]. *)
Theorem password_cleared_by_non_string `{E : Env} (self : object) (pwd : value) :
  isinstance_str pwd = false ->
  (exists user,
     User.set_password self pwd = Ok user
     /\ User.password user = Ok VNone
     /\ forall candidate, User.is_valid_password user candidate = Ok false)
  /\ (exists user,
        Basic_authentication.User.set_password self pwd = Ok user
        /\ Basic_authentication.User.password user = Ok VNone
        /\ forall candidate,
             Basic_authentication.User.is_valid_password user candidate
             = Ok false).
Proof.
  intros Hpwd. destruct (set_password_non_string self pwd Hpwd) as [H2 H1].
  split; eexists; (split; [eassumption|]);
    (split; [apply password_after_setattr|]);
    intros [| | |s|]; try reflexivity.
  - unfold User.is_valid_password. now rewrite password_after_setattr.
  - unfold Basic_authentication.User.is_valid_password.
    change (Basic_authentication.User.password
              (setattr self "_password" VNone))
      with (User.password (setattr self "_password" VNone)).
    now rewrite password_after_setattr.
Qed.

Lemma password_cleared_by_non_string_witness :
  isinstance_str (VInt 1234) = false
  /\ exists user,
       User.set_password (E := Examples.env)
         (mk_object "User" [("_password", VStr "2bb80d53")]) (VInt 1234)
       = Ok user
       /\ User.password user = Ok VNone
       /\ forall candidate,
            User.is_valid_password (E := Examples.env) user candidate
            = Ok false.
Proof.
  split; [reflexivity|].
  apply (password_cleared_by_non_string (E := Examples.env)
           (mk_object "User" [("_password", VStr "2bb80d53")]) (VInt 1234)).
  reflexivity.
Defined.

(** C1 (the code departs from it): [POST /users] with email ["a@b.com"]
    and password ["secret"] answers 201, and the user it creates has no
    stored hash: [is_valid_password("secret")] is false. *)
Theorem create_user_drops_password `{E : Env} :
  let req :=
    views.mk_request "/api/v1/users"
      (views.BodyObject
         [("email", VStr "a@b.com"); ("password", VStr "secret")]) None in
  let out := views.create_user req Examples.empty_world in
  (exists j, fst out = Ok (views.PDict j, 201))
  /\ exists user,
       heap (snd out) !! 0%nat = Some user
       /\ attr user "email" = Ok (VStr "a@b.com")
       /\ User.password user = Ok VNone
       /\ User.is_valid_password user (VStr "secret") = Ok false.
Proof.
  cbv zeta. split.
  - eexists. vm_compute. reflexivity.
  - eexists. split; [vm_compute; reflexivity|].
    repeat split; reflexivity.
Qed.

(** ** Display names *)

(** The display name both implementations compute from the three
    attributes. *)
Definition priority_name (e f l : value) : value :=
  if truthy f && truthy l then Basic_authentication.User.fstring_pair f l
  else if truthy f then f
  else if truthy l then l
  else if truthy e then e
  else VStr "".

Section DisplayName.
Variables (self : object) (e f l : value).
Hypothesis email_set : attr self "email" = Ok e.
Hypothesis first_name_set : attr self "first_name" = Ok f.
Hypothesis last_name_set : attr self "last_name" = Ok l.

Lemma basic_display_name_priority :
  Basic_authentication.User.display_name self = Ok (priority_name e f l).
Proof.
  unfold Basic_authentication.User.display_name, priority_name.
  rewrite email_set, first_name_set, last_name_set. cbn.
  destruct (truthy f), (truthy l), (truthy e); reflexivity.
Qed.

Lemma session_display_name_priority :
  User.display_name self = Ok (priority_name e f l).
Proof.
  unfold User.display_name, User.and_then, User.truth, User.falsy,
    priority_name.
  rewrite email_set, first_name_set, last_name_set. cbn.
  destruct (truthy f), (truthy l), (truthy e); reflexivity.
Qed.

End DisplayName.

(** C2, as the code has it: on every user whose [email], [first_name] and
    [last_name] attributes are set (every instance built by
    [User.__init__]), the two implementations of [display_name] return the
    same result, with the same order of priority. *)
Theorem display_name_implementations_agree (self : object) (e f l : value) :
  attr self "email" = Ok e ->
  attr self "first_name" = Ok f ->
  attr self "last_name" = Ok l ->
  Basic_authentication.User.display_name self = User.display_name self
  /\ User.display_name self = Ok (priority_name e f l).
Proof.
  intros He Hf Hl.
  rewrite (basic_display_name_priority self e f l He Hf Hl).
  rewrite (session_display_name_priority self e f l He Hf Hl).
  split; reflexivity.
Qed.

Lemma display_name_implementations_agree_witness :
  Basic_authentication.User.display_name
    (mk_object "User"
       [("email", VStr "a@b.com"); ("first_name", VNone);
        ("last_name", VStr "Lovelace")])
  = User.display_name
      (mk_object "User"
         [("email", VStr "a@b.com"); ("first_name", VNone);
          ("last_name", VStr "Lovelace")])
  /\ User.display_name
       (mk_object "User"
          [("email", VStr "a@b.com"); ("first_name", VNone);
           ("last_name", VStr "Lovelace")])
     = Ok (VStr "Lovelace").
Proof.
  apply (display_name_implementations_agree _ (VStr "a@b.com") VNone
           (VStr "Lovelace")); reflexivity.
Defined.

(** C2, as claimed, fails: there is no combination of [email],
    [first_name] and [last_name] values on which the two implementations
    return different display names. *)
Lemma display_name_no_disagreement :
  ~ exists (self : object) (e f l : value),
      attr self "email" = Ok e
      /\ attr self "first_name" = Ok f
      /\ attr self "last_name" = Ok l
      /\ Basic_authentication.User.display_name self
         <> User.display_name self.
Proof.
  intros (self & e & f & l & He & Hf & Hl & Hne).
  apply Hne.
  rewrite (basic_display_name_priority self e f l He Hf Hl).
  now rewrite (session_display_name_priority self e f l He Hf Hl).
Qed.

(** ** The request gate *)

(** C3: with no strategy configured, or on a path the strategy does not
    protect, the request passes.  On a protected path the gate aborts with
    401 exactly when the strategy finds neither an [Authorization] header
    nor a session cookie, and, when it finds one, aborts with 403 exactly
    when the strategy resolves no user. *)
Theorem handle_auth_outcomes (a : app.Auth) (req : views.request) :
  fst (app.handle_auth None req) = Ok tt
  /\ (app.require_auth a (views.path req) app.excluded_list = false ->
      fst (app.handle_auth (Some a) req) = Ok tt)
  /\ (app.require_auth a (views.path req) app.excluded_list = true ->
      (fst (app.handle_auth (Some a) req) = Raise (HTTPException 401)
       <-> truthy (app.authorization_header a req) = false
           /\ truthy (app.session_cookie a req) = false)
      /\ (truthy (app.authorization_header a req) = true
          \/ truthy (app.session_cookie a req) = true ->
          (fst (app.handle_auth (Some a) req) = Raise (HTTPException 403)
           <-> app.current_user_of a req = None)
          /\ (fst (app.handle_auth (Some a) req) = Ok tt
              <-> app.current_user_of a req <> None))).
Proof.
  unfold app.handle_auth. split; [reflexivity|]. split.
  - intros ->. reflexivity.
  - intros ->. cbn [negb].
    destruct (truthy (app.authorization_header a req)) eqn:Hh;
      destruct (truthy (app.session_cookie a req)) eqn:Hc; cbn;
      destruct (app.current_user_of a req) as [u|] eqn:Hu; cbn.
    all: repeat split; try discriminate; try congruence; try tauto.
    all: try (intros [? ?]; discriminate).
    all: try (intros [?|?] ?; discriminate).
    all: try (intros [?|?]; discriminate).
    all: match goal with Hor : _ \/ _ |- _ => destruct Hor; discriminate end.
Qed.

Definition basic_only : app.Auth :=
  app.mk_auth
    (fun p excluded => negb (existsb (String.eqb p) excluded))
    (fun _ => VNone) (fun _ => VNone) (fun _ => None).

Lemma handle_auth_outcomes_witness :
  fst (app.handle_auth (Some basic_only)
         (views.mk_request "/api/v1/users" views.BodyInvalid None))
  = Raise (HTTPException 401).
Proof.
  destruct (handle_auth_outcomes basic_only
              (views.mk_request "/api/v1/users" views.BodyInvalid None))
    as (_ & _ & H).
  destruct (H eq_refl) as [[_ H401] _].
  apply H401. split; reflexivity.
Defined.

(** ** Sequences of operations

    The classes of the repository, and the operations of the store and of
    the user views as data, so that a property can be stated over every
    sequence of them. *)

Inductive repo_class := CBase | CUser | CUserSession.

Definition klass_of `{E : Env} (c : repo_class) : klass :=
  match c with
  | CBase => Base.cls
  | CUser => User.cls
  | CUserSession => UserSession.cls
  end.




(** [save], after the time stamp has been written. *)
Definition save_tail (self : nat) (o : object) : M unit :=
  (data_of (class_name o) ;;;
   o' <- deref self ;;
   id <- lift (attr o' "id") ;;
   data_set (class_name o) id self ;;;
   Base.save_to_file (class_name o))%M.

Definition stamped `{E : Env} (self : nat) (o : object) (w : world) : world :=
  mk_world
    (<[self := setattr o "updated_at" (VDatetime (utcnow_at (clock w)))]>
       (heap w))
    (DATA w) (files w) (S (clock w)) (uuids w).

Lemma save_unfold `{E : Env} (self : nat) (o : object) (w : world) :
  heap w !! self = Some o ->
  Base.save self w = save_tail self o (stamped self o w).
Proof.
  intros Hself.
  unfold Base.save, set_attr, bind at 1 2 3 4, deref at 1 2, utcnow, store.
  cbn [heap]. rewrite Hself. cbn [heap]. rewrite Hself. reflexivity.
Qed.

(** ** What the operations leave alone

    A relation [R] between the state before and the state after is followed
    through every operation.  It has to be a preorder that contains the
    elementary steps: changes of [DATA], of the files and of the counters,
    allocation, assignment to the attributes [allowed] tells, and the
    time stamp written by [save]. *)

Section Respects.
Context `{E : Env}.
Variable R : world -> world -> Prop.
Variable allowed : string -> bool.

Hypothesis R_refl : forall w, R w w.
Hypothesis R_trans : forall a b c, R a b -> R b c -> R a c.
Hypothesis R_state :
  forall w D fs c u, (clock w <= c)%nat -> R w (mk_world (heap w) D fs c u).
Hypothesis R_alloc : forall w o, R w (with_heap (heap w ++ [o])%list w).
Hypothesis R_setattr :
  forall w r o k v,
    heap w !! r = Some o -> allowed k = true ->
    R w (with_heap (<[r := setattr o k v]> (heap w)) w).
Hypothesis R_stamp :
  forall w r o,
    heap w !! r = Some o ->
    R w (mk_world
           (<[r := setattr o "updated_at"
                     (VDatetime (utcnow_at (clock w)))]> (heap w))
           (DATA w) (files w) (S (clock w)) (uuids w)).

Definition respects {A} (m : M A) : Prop := forall w, R w (snd (m w)).

Lemma respects_ret {A} (a : A) : respects (ret a).
Proof. intros w. apply R_refl. Qed.

Lemma respects_raise {A} (e : exn) : respects (raise (A := A) e).
Proof. intros w. apply R_refl. Qed.

Lemma respects_lift {A} (r : result A) : respects (lift r).
Proof. intros w. apply R_refl. Qed.

Lemma respects_bind {A B} (m : M A) (k : A -> M B) :
  respects m -> (forall a, respects (k a)) -> respects (bind m k).
Proof.
  intros Hm Hk w. unfold bind. specialize (Hm w).
  destruct (m w) as [[a|e] w']; cbn in *; [|exact Hm].
  eapply R_trans; [exact Hm|apply Hk].
Qed.

Lemma respects_try {A} (m : M A) (h : exn -> M A) :
  respects m -> (forall e, respects (h e)) -> respects (try_except m h).
Proof.
  intros Hm Hh w. unfold try_except. specialize (Hm w).
  destruct (m w) as [[a|e] w']; cbn in *; [exact Hm|].
  eapply R_trans; [exact Hm|apply Hh].
Qed.

Lemma respects_for_each {A} (l : list A) (body : A -> M unit) :
  (forall x, respects (body x)) -> respects (for_each l body).
Proof.
  intros Hb. induction l as [|x l IH]; cbn [for_each].
  - apply respects_ret.
  - apply respects_bind; [apply Hb|intros _; exact IH].
Qed.

Lemma respects_map_M {A B} (f : A -> M B) (l : list A) :
  (forall x, respects (f x)) -> respects (map_M f l).
Proof.
  intros Hf. induction l as [|x l IH]; cbn [map_M].
  - apply respects_ret.
  - apply respects_bind; [apply Hf|intros y].
    apply respects_bind; [exact IH|intros ys; apply respects_ret].
Qed.

Lemma respects_filter_M {A} (f : A -> M bool) (l : list A) :
  (forall x, respects (f x)) -> respects (filter_M f l).
Proof.
  intros Hf. induction l as [|x l IH]; cbn [filter_M].
  - apply respects_ret.
  - apply respects_bind; [apply Hf|intros y].
    apply respects_bind; [exact IH|intros ys; apply respects_ret].
Qed.

Lemma respects_get_DATA : respects get_DATA.
Proof. intros w. apply R_refl. Qed.

Lemma respects_get_files : respects get_files.
Proof. intros w. apply R_refl. Qed.

Lemma respects_set_DATA D : respects (set_DATA D).
Proof. intros w. apply (R_state w D (files w) (clock w) (uuids w)). lia. Qed.

Lemma respects_set_files fs : respects (set_files fs).
Proof. intros w. apply (R_state w (DATA w) fs (clock w) (uuids w)). lia. Qed.

Lemma respects_utcnow : respects utcnow.
Proof.
  intros w. apply (R_state w (DATA w) (files w) (S (clock w)) (uuids w)). lia.
Qed.

Lemma respects_uuid4 : respects uuid4.
Proof.
  intros w. apply (R_state w (DATA w) (files w) (clock w) (S (uuids w))). lia.
Qed.

Lemma respects_alloc o : respects (alloc o).
Proof. intros w. apply R_alloc. Qed.

Lemma respects_deref r : respects (deref r).
Proof. intros w. unfold deref. destruct (heap w !! r); apply R_refl. Qed.

Lemma respects_set_attr r k v : allowed k = true -> respects (set_attr r k v).
Proof.
  intros Hk w. unfold set_attr, bind, deref, store.
  destruct (heap w !! r) as [o|] eqn:Hr; cbn; [|apply R_refl].
  now apply R_setattr.
Qed.

Lemma respects_abort {A} code : respects (views.abort (A := A) code).
Proof. apply respects_raise. Qed.

(** Goals of the form [respects m] are solved by following the structure
    of [m]. *)
Ltac respects_step :=
  first
    [ apply respects_ret | apply respects_raise | apply respects_lift
    | apply respects_abort
    | apply respects_get_DATA | apply respects_get_files
    | apply respects_set_DATA | apply respects_set_files
    | apply respects_utcnow | apply respects_uuid4
    | apply respects_alloc | apply respects_deref
    | apply respects_bind; [|intros ?]
    | apply respects_try; [|intros ?]
    | apply respects_for_each; intros ?
    | apply respects_map_M; intros ?
    | apply respects_filter_M; intros ?
    | match goal with
      | |- respects (if ?b then _ else _) => destruct b
      | |- respects (match ?x with _ => _ end) => destruct x
      end ].
Ltac respects_auto := repeat respects_step.

Lemma respects_data_of s : respects (data_of s).
Proof. unfold data_of. respects_auto. Qed.

Lemma respects_data_set s k r : respects (data_set s k r).
Proof. unfold data_set. respects_auto. Qed.



Lemma respects_save_to_file s : respects (Base.save_to_file s).
Proof. unfold Base.save_to_file. respects_auto. Qed.

Lemma respects_save_tail self o : respects (save_tail self o).
Proof.
  unfold save_tail.
  apply respects_bind; [apply respects_data_of|intros _].
  apply respects_bind; [apply respects_deref|intros o'].
  apply respects_bind; [apply respects_lift|intros id].
  apply respects_bind; [apply respects_data_set|intros _].
  apply respects_save_to_file.
Qed.

Lemma respects_save self : respects (Base.save self).
Proof.
  intros w. destruct (heap w !! self) as [o|] eqn:Hself.
  - rewrite (save_unfold self o w Hself).
    eapply R_trans; [exact (R_stamp w self o Hself)|].
    apply respects_save_tail.
  - unfold Base.save, bind at 1, deref at 1. rewrite Hself. apply R_refl.
Qed.

Lemma respects_bind_ret {A B} (a : A) (k : A -> M B) :
  respects (k a) -> respects (bind (ret a) k).
Proof. intros Hk w. exact (Hk w). Qed.

Lemma respects_bind_raise {A B} (e : exn) (k : A -> M B) :
  respects (bind (raise e) k).
Proof. intros w. apply R_refl. Qed.







Lemma respects_get cls id : respects (Base.get cls id).
Proof.
  unfold Base.get.
  apply respects_bind; [apply respects_data_of|intros d; apply respects_ret].
Qed.


Lemma respects_get_user_by_id user_id : respects (views.get_user_by_id user_id).
Proof.
  unfold views.get_user_by_id. destruct user_id as [id|];
    [|apply respects_abort].
  apply respects_bind; [apply respects_get|intros [u|]];
    [apply respects_ret|apply respects_abort].
Qed.

Lemma respects_to_json_of r : respects (views.to_json_of r).
Proof.
  unfold views.to_json_of.
  apply respects_bind; [apply respects_deref|intros o; apply respects_ret].
Qed.






Lemma respects_guard (b : bool) (e : exn) :
  respects (if b then raise e else ret tt).
Proof. destruct b; [apply respects_raise|apply respects_ret]. Qed.


(** [k in rj] answers [smem d k] when the body is the dictionary [d]. *)
Lemma respects_contains_then {A} rj k (K : bool -> M A) :
  (forall b, (forall d, rj = views.BodyObject d -> b = smem d k) ->
             respects (K b)) ->
  respects (bind (views.body_contains rj k) K).
Proof.
  intros HK. destruct rj as [|v|l|d]; cbn [views.body_contains].
  - apply respects_bind_raise.
  - destruct v; first [apply respects_bind_raise|apply respects_bind_ret];
      apply HK; intros d Hd; discriminate.
  - apply respects_bind_ret. apply HK. intros d Hd. discriminate.
  - apply respects_bind_ret. apply HK. intros d' Hd.
    now injection Hd as <-.
Qed.

(** [user.k = rj.get(k)], when [k in rj] answered [b] *)
Lemma respects_assign_from_body rj user k (b : bool) :
  (b = true -> forall d, rj = views.BodyObject d -> allowed k = true) ->
  respects (if b then (v <- views.body_get rj k ;; set_attr user k v)%M
            else ret tt).
Proof.
  intros Hk. destruct b; [|apply respects_ret].
  destruct rj as [|v|l|d]; cbn [views.body_get];
    try apply respects_bind_raise.
  apply respects_bind_ret. apply respects_set_attr. now apply (Hk eq_refl d).
Qed.

Lemma respects_update_user req user_id :
  (forall d, views.body req = views.BodyObject d ->
             smem d "first_name" = true -> allowed "first_name" = true) ->
  (forall d, views.body req = views.BodyObject d ->
             smem d "last_name" = true -> allowed "last_name" = true) ->
  respects (views.update_user req user_id).
Proof.
  intros Hfirst Hlast. unfold views.update_user.
  apply respects_bind; [apply respects_get_user_by_id|intros user].
  apply respects_try; [|intros e; apply respects_ret].
  unfold views.get_json.
  destruct (views.body req) as [|v|l|d] eqn:Hb;
    [apply respects_bind_raise|apply respects_bind_ret..].
  all: apply respects_bind; [apply respects_guard|intros _].
  all: apply respects_contains_then; intros b1 Hb1.
  all: apply respects_bind;
    [apply respects_assign_from_body; intros Hbt d' Hd;
     apply (Hfirst d' Hd); now rewrite <- (Hb1 d' Hd)
    |intros _].
  all: apply respects_contains_then; intros b2 Hb2.
  all: apply respects_bind;
    [apply respects_assign_from_body; intros Hbt d' Hd;
     apply (Hlast d' Hd); now rewrite <- (Hb2 d' Hd)
    |intros _].
  all: apply respects_bind; [apply respects_save|intros _].
  all: apply respects_bind; [apply respects_to_json_of|intros j].
  all: apply respects_ret.
Qed.




End Respects.

(** *** First relation: every object keeps its class and the attributes
    outside a set of mutable names *)

Definition keeps (mut : string -> bool) (o o' : object) : Prop :=
  class_name o' = class_name o
  /\ forall k, mut k = false -> sget (attrs o') k = sget (attrs o) k.

Definition heap_keeps (mut : string -> bool) (w w' : world) : Prop :=
  forall r o,
    heap w !! r = Some o -> exists o', heap w' !! r = Some o' /\ keeps mut o o'.

Lemma keeps_refl mut o : keeps mut o o.
Proof. split; [reflexivity|intros; reflexivity]. Qed.

Lemma keeps_setattr mut o k v : mut k = true -> keeps mut o (setattr o k v).
Proof.
  intros Hk. split; [reflexivity|]. intros k' Hk'. cbn [attrs setattr].
  apply sget_sset_other. intros ->. congruence.
Qed.

Section HeapKeeps.
Context `{E : Env}.
Variable mut : string -> bool.
Hypothesis updated_at_mutable : mut "updated_at" = true.

Lemma heap_keeps_refl w : heap_keeps mut w w.
Proof. intros r o Hr. exists o. split; [exact Hr|apply keeps_refl]. Qed.

Lemma heap_keeps_trans a b c :
  heap_keeps mut a b -> heap_keeps mut b c -> heap_keeps mut a c.
Proof.
  intros Hab Hbc r o Hr.
  destruct (Hab r o Hr) as (o1 & Hr1 & [Hc1 Hk1]).
  destruct (Hbc r o1 Hr1) as (o2 & Hr2 & [Hc2 Hk2]).
  exists o2. split; [exact Hr2|]. split; [congruence|].
  intros k Hk. rewrite (Hk2 k Hk). now apply Hk1.
Qed.

Lemma heap_keeps_state w D fs c u :
  (clock w <= c)%nat -> heap_keeps mut w (mk_world (heap w) D fs c u).
Proof. intros _ r o Hr. exists o. split; [exact Hr|apply keeps_refl]. Qed.


Lemma heap_keeps_insert w r o o' (w' : world) :
  heap w !! r = Some o -> keeps mut o o' ->
  heap w' = <[r := o']> (heap w) -> heap_keeps mut w w'.
Proof.
  intros Hr Hkeep Hheap r' o0 Hr'. rewrite Hheap.
  destruct (Nat.eq_dec r r') as [<-|Hne].
  - exists o'. split.
    + apply list_lookup_insert_eq. now apply lookup_lt_Some in Hr.
    + rewrite Hr in Hr'. now injection Hr' as <-.
  - exists o0. split; [|apply keeps_refl].
    now rewrite list_lookup_insert_ne.
Qed.

Lemma heap_keeps_setattr w r o k v :
  heap w !! r = Some o -> mut k = true ->
  heap_keeps mut w (with_heap (<[r := setattr o k v]> (heap w)) w).
Proof.
  intros Hr Hk.
  apply (heap_keeps_insert w r o (setattr o k v)); [exact Hr| |reflexivity].
  now apply keeps_setattr.
Qed.

Lemma heap_keeps_stamp w r o :
  heap w !! r = Some o ->
  heap_keeps mut w
    (mk_world
       (<[r := setattr o "updated_at"
                 (VDatetime (utcnow_at (clock w)))]> (heap w))
       (DATA w) (files w) (S (clock w)) (uuids w)).
Proof.
  intros Hr.
  eapply (heap_keeps_insert w r o); [exact Hr| |reflexivity].
  now apply keeps_setattr.
Qed.

Lemma heap_keeps_save self w : heap_keeps mut w (snd (Base.save self w)).
Proof.
  apply (respects_save (heap_keeps mut) heap_keeps_refl heap_keeps_trans
           heap_keeps_state heap_keeps_stamp).
Qed.

Lemma heap_keeps_update_user req user_id w :
  (forall d, views.body req = views.BodyObject d ->
             smem d "first_name" = true -> mut "first_name" = true) ->
  (forall d, views.body req = views.BodyObject d ->
             smem d "last_name" = true -> mut "last_name" = true) ->
  heap_keeps mut w (snd (views.update_user req user_id w)).
Proof.
  intros Hfirst Hlast.
  apply (respects_update_user (heap_keeps mut) mut heap_keeps_refl
           heap_keeps_trans heap_keeps_state heap_keeps_setattr
           heap_keeps_stamp req user_id Hfirst Hlast).
Qed.


End HeapKeeps.

Lemma keeps_attr mut o o' k :
  keeps mut o o' -> mut k = false -> attr o' k = attr o k.
Proof. intros [_ Hk] Hm. unfold attr. now rewrite (Hk k Hm). Qed.

(** ** The update view *)

(** [k] is a key of the JSON object sent with the request. *)
Definition body_has (req : views.request) (k : string) : bool :=
  match views.body req with
  | views.BodyObject d => smem d k
  | _ => false
  end.

(** The attributes [PUT /users/:id] may assign for a given request. *)
Definition update_mutable (req : views.request) (k : string) : bool :=
  (k =? "updated_at")%string
  || ((k =? "first_name")%string && body_has req "first_name")
  || ((k =? "last_name")%string && body_has req "last_name").

Lemma update_user_keeps `{E : Env} (req : views.request)
    (user_id : option string) (w : world) :
  heap_keeps (update_mutable req) w (snd (views.update_user req user_id w)).
Proof.
  apply heap_keeps_update_user; [reflexivity|..];
    intros d Hd Hmem; unfold update_mutable, body_has; rewrite Hd, Hmem;
    reflexivity.
Qed.

(** C10: [PUT /users/:id], whatever the body and whatever its outcome,
    leaves every attribute of every object as it was except [first_name],
    [last_name] and [updated_at]; in particular [id], [email],
    [created_at] and [_password] are unchanged, and a name that is not a
    key of the body keeps its value. *)
Theorem update_user_frame `{E : Env} (req : views.request)
    (user_id : option string) (w : world) (r : nat) (user : object) :
  heap w !! r = Some user ->
  exists user',
    heap (snd (views.update_user req user_id w)) !! r = Some user'
    /\ class_name user' = class_name user
    /\ (forall k, k <> "first_name" -> k <> "last_name" ->
                  k <> "updated_at" -> attr user' k = attr user k)
    /\ attr user' "id" = attr user "id"
    /\ attr user' "email" = attr user "email"
    /\ attr user' "created_at" = attr user "created_at"
    /\ attr user' "_password" = attr user "_password"
    /\ (body_has req "first_name" = false ->
        attr user' "first_name" = attr user "first_name")
    /\ (body_has req "last_name" = false ->
        attr user' "last_name" = attr user "last_name").
Proof.
  intros Hr.
  destruct (update_user_keeps req user_id w r user Hr) as (user' & Hr' & Hk).
  exists user'. split; [exact Hr'|]. split; [apply Hk|].
  split; [|repeat split].
  - intros k H1 H2 H3. apply (keeps_attr _ _ _ _ Hk).
    unfold update_mutable.
    destruct (String.eqb_spec k "updated_at"); [contradiction|].
    destruct (String.eqb_spec k "first_name"); [contradiction|].
    destruct (String.eqb_spec k "last_name"); [contradiction|].
    reflexivity.
  - apply (keeps_attr _ _ _ _ Hk). reflexivity.
  - apply (keeps_attr _ _ _ _ Hk). reflexivity.
  - apply (keeps_attr _ _ _ _ Hk). reflexivity.
  - apply (keeps_attr _ _ _ _ Hk). reflexivity.
  - intros Hb. apply (keeps_attr _ _ _ _ Hk).
    unfold update_mutable. rewrite Hb. reflexivity.
  - intros Hb. apply (keeps_attr _ _ _ _ Hk).
    unfold update_mutable. rewrite Hb.
    destruct (body_has req "first_name"); reflexivity.
Qed.

Definition rename_request : views.request :=
  views.mk_request "/api/v1/users/u1"
    (views.BodyObject [("last_name", VStr "Liddell"); ("id", VStr "u2")])
    None.

Lemma update_user_frame_witness :
  exists user',
    heap (snd (views.update_user (E := Examples.env) rename_request
                 (Some "u1") Examples.one_user)) !! 0%nat = Some user'
    /\ attr user' "id" = Ok (VStr "u1")
    /\ attr user' "_password" = Ok (VStr (Examples.hexlify "secret"))
    /\ attr user' "first_name" = Ok (VStr "Alice")
    /\ attr user' "last_name" = Ok (VStr "Liddell").
Proof.
  destruct (update_user_frame (E := Examples.env) rename_request (Some "u1")
              Examples.one_user 0%nat Examples.alice eq_refl)
    as (user' & Hr & _ & _ & Hid & _ & _ & Hpw & Hfirst & _).
  exists user'. split; [exact Hr|].
  split; [rewrite Hid; reflexivity|].
  split; [rewrite Hpw; reflexivity|].
  split; [rewrite (Hfirst eq_refl); reflexivity|].
  vm_compute in Hr. injection Hr as <-. reflexivity.
Defined.

(** ** Identity and time stamps *)

(** *** Second relation: the clock does not go back, and the [updated_at]
    of the object at [r] is either what it was or a reading of the clock
    taken in between *)



Section StampedSince.
Context `{E : Env}.
Variable r : nat.








End StampedSince.

(** *** Third relation: the heap is untouched and the clock does not go
    back *)

Definition same_heap (w w' : world) : Prop :=
  heap w' = heap w /\ (clock w <= clock w')%nat.

Lemma same_heap_refl w : same_heap w w.
Proof. split; [reflexivity|lia]. Qed.

Lemma same_heap_trans a b c : same_heap a b -> same_heap b c -> same_heap a c.
Proof. intros [H1 H2] [H3 H4]. split; [congruence|lia]. Qed.

Lemma same_heap_state w D fs c u :
  (clock w <= c)%nat -> same_heap w (mk_world (heap w) D fs c u).
Proof. intros Hc. split; [reflexivity|exact Hc]. Qed.

Lemma same_heap_save_tail (self : nat) (o : object) (w : world) :
  same_heap w (snd (save_tail self o w)).
Proof.
  apply (respects_save_tail same_heap same_heap_refl same_heap_trans
           same_heap_state).
Qed.

(** What [save] does to the heap and to the clock. *)
Lemma save_heap `{E : Env} (self : nat) (o : object) (w : world) :
  heap w !! self = Some o ->
  heap (snd (Base.save self w))
  = <[self := setattr o "updated_at" (VDatetime (utcnow_at (clock w)))]>
      (heap w)
  /\ (clock w < clock (snd (Base.save self w)))%nat.
Proof.
  intros Hself. rewrite (save_unfold self o w Hself).
  destruct (same_heap_save_tail self o (stamped self o w)) as [Hh Hc].
  split; [exact Hh|]. cbn [stamped clock] in Hc. lia.
Qed.

Lemma lex_compare_refl (l : list Z) : lex_compare l l = Eq.
Proof.
  induction l as [|x l IH]; [reflexivity|].
  cbn [lex_compare]. now rewrite Z.compare_refl.
Qed.








(** ** What the views show *)

(** No key of the dictionary starts with an underscore. *)
Definition public_dict (d : list (string * value)) : Prop :=
  Forall (fun kv => String.prefix "_" (fst kv) = false) d.

Lemma public_dict_sset d k v :
  public_dict d -> String.prefix "_" k = false -> public_dict (sset d k v).
Proof.
  intros Hd Hk. unfold sset.
  induction d as [|[k' v'] d IH]; cbn [dict_set].
  - constructor; [exact Hk|constructor].
  - inversion Hd as [|? ? Hk' Hd']; subst.
    destruct (k' =? k)%string; constructor;
      first [exact Hk'|exact Hd'|now apply IH].
Qed.

Lemma public_dict_sget d k :
  public_dict d -> String.prefix "_" k = true -> sget d k = None.
Proof.
  intros Hd Hk. unfold sget.
  induction d as [|[k' v'] d IH]; [reflexivity|].
  inversion Hd as [|? ? Hk' Hd']; subst. cbn [dict_get fst] in *.
  destruct (String.eqb_spec k' k) as [->|_]; [congruence|auto].
Qed.

Lemma to_json_public (self : object) : public_dict (Base.to_json self false).
Proof.
  unfold Base.to_json.
  assert (Hacc : public_dict []) by constructor.
  revert Hacc. generalize (@nil (string * value)).
  induction (attrs self) as [|[k v] l IH]; intros acc Hacc; cbn [fold_left].
  - exact Hacc.
  - apply IH. cbn [negb andb fst snd].
    destruct (String.prefix "_" k) eqn:Hk; [exact Hacc|].
    now apply public_dict_sset.
Qed.

(** The dictionaries a payload is made of. *)
Definition payload_dicts (p : views.payload) : list (list (string * value)) :=
  match p with
  | views.PList l => l
  | views.PDict d => [d]
  | views.PError _ => []
  end.

Lemma to_json_of_public `{E : Env} r w j w' :
  views.to_json_of r w = (Ok j, w') -> public_dict j.
Proof.
  unfold views.to_json_of, bind, deref, ret.
  destruct (heap w !! r) as [o|]; [|discriminate].
  intros [= <- _]. apply to_json_public.
Qed.

Lemma map_M_Forall {A B} (f : A -> M B) (P : B -> Prop) (l : list A) :
  (forall x w y w', f x w = (Ok y, w') -> P y) ->
  forall w ys w', map_M f l w = (Ok ys, w') -> Forall P ys.
Proof.
  intros Hf. induction l as [|x l IH]; intros w ys w'; cbn [map_M].
  - intros [= <- _]. constructor.
  - unfold bind at 1. destruct (f x w) as [[y|e] w1] eqn:Hx; [|discriminate].
    unfold bind at 1.
    destruct (map_M f l w1) as [[ys'|e] w2] eqn:Hl; [|discriminate].
    intros [= <- _]. constructor; [now apply (Hf x w y w1)|].
    now apply (IH w1 ys' w2).
Qed.

(** C9: [to_json()] without [for_serialization] has no key that starts
    with an underscore, so whatever [GET /users] and [GET /users/:id]
    hand to [jsonify] has no such key, and no [_password] in particular. *)
Theorem views_hide_private_attributes `{E : Env} (w : world)
    (req : views.request) (user_id : option string) :
  (forall self : object,
     public_dict (Base.to_json self false)
     /\ sget (Base.to_json self false) "_password" = None)
  /\ (forall p status w',
        views.view_all_users w = (Ok (p, status), w') ->
        Forall (fun j => public_dict j /\ sget j "_password" = None)
               (payload_dicts p))
  /\ (forall p status w',
        views.view_one_user req user_id w = (Ok (p, status), w') ->
        Forall (fun j => public_dict j /\ sget j "_password" = None)
               (payload_dicts p)).
Proof.
  assert (Hpub : forall j, public_dict j ->
                           public_dict j /\ sget j "_password" = None).
  { intros j Hj. split; [exact Hj|]. now apply public_dict_sget. }
  split; [intros self; apply Hpub, to_json_public|]. split.
  - intros p status w'. unfold views.view_all_users, bind at 1.
    destruct (Base.all User.cls w) as [[users|e] w1]; [|discriminate].
    unfold bind at 1.
    destruct (map_M views.to_json_of users w1) as [[js|e] w2] eqn:Hjs;
      [|discriminate].
    intros [= <- _ _]. cbn [payload_dicts].
    apply (map_M_Forall views.to_json_of _ users) with (w := w1) (w' := w2);
      [|exact Hjs].
    intros r w0 j w0' Hj. apply Hpub. now apply (to_json_of_public r w0 j w0').
  - intros p status w'. unfold views.view_one_user.
    assert (Hone : forall u w0,
               (j <- views.to_json_of u ;; ret (views.PDict j, 200))%M w0
               = (Ok (p, status), w') ->
               Forall (fun j => public_dict j /\ sget j "_password" = None)
                      (payload_dicts p)).
    { intros u w0. unfold bind at 1.
      destruct (views.to_json_of u w0) as [[j|e] w1] eqn:Hj; [|discriminate].
      intros [= <- _ _]. cbn [payload_dicts]. constructor; [|constructor].
      apply Hpub. now apply (to_json_of_public u w0 j w1). }
    destruct (match user_id with
              | Some id => (id =? "me")%string
              | None => false
              end).
    + destruct (views.current_user req) as [[u|]|]; try discriminate.
      apply Hone.
    + unfold bind at 1.
      destruct (views.get_user_by_id user_id w) as [[u|e] w1];
        [|discriminate].
      apply Hone.
Qed.

Lemma views_hide_private_attributes_witness :
  Forall (fun j => public_dict j /\ sget j "_password" = None)
    [[("id", VStr "u1");
      ("created_at", VStr "2023-05-17T08:30:59");
      ("updated_at", VStr "2023-05-17T08:31:00");
      ("email", VStr "a@b.com");
      ("first_name", VStr "Alice");
      ("last_name", VNone)]].
Proof.
  destruct (views_hide_private_attributes (E := Examples.env)
              Examples.one_user
              (views.mk_request "/api/v1/users" views.BodyInvalid None) None)
    as (_ & Hall & _).
  exact (Hall (views.PList _) 200 Examples.one_user eq_refl).
Defined.

(** ** Search *)

(** Every attribute named in [attributes] is found on [obj] and compares
    equal to the value given for it. *)
Definition matches (cls : klass) (obj : object)
    (attributes : list (string * value)) : bool :=
  forallb
    (fun kv =>
       match getattr cls obj (fst kv) with
       | AttrValue x => py_eq x (snd kv)
       | _ => false
       end)
    attributes.

Lemma all_equal_matches cls obj attributes :
  (forall k, In k (map fst attributes) -> getattr cls obj k <> AttrMissing) ->
  Base.all_equal cls obj attributes = Ok (matches cls obj attributes).
Proof.
  induction attributes as [|[k v] rest IH]; intros Hk; [reflexivity|].
  cbn [Base.all_equal matches forallb fst snd].
  pose proof (Hk k (or_introl eq_refl)) as Hhere.
  destruct (getattr cls obj k) as [x| |]; [|reflexivity|contradiction].
  destruct (py_eq x v); [|reflexivity].
  rewrite IH; [reflexivity|]. intros k' Hk'. apply Hk. now right.
Qed.

Lemma filter_M_pure {A} (f : A -> M bool) (g : A -> bool) (l : list A) w :
  (forall x, In x l -> f x w = (Ok (g x), w)) ->
  filter_M f l w = (Ok (List.filter g l), w).
Proof.
  induction l as [|x l IH]; intros Hf; [reflexivity|].
  cbn [filter_M List.filter]. unfold bind at 1.
  rewrite (Hf x (or_introl eq_refl)). unfold bind at 1.
  rewrite IH; [|intros y Hy; apply Hf; now right].
  unfold ret. now destruct (g x).
Qed.

Lemma filter_all_true {A} (g : A -> bool) (l : list A) :
  (forall x, In x l -> g x = true) -> List.filter g l = l.
Proof.
  induction l as [|x l IH]; intros Hg; [reflexivity|]. cbn [List.filter].
  rewrite (Hg x (or_introl eq_refl)), IH; [reflexivity|].
  intros y Hy. apply Hg. now right.
Qed.

(** The objects of [w] that [attributes] selects among the references
    [refs]. *)
Definition selected (cls : klass) (attributes : list (string * value))
    (w : world) (refs : list nat) : list nat :=
  List.filter
    (fun r =>
       match heap w !! r with
       | Some o => matches cls o attributes
       | None => false
       end)
    refs.

Lemma search_selected (cls : klass) (attributes : list (string * value))
    (w : world) (d : list (value * nat)) :
  sget (DATA w) (cls_name cls) = Some d ->
  (forall r, In r (map snd d) ->
     exists o, heap w !! r = Some o
               /\ forall k, In k (map fst attributes) ->
                            getattr cls o k <> AttrMissing) ->
  Base.search cls attributes w
  = (Ok (selected cls attributes w (map snd d)), w).
Proof.
  intros Hd Hobjs.
  unfold Base.search, bind at 1, data_of, bind at 1, get_DATA.
  rewrite Hd. unfold ret at 1.
  apply filter_M_pure. intros r Hr.
  destruct (Hobjs r Hr) as (o & Ho & Hk).
  unfold Base._search, bind, deref, lift. rewrite Ho.
  now rewrite all_equal_matches.
Qed.

Lemma search_without_store (cls : klass) (attributes : list (string * value))
    (w : world) :
  sget (DATA w) (cls_name cls) = None ->
  Base.search cls attributes w = (Raise KeyError, w).
Proof.
  intros Hd. unfold Base.search, bind at 1, data_of, bind at 1, get_DATA.
  now rewrite Hd.
Qed.

(** C6, as the code has it: for a class that has its dictionary in
    [DATA], when every attribute named in the map is found by [getattr] on
    every stored object of the class, [search] returns, in the order of
    the store, exactly the stored objects on which every named attribute
    compares equal to the given value; with the empty map it returns all
    of them, and so does [all].  For a class that has no dictionary in
    [DATA], [search] raises [KeyError]. *)
Theorem search_returns_matching (cls : klass)
    (attributes : list (string * value)) (w : world) :
  (forall d,
     sget (DATA w) (cls_name cls) = Some d ->
     (forall r, In r (map snd d) ->
        exists o, heap w !! r = Some o
                  /\ forall k, In k (map fst attributes) ->
                               getattr cls o k <> AttrMissing) ->
     Base.search cls attributes w
     = (Ok (selected cls attributes w (map snd d)), w)
     /\ (forall r, In r (selected cls attributes w (map snd d)) <->
                   In r (map snd d)
                   /\ exists o, heap w !! r = Some o
                                /\ matches cls o attributes = true)
     /\ Base.search cls [] w = (Ok (map snd d), w)
     /\ Base.all cls w = (Ok (map snd d), w))
  /\ (sget (DATA w) (cls_name cls) = None ->
      Base.search cls attributes w = (Raise KeyError, w)).
Proof.
  split; [|apply search_without_store].
  intros d Hd Hobjs.
  assert (Hall : Base.search cls [] w = (Ok (map snd d), w)).
  { rewrite (search_selected cls [] w d Hd).
    - unfold selected. rewrite filter_all_true; [reflexivity|].
      intros r Hr. destruct (Hobjs r Hr) as (o & -> & _). reflexivity.
    - intros r Hr. destruct (Hobjs r Hr) as (o & Ho & _).
      exists o. split; [exact Ho|]. intros k [].
  }
  split; [now apply search_selected|]. split; [|split; [exact Hall|exact Hall]].
  intros r. unfold selected. rewrite filter_In. split.
  - intros [Hr Hm]. split; [exact Hr|].
    destruct (heap w !! r) as [o|]; [|discriminate]. now exists o.
  - intros (Hr & o & Ho & Hm). split; [exact Hr|]. now rewrite Ho.
Qed.

Lemma search_returns_matching_witness :
  Base.search (User.cls (E := Examples.env))
    [("email", VStr "a@b.com");
     ("password", VStr (Examples.hexlify "secret"));
     ("__hash__", VNone)]
    Examples.one_user
  = (Ok [0%nat], Examples.one_user).
Proof.
  destruct (search_returns_matching (User.cls (E := Examples.env))
              [("email", VStr "a@b.com");
               ("password", VStr (Examples.hexlify "secret"));
               ("__hash__", VNone)]
              Examples.one_user) as [Hstore _].
  destruct (Hstore [(VStr "u1", 0%nat)] eq_refl) as [Hsearch _].
  - intros r [<-|[]]. exists Examples.alice. split; [reflexivity|].
    intros k [<-|[<-|[<-|[]]]]; discriminate.
  - exact Hsearch.
Defined.

(** C6, as claimed, fails: with a stored user, a map that names an
    attribute the user does not have makes [search] raise
    [AttributeError]; it returns no list. *)
Lemma search_unknown_attribute_raises :
  fst (Base.search (User.cls (E := Examples.env)) [("nickname", VStr "al")]
         Examples.one_user)
  = Raise AttributeError
  /\ ~ exists l,
         fst (Base.search (User.cls (E := Examples.env))
                [("nickname", VStr "al")] Examples.one_user)
         = Ok l.
Proof.
  split; [reflexivity|]. intros [l Hl]. discriminate Hl.
Qed.

(** ** Time stamps through [strftime] and [strptime] *)

Fixpoint string_forall (P : ascii -> bool) (s : string) : bool :=
  match s with
  | EmptyString => true
  | String c r => P c && string_forall P r
  end.

Definition is_digit (c : ascii) : bool :=
  match digit_val c with Some _ => true | None => false end.

Lemma string_forall_app P s t :
  string_forall P (s ++ t) = string_forall P s && string_forall P t.
Proof.
  induction s as [|c s IH]; [reflexivity|].
  cbn [append string_forall]. now rewrite IH, andb_assoc.
Qed.

Lemma digit_char_is_digit (n : Z) : is_digit (digit_char n) = true.
Proof.
  unfold digit_char. generalize (Z.to_nat n). intros k.
  do 10 (destruct k as [|k]; [reflexivity|]). destruct k; reflexivity.
Qed.

Lemma zfill_digits (w : nat) (n : Z) : string_forall is_digit (zfill w n) = true.
Proof.
  revert n. induction w as [|w IH]; intros n; [reflexivity|].
  cbn [zfill]. rewrite string_forall_app, IH. cbn [string_forall].
  now rewrite digit_char_is_digit.
Qed.

(** A separator of the format is not a digit. *)
Definition separator (sep : ascii -> bool) : Prop :=
  forall c, is_digit c = true -> sep c = false.

Lemma separator_char (c : ascii) : is_digit c = false -> separator (is_char c).
Proof.
  intros Hc c' Hc'. unfold is_char.
  destruct (Ascii.eqb_spec c c') as [<-|]; [congruence|reflexivity].
Qed.

Lemma separator_T : separator is_T.
Proof.
  intros c Hc. unfold is_T.
  destruct (Ascii.eqb_spec c "T") as [->|]; [discriminate|].
  destruct (Ascii.eqb_spec c "t") as [->|]; [discriminate|reflexivity].
Qed.

Lemma cut_digits sep (s : string) (x : ascii) (rest : string) :
  separator sep -> string_forall is_digit s = true -> sep x = true ->
  cut sep (s ++ String x rest) = Some (s, rest).
Proof.
  intros Hsep Hs Hx. induction s as [|c s IH]; cbn [append cut].
  - now rewrite Hx.
  - cbn [string_forall] in Hs. apply andb_prop in Hs as [Hc Hs].
    now rewrite (Hsep c Hc), (IH Hs).
Qed.

(** Each directive reads back what [zfill] wrote, over the whole range of
    its field; checked value by value. *)
Definition reads_back (w : nat) (directive : string -> option Z)
    (lo count : Z) : bool :=
  forallb
    (fun i => match directive (zfill w (lo + Z.of_nat i)) with
              | Some n => n =? lo + Z.of_nat i
              | None => false
              end)
    (seq 0 (Z.to_nat count)).

Lemma reads_back_spec w directive lo count n :
  reads_back w directive lo count = true ->
  lo <= n < lo + count ->
  directive (zfill w n) = Some n.
Proof.
  intros Hall Hn. unfold reads_back in Hall.
  rewrite forallb_forall in Hall.
  specialize (Hall (Z.to_nat (n - lo))).
  replace (lo + Z.of_nat (Z.to_nat (n - lo))) with n in Hall by lia.
  destruct (directive (zfill w n)) as [m|].
  - f_equal. apply Z.eqb_eq. apply Hall. apply in_seq. lia.
  - discriminate Hall. apply in_seq. lia.
Qed.

Lemma directive_Y_zfill n : 1000 <= n <= 9999 -> directive_Y (zfill 4 n) = Some n.
Proof.
  intros Hn. apply (reads_back_spec 4 directive_Y 1000 9000);
    [vm_compute; reflexivity|lia].
Qed.

Lemma directive_m_zfill n : 1 <= n <= 12 -> directive_m (zfill 2 n) = Some n.
Proof.
  intros Hn. apply (reads_back_spec 2 directive_m 1 12);
    [vm_compute; reflexivity|lia].
Qed.

Lemma directive_d_zfill n : 1 <= n <= 31 -> directive_d (zfill 2 n) = Some n.
Proof.
  intros Hn. apply (reads_back_spec 2 directive_d 1 31);
    [vm_compute; reflexivity|lia].
Qed.

Lemma directive_H_zfill n : 0 <= n <= 23 -> directive_H (zfill 2 n) = Some n.
Proof.
  intros Hn. apply (reads_back_spec 2 directive_H 0 24);
    [vm_compute; reflexivity|lia].
Qed.

Lemma directive_M_zfill n : 0 <= n <= 59 -> directive_M (zfill 2 n) = Some n.
Proof.
  intros Hn. apply (reads_back_spec 2 directive_M 0 60);
    [vm_compute; reflexivity|lia].
Qed.

Lemma directive_S_zfill n : 0 <= n <= 59 -> directive_S (zfill 2 n) = Some n.
Proof.
  intros Hn. apply (reads_back_spec 2 directive_S 0 60);
    [vm_compute; reflexivity|lia].
Qed.

(** A time stamp the store can hold: a valid datetime whose year has four
    digits. *)
Definition stamp_ok (d : datetime) : bool := dt_validb d && (1000 <=? year d).

Lemma strftime_shape (d : datetime) :
  strftime d
  = zfill 4 (year d) ++ String "-"
      (zfill 2 (month d) ++ String "-"
         (zfill 2 (day d) ++ String "T"
            (zfill 2 (hour d) ++ String ":"
               (zfill 2 (minute d) ++ String ":" (zfill 2 (second d)))))).
Proof. reflexivity. Qed.

(** Reading back a written time stamp gives the datetime, to the second. *)
Lemma strptime_strftime (d : datetime) :
  stamp_ok d = true -> strptime (strftime d) = Some (truncate_second d).
Proof.
  unfold stamp_ok, dt_validb. intros Hd.
  repeat (apply andb_prop in Hd as [Hd ?]).
  repeat match goal with
         | H : (_ <=? _) = true |- _ => apply Z.leb_le in H
         end.
  rewrite strftime_shape. unfold strptime.
  rewrite (cut_digits (is_char "-"));
    [|now apply separator_char|apply zfill_digits|reflexivity].
  cbn [mbind option_bind].
  rewrite (cut_digits (is_char "-"));
    [|now apply separator_char|apply zfill_digits|reflexivity].
  cbn [mbind option_bind].
  rewrite (cut_digits is_T);
    [|apply separator_T|apply zfill_digits|reflexivity].
  cbn [mbind option_bind].
  rewrite (cut_digits (is_char ":"));
    [|now apply separator_char|apply zfill_digits|reflexivity].
  cbn [mbind option_bind].
  rewrite (cut_digits (is_char ":"));
    [|now apply separator_char|apply zfill_digits|reflexivity].
  cbn [mbind option_bind].
  rewrite directive_Y_zfill by lia. cbn [mbind option_bind].
  rewrite directive_m_zfill by lia. cbn [mbind option_bind].
  rewrite directive_d_zfill.
  2:{ split; [lia|]. transitivity (days_in_month (year d) (month d)); [lia|].
      unfold days_in_month.
      repeat match goal with |- context [if ?b then _ else _] => destruct b end;
        lia. }
  cbn [mbind option_bind].
  rewrite directive_H_zfill by lia. cbn [mbind option_bind].
  rewrite directive_M_zfill by lia. cbn [mbind option_bind].
  rewrite directive_S_zfill by lia. cbn [mbind option_bind].
  unfold truncate_second.
  replace (dt_validb _) with true; [reflexivity|].
  symmetry. unfold dt_validb. cbn [year month day hour minute second microsecond].
  repeat (apply andb_true_intro; split); try (apply Z.leb_le; lia);
    reflexivity.
Qed.

(** ** Saving to file and loading back *)

(** A value [json.dump] writes and [json.load] reads back unchanged. *)
Definition json_scalar (v : value) : bool :=
  match v with VDatetime _ => false | _ => true end.

(** An instance as the constructor of its class lays it out: the
    attributes the constructor sets, in its order, with time stamps for
    [created_at] and [updated_at] and JSON values elsewhere. *)
Inductive shaped : repo_class -> object -> Prop :=
| shaped_Base id ca ua :
    json_scalar id = true -> stamp_ok ca = true -> stamp_ok ua = true ->
    shaped CBase
      (mk_object "Base"
         [("id", id); ("created_at", VDatetime ca);
          ("updated_at", VDatetime ua)])
| shaped_User id ca ua email pw first_name last_name :
    json_scalar id = true -> stamp_ok ca = true -> stamp_ok ua = true ->
    json_scalar email = true -> json_scalar pw = true ->
    json_scalar first_name = true -> json_scalar last_name = true ->
    shaped CUser
      (mk_object "User"
         [("id", id); ("created_at", VDatetime ca);
          ("updated_at", VDatetime ua); ("email", email);
          ("_password", pw); ("first_name", first_name);
          ("last_name", last_name)])
| shaped_UserSession id ca ua user_id session_id :
    json_scalar id = true -> stamp_ok ca = true -> stamp_ok ua = true ->
    json_scalar user_id = true -> json_scalar session_id = true ->
    shaped CUserSession
      (mk_object "UserSession"
         [("id", id); ("created_at", VDatetime ca);
          ("updated_at", VDatetime ua); ("user_id", user_id);
          ("session_id", session_id)]).

(** A value with its datetime cut to the second. *)
Definition to_second (v : value) : value :=
  match v with
  | VDatetime d => VDatetime (truncate_second d)
  | _ => v
  end.

(** An object with its time stamps cut to the second, every other
    attribute as it is. *)
Definition reloaded (o : object) : object :=
  mk_object (class_name o)
    (map (fun kv => (fst kv, to_second (snd kv))) (attrs o)).

(** The stored objects of a class: the entries of [DATA[s_class]] with the
    objects they refer to. *)
Fixpoint deref_all (h : list object) (d : list (value * nat))
  : option (list (value * object)) :=
  match d with
  | [] => Some []
  | (k, r) :: rest =>
      match h !! r, deref_all h rest with
      | Some o, Some l => Some ((k, o) :: l)
      | _, _ => None
      end
  end.

Definition stored (w : world) (s_class : string)
  : option (list (value * object)) :=
  match sget (DATA w) s_class with
  | Some d => deref_all (heap w) d
  | None => None
  end.

Lemma json_value_scalar v : json_scalar v = true -> Base.json_value v = v.
Proof. destruct v; [reflexivity..|discriminate]. Qed.

Lemma to_second_scalar v : json_scalar v = true -> to_second v = v.
Proof. destruct v; [reflexivity..|discriminate]. Qed.

Lemma strftime_truthy d : truthy (VStr (strftime d)) = true.
Proof.
  rewrite strftime_shape. cbn [zfill append truthy]. reflexivity.
Qed.

Section ReadBack.
Context `{E : Env}.

Lemma parse_datetime_strftime d w :
  stamp_ok d = true ->
  Base._parse_datetime (VStr (strftime d)) w = (Ok (truncate_second d), w).
Proof.
  intros Hd. unfold Base._parse_datetime.
  rewrite strftime_truthy, (strptime_strftime d Hd). reflexivity.
Qed.

Lemma Base_init_reads_back s kwargs id ca ua w :
  sget kwargs "id" = Some id ->
  kwargs_get kwargs "created_at" = VStr (strftime ca) ->
  kwargs_get kwargs "updated_at" = VStr (strftime ua) ->
  stamp_ok ca = true -> stamp_ok ua = true ->
  smem (DATA w) s = true ->
  Base.__init__ s kwargs w
  = (Ok [("id", id); ("created_at", VDatetime (truncate_second ca));
         ("updated_at", VDatetime (truncate_second ua))],
     mk_world (heap w) (DATA w) (files w) (clock w) (S (uuids w))).
Proof.
  intros Hid Hca Hua Hsca Hsua Hmem.
  unfold Base.__init__, bind at 1, get_DATA. rewrite Hmem. cbn [negb].
  unfold bind at 1, ret at 1, bind at 1, uuid4.
  rewrite Hid, Hca, Hua.
  unfold bind at 1. rewrite (parse_datetime_strftime ca _ Hsca).
  unfold bind at 1. rewrite (parse_datetime_strftime ua _ Hsua).
  reflexivity.
Qed.

(** The constructor, given what [to_json(True)] wrote, builds the object
    again, to the second. *)
Lemma init_reads_back c o w :
  shaped c o ->
  smem (DATA w) (cls_name (klass_of c)) = true ->
  cls_init (klass_of c) (Base.to_json o true) w
  = (Ok (attrs (reloaded o)),
     mk_world (heap w) (DATA w) (files w) (clock w) (S (uuids w))).
Proof.
  intros Ho Hmem.
  destruct Ho as [id ca ua Hid Hca Hua
                 |id ca ua email pw fn ln Hid Hca Hua Hemail Hpw Hfn Hln
                 |id ca ua uid sid Hid Hca Hua Huid Hsid];
    cbn [klass_of cls_init cls_name Base.cls User.cls UserSession.cls] in *;
    unfold Base.to_json; cbn [attrs fold_left negb andb fst snd];
    unfold sset; cbn [dict_set String.eqb Ascii.eqb Bool.eqb];
    repeat match goal with
           | H : json_scalar ?v = true |- _ =>
               rewrite (json_value_scalar v H)
           end;
    cbn [Base.json_value]; unfold reloaded;
    cbn [attrs map fst snd to_second class_name];
    repeat match goal with
           | H : json_scalar ?v = true |- _ =>
               rewrite (to_second_scalar v H); clear H
           end.
  - now rewrite (Base_init_reads_back "Base"
                   [("id", id); ("created_at", VStr (strftime ca));
                    ("updated_at", VStr (strftime ua))]
                   id ca ua w eq_refl eq_refl eq_refl Hca Hua Hmem).
  - unfold User.__init__, bind at 1.
    now rewrite (Base_init_reads_back "User"
                   [("id", id); ("created_at", VStr (strftime ca));
                    ("updated_at", VStr (strftime ua)); ("email", email);
                    ("_password", pw); ("first_name", fn);
                    ("last_name", ln)]
                   id ca ua w eq_refl eq_refl eq_refl Hca Hua Hmem).
  - unfold UserSession.__init__, bind at 1.
    now rewrite (Base_init_reads_back "UserSession"
                   [("id", id); ("created_at", VStr (strftime ca));
                    ("updated_at", VStr (strftime ua)); ("user_id", uid);
                    ("session_id", sid)]
                   id ca ua w eq_refl eq_refl eq_refl Hca Hua Hmem).
Qed.

End ReadBack.

(** Keys that are pairwise different for the equality of the dictionary,
    each compared with the ones after it. *)
Fixpoint distinct_keys {K V} (eqb : K -> K -> bool) (l : list (K * V))
  : Prop :=
  match l with
  | [] => True
  | (k, _) :: r =>
      (forall k' v', In (k', v') r -> eqb k k' = false) /\ distinct_keys eqb r
  end.

Lemma dict_set_fresh {K V} (eqb : K -> K -> bool) (d : list (K * V)) k v :
  (forall k' v', In (k', v') d -> eqb k' k = false) ->
  dict_set eqb d k v = (d ++ [(k, v)])%list.
Proof.
  induction d as [|[k0 v0] d IH]; intros Hfresh; [reflexivity|].
  cbn [dict_set app]. rewrite (Hfresh k0 v0 (or_introl eq_refl)).
  rewrite IH; [reflexivity|]. intros k' v' Hin. apply (Hfresh k' v'). now right.
Qed.

Lemma fold_dict_set_distinct {K V} (eqb : K -> K -> bool)
    (pairs acc : list (K * V)) :
  distinct_keys eqb pairs ->
  (forall k v k' v', In (k, v) acc -> In (k', v') pairs -> eqb k k' = false) ->
  fold_left (fun d kv => dict_set eqb d (fst kv) (snd kv)) pairs acc
  = (acc ++ pairs)%list.
Proof.
  revert acc. induction pairs as [|[k v] pairs IH]; intros acc Hd Hacc.
  - now rewrite app_nil_r.
  - cbn [fold_left fst snd]. destruct Hd as [Hk Hd].
    rewrite dict_set_fresh.
    + rewrite IH; [now rewrite <- app_assoc|exact Hd|].
      intros k1 v1 k2 v2 Hin1 Hin2. apply in_app_or in Hin1 as [Hin1|Hin1].
      * apply (Hacc k1 v1 k2 v2 Hin1). now right.
      * destruct Hin1 as [[= <- <-]|[]]. now apply (Hk k2 v2).
    + intros k' v' Hin. apply (Hacc k' v' k v Hin). now left.
Qed.

Lemma dict_of_distinct {K V} (eqb : K -> K -> bool) (pairs : list (K * V)) :
  distinct_keys eqb pairs -> dict_of eqb pairs = pairs.
Proof.
  intros Hd. unfold dict_of.
  rewrite fold_dict_set_distinct; [reflexivity|exact Hd|].
  intros k v k' v' [].
Qed.

Lemma distinct_string_keys {A V} (f : A -> string) (g : A -> V) (l : list A) :
  List.NoDup (map f l) ->
  distinct_keys String.eqb (map (fun x => (f x, g x)) l).
Proof.
  induction l as [|x l IH]; intros Hnd; [exact I|].
  apply NoDup_cons_iff in Hnd as [Hx Hnd]. split; [|now apply IH].
  intros k' v' Hin. apply in_map_iff in Hin as (y & [= <- <-] & Hy).
  destruct (String.eqb_spec (f x) (f y)) as [Heq|]; [|reflexivity].
  exfalso. apply Hx. rewrite Heq. now apply in_map.
Qed.

Lemma distinct_VStr_keys {A V} (f : A -> string) (g : A -> V) (l : list A) :
  List.NoDup (map f l) ->
  distinct_keys py_eq (map (fun x => (VStr (f x), g x)) l).
Proof.
  induction l as [|x l IH]; intros Hnd; [exact I|].
  apply NoDup_cons_iff in Hnd as [Hx Hnd]. split; [|now apply IH].
  intros k' v' Hin. apply in_map_iff in Hin as (y & [= <- <-] & Hy).
  cbn [py_eq].
  destruct (String.eqb_spec (f x) (f y)) as [Heq|]; [|reflexivity].
  exfalso. apply Hx. rewrite Heq. now apply in_map.
Qed.

Lemma json_dump_strings {A} (f : A -> string)
    (g : A -> list (string * value)) (l : list A) :
  Base.json_dump (map (fun x => (VStr (f x), g x)) l)
  = Some (map (fun x => (f x, g x)) l).
Proof.
  induction l as [|x l IH]; [reflexivity|].
  cbn [map Base.json_dump Base.json_key]. now rewrite IH.
Qed.

Lemma map_M_deref (d : list (value * nat)) (l : list (value * object))
    (w : world) :
  deref_all (heap w) d = Some l ->
  map_M (fun kr => (o <- deref (snd kr) ;;
                    ret (fst kr, Base.to_json o true))%M) d w
  = (Ok (map (fun ko => (fst ko, Base.to_json (snd ko) true)) l), w).
Proof.
  revert l. induction d as [|[k r] d IH]; intros l; cbn [deref_all].
  - intros [= <-]. reflexivity.
  - destruct (heap w !! r) as [o|] eqn:Hr; [|discriminate].
    destruct (deref_all (heap w) d) as [l'|]; [|discriminate].
    intros [= <-]. cbn [map_M snd fst].
    assert (Hhere : (o0 <- deref r ;; ret (k, Base.to_json o0 true))%M w
                    = (Ok (k, Base.to_json o true), w))
      by (unfold bind, deref; now rewrite Hr).
    unfold bind at 1. rewrite Hhere.
    unfold bind at 1. rewrite (IH l' eq_refl). reflexivity.
Qed.

(** [save_to_file] writes the stored objects of the class, each under its
    key, as [to_json(True)] gives it. *)
Lemma save_to_file_writes (s_class : string) (w : world)
    (objs : list (string * object)) :
  stored w s_class = Some (map (fun ko => (VStr (fst ko), snd ko)) objs) ->
  List.NoDup (map fst objs) ->
  Base.save_to_file s_class w
  = (Ok tt,
     with_files
       (sset (sset (files w) (Base.file_path s_class) Truncated)
          (Base.file_path s_class)
          (JsonDoc (map (fun ko => (fst ko, Base.to_json (snd ko) true))
                        objs)))
       w).
Proof.
  unfold stored. intros Hst Hnd.
  destruct (sget (DATA w) s_class) as [d|] eqn:Hd; [|discriminate].
  unfold Base.save_to_file, bind at 1, data_of, bind at 1, get_DATA.
  rewrite Hd. unfold ret at 1, bind at 1.
  rewrite (map_M_deref d _ w Hst). rewrite map_map. cbn [fst snd].
  rewrite dict_of_distinct
    by exact (distinct_VStr_keys fst (fun ko => Base.to_json (snd ko) true)
                objs Hnd).
  rewrite (json_dump_strings fst (fun ko => Base.to_json (snd ko) true)).
  reflexivity.
Qed.

Lemma sget_Some_smem {V} (d : list (string * V)) k v :
  sget d k = Some v -> smem d k = true.
Proof. unfold smem, dict_mem, sget. now intros ->. Qed.

Section LoadLoop.
Context `{E : Env}.
Variable c : repo_class.

Definition load_one (kv : string * list (string * value)) : M unit :=
  (r <- new (klass_of c) (snd kv) ;;
   data_set (cls_name (klass_of c)) (VStr (fst kv)) r)%M.

Lemma shaped_class_name o :
  shaped c o -> class_name o = cls_name (klass_of c).
Proof. intros []; reflexivity. Qed.

(** The loop of [load_from_file]: one new object per entry, appended to
    the heap, and entered last in [DATA]. *)
Lemma load_loop (objs : list (string * object)) :
  forall (w : world) (acc : list (value * nat)),
    Forall (fun ko => shaped c (snd ko)) objs ->
    sget (DATA w) (cls_name (klass_of c)) = Some acc ->
    List.NoDup (map fst objs) ->
    (forall k' r k, In (k', r) acc -> In k (map fst objs) ->
                    py_eq k' (VStr k) = false) ->
    exists w',
      for_each (map (fun ko => (fst ko, Base.to_json (snd ko) true)) objs)
        load_one w = (Ok tt, w')
      /\ heap w' = (heap w ++ map (fun ko => reloaded (snd ko)) objs)%list
      /\ sget (DATA w') (cls_name (klass_of c))
         = Some (acc ++ combine (map (fun ko => VStr (fst ko)) objs)
                          (seq (length (heap w)) (length objs)))%list.
Proof.
  induction objs as [|[k o] objs IH]; intros w acc Hshape Hacc Hnd Hfresh.
  - exists w. cbn. rewrite !app_nil_r. auto.
  - apply Forall_cons_iff in Hshape as [Ho Hshape]. cbn [snd] in Ho.
    cbn [map fst] in Hnd. apply NoDup_cons_iff in Hnd as [Hk Hnd].
    set (o' := reloaded o).
    set (w1 := mk_world (heap w ++ [o'])%list
                 (sset (DATA w) (cls_name (klass_of c))
                    (acc ++ [(VStr k, length (heap w))])%list)
                 (files w) (clock w) (S (uuids w))).
    assert (Hone : load_one (k, Base.to_json o true) w = (Ok tt, w1)).
    { unfold load_one, bind at 1, new, bind at 1. cbn [snd fst].
      rewrite (init_reads_back c o w Ho (sget_Some_smem _ _ _ Hacc)).
      unfold alloc, with_heap. cbn [heap DATA files clock uuids].
      unfold data_set, bind at 1, data_of, bind at 1, get_DATA. cbn [DATA].
      rewrite Hacc. unfold ret at 1, bind at 1, set_DATA, with_DATA.
      cbn [heap DATA files clock uuids].
      rewrite dict_set_fresh.
      - unfold w1, o', reloaded. now rewrite (shaped_class_name o Ho).
      - intros k' r Hin. apply (Hfresh k' r k Hin). now left. }
    destruct (IH w1 (acc ++ [(VStr k, length (heap w))])%list Hshape)
      as (w' & Hrun & Hheap & Hdata).
    + unfold w1. cbn [DATA]. apply sget_sset_same.
    + exact Hnd.
    + intros k' r k0 Hin Hk0. apply in_app_or in Hin as [Hin|Hin].
      * apply (Hfresh k' r k0 Hin). now right.
      * destruct Hin as [[= <- <-]|[]]. cbn [py_eq].
        destruct (String.eqb_spec k k0) as [->|]; [contradiction|reflexivity].
    + exists w'. split; [|split].
      * cbn [map for_each fst snd]. unfold bind at 1. now rewrite Hone.
      * rewrite Hheap. unfold w1. cbn [heap map snd].
        now rewrite <- app_assoc.
      * rewrite Hdata. unfold w1. cbn [heap map fst snd length seq combine].
        rewrite length_app. cbn [length]. rewrite Nat.add_1_r.
        now rewrite <- app_assoc.
Qed.

End LoadLoop.

Lemma deref_all_appended (h news : list object) (keys : list value) :
  length keys = length news ->
  deref_all (h ++ news) (combine keys (seq (length h) (length news)))
  = Some (combine keys news).
Proof.
  revert h keys. induction news as [|x news IH]; intros h keys Hlen.
  - destruct keys; [reflexivity|discriminate].
  - destruct keys as [|k keys]; [discriminate|].
    cbn [length seq combine deref_all].
    rewrite list_lookup_middle by reflexivity.
    replace (h ++ x :: news)%list with ((h ++ [x]) ++ news)%list
      by now rewrite <- app_assoc.
    replace (S (length h)) with (length (h ++ [x])%list)
      by (rewrite length_app; cbn; lia).
    rewrite IH; [reflexivity|]. cbn in Hlen. lia.
Qed.

Lemma combine_map {A B C} (f : A -> B) (g : A -> C) (l : list A) :
  combine (map f l) (map g l) = map (fun x => (f x, g x)) l.
Proof. induction l; cbn; congruence. Qed.

(** C5: when the stored objects of a class are as its constructor lays
    them out, under string keys, [save_to_file] followed by
    [load_from_file] succeeds and leaves in [DATA], under the same keys
    and in the same order, objects with the same attributes and the same
    values, the time stamps cut to the second. *)
Theorem save_then_load_reproduces `{E : Env} (c : repo_class) (w : world)
    (objs : list (string * object)) :
  stored w (cls_name (klass_of c))
  = Some (map (fun ko => (VStr (fst ko), snd ko)) objs) ->
  List.NoDup (map fst objs) ->
  Forall (fun ko => shaped c (snd ko)) objs ->
  fst (Base.save_to_file (cls_name (klass_of c)) w) = Ok tt
  /\ fst (Base.load_from_file (klass_of c)
            (snd (Base.save_to_file (cls_name (klass_of c)) w))) = Ok tt
  /\ stored (snd (Base.load_from_file (klass_of c)
                    (snd (Base.save_to_file (cls_name (klass_of c)) w))))
       (cls_name (klass_of c))
     = Some (map (fun ko => (VStr (fst ko), reloaded (snd ko))) objs).
Proof.
  intros Hstored Hnd Hshape.
  rewrite (save_to_file_writes _ w objs Hstored Hnd). cbn [fst snd].
  set (s := cls_name (klass_of c)).
  set (doc := map (fun ko => (fst ko, Base.to_json (snd ko) true)) objs).
  set (fs := sset (sset (files w) (Base.file_path s) Truncated)
               (Base.file_path s) (JsonDoc doc)).
  split; [reflexivity|].
  destruct (load_loop c objs
              (mk_world (heap w) (sset (DATA w) s []) fs (clock w) (uuids w))
              [] Hshape)
    as (w' & Hrun & Hheap & Hdata).
  { cbn [DATA]. apply sget_sset_same. }
  { exact Hnd. }
  { intros k' r k []. }
  assert (Hload : Base.load_from_file (klass_of c) (with_files fs w)
                  = (Ok tt, w')).
  { unfold Base.load_from_file. fold s.
    unfold bind at 1, get_DATA, bind at 1, set_DATA, bind at 1, get_files.
    unfold with_DATA, with_files. cbn [heap DATA files clock uuids].
    unfold fs at 1. rewrite sget_sset_same.
    rewrite dict_of_distinct
      by exact (distinct_string_keys fst
                  (fun ko => Base.to_json (snd ko) true) objs Hnd).
    exact Hrun. }
  rewrite Hload. cbn [fst snd]. split; [reflexivity|].
  unfold stored. subst s. rewrite Hdata, Hheap. cbn [app heap].
  rewrite <- (length_map (fun ko => reloaded (snd ko)) objs).
  rewrite deref_all_appended by now rewrite !length_map.
  now rewrite combine_map.
Qed.

Lemma save_then_load_reproduces_witness :
  stored
    (snd (Base.load_from_file (User.cls (E := Examples.env))
            (snd (Base.save_to_file "User" Examples.one_user))))
    "User"
  = Some
      [(VStr "u1",
        mk_object "User"
          [("id", VStr "u1");
           ("created_at", VDatetime (mk_datetime 2023 5 17 8 30 59 0));
           ("updated_at", VDatetime (mk_datetime 2023 5 17 8 31 0 0));
           ("email", VStr "a@b.com");
           ("_password", VStr (Examples.hexlify "secret"));
           ("first_name", VStr "Alice");
           ("last_name", VNone)])].
Proof.
  apply (save_then_load_reproduces (E := Examples.env) CUser
           Examples.one_user [("u1", Examples.alice)]).
  - reflexivity.
  - repeat constructor. intros [].
  - repeat constructor; reflexivity.
Defined.

(** A user stored under the integer 5, with a datetime for email. *)
Definition user5 : object :=
  mk_object "User"
    [("id", VInt 5);
     ("created_at", VDatetime (mk_datetime 2023 5 17 8 30 59 0));
     ("updated_at", VDatetime (mk_datetime 2023 5 17 8 31 0 0));
     ("email", VDatetime (mk_datetime 2020 1 1 0 0 0 0));
     ("_password", VNone); ("first_name", VNone); ("last_name", VNone)].

Definition store5 : world :=
  mk_world [user5] [("User", [(VInt 5, 0%nat)])] [] 0 0.

(** C5, as claimed, fails: JSON has only strings for keys and no
    datetimes.  A user stored under the integer 5 comes back under the
    string ["5"], so that [get(5)], which found it, finds nothing; and
    its email, a datetime, comes back as a string. *)
Lemma save_then_load_changes_key_and_value :
  let cls := User.cls (E := Examples.env) in
  let saved := Base.save_to_file "User" store5 in
  let loaded := Base.load_from_file cls (snd saved) in
  fst saved = Ok tt
  /\ fst loaded = Ok tt
  /\ fst (Base.get cls (VInt 5) store5) = Ok (Some 0%nat)
  /\ fst (Base.get cls (VInt 5) (snd loaded)) = Ok None
  /\ exists o,
       stored (snd loaded) "User" = Some [(VStr "5", o)]
       /\ attr user5 "email" = Ok (VDatetime (mk_datetime 2020 1 1 0 0 0 0))
       /\ attr o "email" = Ok (VStr "2020-01-01T00:00:00").
Proof.
  cbv zeta. split; [reflexivity|]. split; [reflexivity|].
  split; [reflexivity|]. split; [reflexivity|].
  eexists. split; [vm_compute; reflexivity|]. split; reflexivity.
Qed.

(** * Further properties of the store, the views and the gate *)

(** ** Equality of values *)

(** [True] and [False] stand for [1] and [0]. *)
Definition py_norm (v : value) : value :=
  match v with
  | VBool b => VInt (bool_to_Z b)
  | _ => v
  end.

Lemma lex_compare_eq (a b : list Z) : lex_compare a b = Eq -> a = b.
Proof.
  revert b. induction a as [|x a IH]; intros [|y b]; cbn [lex_compare];
    try discriminate; [reflexivity|].
  destruct (Z.compare_spec x y) as [->| |]; try discriminate.
  intros H. now rewrite (IH b H).
Qed.

Lemma dt_eqb_eq (a b : datetime) : dt_eqb a b = true <-> a = b.
Proof.
  split; [|intros ->; unfold dt_eqb, dt_compare; now rewrite lex_compare_refl].
  unfold dt_eqb, dt_compare.
  destruct (lex_compare (dt_fields a) (dt_fields b)) eqn:Hc; try discriminate.
  intros _. apply lex_compare_eq in Hc. destruct a, b.
  unfold dt_fields in Hc. cbn [year month day hour minute second microsecond]
    in Hc.
  injection Hc. intros. subst. reflexivity.
Qed.

Lemma py_eq_norm (a b : value) : py_eq a b = true <-> py_norm a = py_norm b.
Proof.
  destruct a as [|x|x|x|x], b as [|y|y|y|y]; cbn [py_eq py_norm];
    try (split; intros H; first [discriminate H|reflexivity]).
  - destruct x, y; cbn; split; intros H; first [discriminate H|reflexivity].
  - rewrite Z.eqb_eq. split; congruence.
  - rewrite Z.eqb_eq. split; congruence.
  - rewrite Z.eqb_eq. split; congruence.
  - rewrite String.eqb_eq. split; congruence.
  - rewrite dt_eqb_eq. split; congruence.
Qed.

Lemma py_eq_refl (a : value) : py_eq a a = true.
Proof. now apply py_eq_norm. Qed.

Lemma py_eq_false_norm (a b : value) :
  py_eq a b = false <-> py_norm a <> py_norm b.
Proof.
  rewrite <- py_eq_norm. destruct (py_eq a b); split; congruence.
Qed.

(** ** The effect of the store operations on [DATA] *)

(** Only the files differ. *)
Definition only_files (w w' : world) : Prop :=
  heap w' = heap w /\ DATA w' = DATA w
  /\ clock w' = clock w /\ uuids w' = uuids w.

Lemma only_files_refl w : only_files w w.
Proof. repeat split. Qed.

Lemma map_M_to_json_state (d : list (value * nat)) (w : world) :
  snd (map_M (fun kr => (o <- deref (snd kr) ;;
                         ret (fst kr, Base.to_json o true))%M) d w) = w.
Proof.
  induction d as [|[k r] d IH]; [reflexivity|].
  cbn [map_M]. unfold bind at 1, bind at 1, deref.
  destruct (heap w !! snd (k, r)); [|reflexivity].
  unfold ret at 1, bind at 1.
  destruct (map_M _ d w) as [[l|e] w'] eqn:Hd; cbn [snd] in *; exact IH.
Qed.

Lemma save_to_file_only_files (s_class : string) (w : world) :
  only_files w (snd (Base.save_to_file s_class w)).
Proof.
  unfold Base.save_to_file, bind at 1, data_of, bind at 1, get_DATA.
  destruct (sget (DATA w) s_class) as [d|]; [|apply only_files_refl].
  unfold ret at 1, bind at 1.
  pose proof (map_M_to_json_state d w) as Hst.
  destruct (map_M _ d w) as [[l|e] w'] eqn:Hd; cbn [snd] in Hst; subst w';
    [|apply only_files_refl].
  unfold bind, get_files, set_files, raise.
  destruct (Base.json_dump (dict_of py_eq l)); repeat split.
Qed.

Lemma dict_get_set_same {K V} (eqb : K -> K -> bool) (d : list (K * V)) k v :
  eqb k k = true -> dict_get eqb (dict_set eqb d k v) k = Some v.
Proof.
  intros Hk. induction d as [|[k' v'] d IH]; cbn [dict_set dict_get].
  - now rewrite Hk.
  - destruct (eqb k' k) eqn:Ek; cbn [dict_get]; rewrite Ek;
      [reflexivity|exact IH].
Qed.

(** What [save] leaves in [DATA]: the entry of the object under its id,
    whether the file could be written or not. *)
Lemma save_DATA `{E : Env} (self : nat) (o : object) (id : value)
    (d : list (value * nat)) (w : world) :
  heap w !! self = Some o ->
  attr o "id" = Ok id ->
  sget (DATA w) (class_name o) = Some d ->
  DATA (snd (Base.save self w))
  = sset (DATA w) (class_name o) (dict_set py_eq d id self).
Proof.
  intros Hself Hid Hd. rewrite (save_unfold self o w Hself).
  set (o1 := setattr o "updated_at" (VDatetime (utcnow_at (clock w)))).
  assert (Hh : heap (stamped self o w) !! self = Some o1).
  { unfold stamped. cbn [heap]. apply list_lookup_insert_eq.
    now apply lookup_lt_Some in Hself. }
  assert (HD : DATA (stamped self o w) = DATA w) by reflexivity.
  assert (Hid' : attr o1 "id" = Ok id).
  { unfold attr, o1 in *. cbn [attrs setattr].
    rewrite sget_sset_other; [exact Hid|discriminate]. }
  revert Hh HD. generalize (stamped self o w). intros w1 Hh HD.
  unfold save_tail, bind at 1, data_of, bind at 1, get_DATA.
  rewrite HD, Hd. unfold ret at 1.
  unfold bind at 1, deref. rewrite Hh.
  unfold bind at 1, lift. rewrite Hid'.
  unfold bind at 1, data_set, bind at 1, data_of, bind at 1, get_DATA.
  rewrite HD, Hd. unfold ret at 1, bind at 1, set_DATA.
  match goal with
  | |- DATA (snd (Base.save_to_file ?s ?w0)) = _ =>
      destruct (save_to_file_only_files s w0) as (_ & HD' & _)
  end.
  rewrite HD'. unfold with_DATA. cbn [DATA]. now rewrite HD.
Qed.

(** X1: once [save] has run on an object that has an [id], [get] with that
    id returns the object, also when writing the file failed. *)
Theorem save_then_get `{E : Env} (cls : klass) (self : nat) (o : object)
    (id : value) (d : list (value * nat)) (w : world) :
  heap w !! self = Some o ->
  attr o "id" = Ok id ->
  cls_name cls = class_name o ->
  sget (DATA w) (class_name o) = Some d ->
  Base.get cls id (snd (Base.save self w))
  = (Ok (Some self), snd (Base.save self w)).
Proof.
  intros Hself Hid Hcls Hd.
  unfold Base.get, bind at 1, data_of, bind at 1, get_DATA.
  rewrite (save_DATA self o id d w Hself Hid Hd), Hcls, sget_sset_same.
  unfold ret. now rewrite dict_get_set_same by apply py_eq_refl.
Qed.

Lemma save_then_get_witness :
  fst (Base.get (User.cls (E := Examples.env)) (VStr "u1")
         (snd (Base.save (E := Examples.env) 0%nat Examples.one_user)))
  = Ok (Some 0%nat).
Proof.
  rewrite (save_then_get (E := Examples.env) User.cls 0%nat Examples.alice
             (VStr "u1") [(VStr "u1", 0%nat)] Examples.one_user
             eq_refl eq_refl eq_refl eq_refl).
  reflexivity.
Defined.

(** X2: [remove] on an object whose id is not a key of the store of its
    class does nothing: no entry is deleted and the file is not written. *)
Theorem remove_absent_is_noop (self : nat) (o : object) (id : value)
    (d : list (value * nat)) (w : world) :
  heap w !! self = Some o ->
  attr o "id" = Ok id ->
  sget (DATA w) (class_name o) = Some d ->
  dict_mem py_eq d id = false ->
  Base.remove self w = (Ok tt, w).
Proof.
  intros Hself Hid Hd Hmem.
  unfold Base.remove, bind at 1, deref. rewrite Hself.
  unfold bind at 1, lift. rewrite Hid.
  unfold bind at 1, data_of, bind at 1, get_DATA. rewrite Hd.
  unfold ret at 1. now rewrite Hmem.
Qed.

Lemma remove_absent_is_noop_witness :
  Base.remove 0%nat
    (mk_world [Examples.alice] [("User", [(VStr "u2", 0%nat)])] [] 0 0)
  = (Ok tt, mk_world [Examples.alice] [("User", [(VStr "u2", 0%nat)])] [] 0 0).
Proof.
  apply (remove_absent_is_noop 0%nat Examples.alice (VStr "u1")
           [(VStr "u2", 0%nat)]); reflexivity.
Defined.

Lemma dict_get_absent (d : list (value * nat)) (k : value) :
  (forall k' r, In (k', r) d -> py_eq k' k = false) ->
  dict_get py_eq d k = None.
Proof.
  induction d as [|[k0 r0] d IH]; intros Hd; [reflexivity|].
  cbn [dict_get]. rewrite (Hd k0 r0 (or_introl eq_refl)).
  apply IH. intros k' r Hin. apply (Hd k' r). now right.
Qed.

Lemma dict_get_del_same (d : list (value * nat)) (k : value) :
  distinct_keys py_eq d -> dict_get py_eq (dict_del py_eq d k) k = None.
Proof.
  induction d as [|[k0 r0] d IH]; intros Hd; [reflexivity|].
  destruct Hd as [Hk0 Hd]. cbn [dict_del].
  destruct (py_eq k0 k) eqn:Ek.
  - apply dict_get_absent. intros k' r Hin.
    apply py_eq_false_norm. apply py_eq_norm in Ek.
    specialize (Hk0 k' r Hin). apply py_eq_false_norm in Hk0. congruence.
  - cbn [dict_get]. rewrite Ek. now apply IH.
Qed.

Lemma dict_del_length (d : list (value * nat)) (k : value) :
  dict_mem py_eq d k = true ->
  S (length (dict_del py_eq d k)) = length d.
Proof.
  unfold dict_mem. induction d as [|[k0 r0] d IH]; [discriminate|].
  cbn [dict_get dict_del]. destruct (py_eq k0 k); [reflexivity|].
  intros H. cbn [length]. now rewrite IH.
Qed.

Lemma remove_DATA (self : nat) (o : object) (id : value)
    (d : list (value * nat)) (w : world) :
  heap w !! self = Some o ->
  attr o "id" = Ok id ->
  sget (DATA w) (class_name o) = Some d ->
  dict_mem py_eq d id = true ->
  DATA (snd (Base.remove self w))
  = sset (DATA w) (class_name o) (dict_del py_eq d id).
Proof.
  intros Hself Hid Hd Hmem.
  unfold Base.remove, bind at 1, deref. rewrite Hself.
  unfold bind at 1, lift. rewrite Hid.
  unfold bind at 1, data_of, bind at 1, get_DATA. rewrite Hd.
  unfold ret at 1. rewrite Hmem.
  unfold bind at 1, bind at 1, get_DATA. rewrite Hd.
  unfold ret at 1, bind at 1, bind at 1, set_DATA.
  match goal with
  | |- DATA (snd (Base.save_to_file ?s ?w0)) = _ =>
      destruct (save_to_file_only_files s w0) as (_ & HD' & _)
  end.
  rewrite HD'. reflexivity.
Qed.

(** X3: after [remove] on a stored object, [get] with its id finds nothing
    and [count] is one less (the keys of a dictionary being pairwise
    different). *)
Theorem remove_then_get (cls : klass) (self : nat) (o : object) (id : value)
    (d : list (value * nat)) (w : world) :
  heap w !! self = Some o ->
  attr o "id" = Ok id ->
  cls_name cls = class_name o ->
  sget (DATA w) (class_name o) = Some d ->
  distinct_keys py_eq d ->
  dict_mem py_eq d id = true ->
  fst (Base.get cls id (snd (Base.remove self w))) = Ok None
  /\ fst (Base.count cls (snd (Base.remove self w)))
     = Ok (Z.of_nat (length d) - 1).
Proof.
  intros Hself Hid Hcls Hd Hdist Hmem.
  pose proof (remove_DATA self o id d w Hself Hid Hd Hmem) as HD.
  unfold Base.get, Base.count, bind, data_of, bind, get_DATA.
  rewrite HD, Hcls, sget_sset_same. unfold ret. cbn [fst]. split.
  - now rewrite dict_get_del_same.
  - f_equal. pose proof (dict_del_length d id Hmem). lia.
Qed.

Lemma remove_then_get_witness :
  fst (Base.get (User.cls (E := Examples.env)) (VStr "u1")
         (snd (Base.remove 0%nat Examples.one_user))) = Ok None
  /\ fst (Base.count (User.cls (E := Examples.env))
            (snd (Base.remove 0%nat Examples.one_user))) = Ok (1 - 1).
Proof.
  apply (remove_then_get (User.cls (E := Examples.env)) 0%nat Examples.alice
           (VStr "u1") [(VStr "u1", 0%nat)] Examples.one_user);
    try reflexivity.
  split; [intros k' v' []|exact I].
Defined.

(** X4: [load_from_file] for a class whose file does not exist succeeds
    and leaves the class with no stored object, whatever was stored
    before; nothing else changes. *)
Theorem load_without_file_empties (cls : klass) (w : world) :
  sget (files w) (Base.file_path (cls_name cls)) = None ->
  Base.load_from_file cls w
  = (Ok tt, with_DATA (sset (DATA w) (cls_name cls) []) w)
  /\ fst (Base.count cls (snd (Base.load_from_file cls w))) = Ok 0
  /\ fst (Base.all cls (snd (Base.load_from_file cls w))) = Ok [].
Proof.
  intros Hfile.
  assert (Hload : Base.load_from_file cls w
                  = (Ok tt, with_DATA (sset (DATA w) (cls_name cls) []) w)).
  { unfold Base.load_from_file, bind at 1, get_DATA, bind at 1, set_DATA.
    unfold bind at 1, get_files. cbn [files with_DATA]. now rewrite Hfile. }
  rewrite Hload. split; [reflexivity|]. cbn [snd].
  unfold Base.count, Base.all, Base.search, bind, data_of, bind, get_DATA.
  cbn [DATA with_DATA]. rewrite sget_sset_same. split; reflexivity.
Qed.

Lemma load_without_file_empties_witness :
  fst (Base.count (User.cls (E := Examples.env))
         (snd (Base.load_from_file (User.cls (E := Examples.env))
                 Examples.one_user))) = Ok 0.
Proof.
  apply (load_without_file_empties (User.cls (E := Examples.env))
           Examples.one_user eq_refl).
Defined.

(** ** Construction *)


(** [Base.__init__], once the class is entered in [DATA]. *)
Definition init_attributes `{E : Env} (kwargs : list (string * value))
  : M (list (string * value)) :=
  (u <- uuid4 ;;
   let self := sset [] "id"
                 (match sget kwargs "id" with Some v => v | None => VStr u end)
   in
   created_at <- Base._parse_datetime (kwargs_get kwargs "created_at") ;;
   let self := sset self "created_at" (VDatetime created_at) in
   updated_at <- Base._parse_datetime (kwargs_get kwargs "updated_at") ;;
   let self := sset self "updated_at" (VDatetime updated_at) in
   ret self)%M.

Lemma Base_init_unfold `{E : Env} (s_class : string)
    (kwargs : list (string * value)) (w : world) :
  Base.__init__ s_class kwargs w
  = init_attributes kwargs
      (if smem (DATA w) s_class then w
       else with_DATA (sset (DATA w) s_class []) w).
Proof.
  unfold Base.__init__, bind at 1, get_DATA, bind at 1.
  now destruct (smem (DATA w) s_class).
Qed.








Lemma init_attributes_now `{E : Env} (kwargs : list (string * value))
    (w : world) :
  truthy (kwargs_get kwargs "created_at") = false ->
  truthy (kwargs_get kwargs "updated_at") = false ->
  init_attributes kwargs w
  = (Ok [("id", match sget kwargs "id" with
                | Some v => v
                | None => VStr (uuid4_at (uuids w))
                end);
         ("created_at", VDatetime (utcnow_at (clock w)));
         ("updated_at", VDatetime (utcnow_at (S (clock w))))],
     mk_world (heap w) (DATA w) (files w) (S (S (clock w))) (S (uuids w))).
Proof.
  intros Hc Hu.
  unfold init_attributes, bind, uuid4, Base._parse_datetime.
  rewrite Hc. unfold utcnow at 1. cbn [heap DATA files clock uuids].
  rewrite Hu. reflexivity.
Qed.







(** ** Serialization *)

Lemma to_json_fold (p : string * value -> bool) (l acc : list (string * value)) :
  fold_left
    (fun result kv =>
       if p kv then result
       else sset result (fst kv) (Base.json_value (snd kv)))
    l acc
  = fold_left (fun d kv => dict_set String.eqb d (fst kv) (snd kv))
      (map (fun kv => (fst kv, Base.json_value (snd kv)))
           (List.filter (fun kv => negb (p kv)) l))
      acc.
Proof.
  revert acc. induction l as [|kv l IH]; intros acc; [reflexivity|].
  cbn [fold_left List.filter].
  destruct (p kv); cbn [negb map fold_left fst snd]; apply IH.
Qed.

Lemma distinct_keys_filter_map {V W} (p : string * V -> bool) (g : V -> W)
    (l : list (string * V)) :
  distinct_keys String.eqb l ->
  distinct_keys String.eqb
    (map (fun kv => (fst kv, g (snd kv))) (List.filter p l)).
Proof.
  induction l as [|[k v] l IH]; intros Hd; [exact I|].
  destruct Hd as [Hk Hd]. cbn [List.filter].
  destruct (p (k, v)); [|now apply IH].
  cbn [map fst snd]. split; [|now apply IH].
  intros k' v' Hin. apply in_map_iff in Hin as ([k0 v0] & [= <- <-] & Hin).
  apply filter_In in Hin as [Hin _]. exact (Hk k0 v0 Hin).
Qed.

Lemma json_value_is_scalar (v : value) : json_scalar (Base.json_value v) = true.
Proof. destruct v; reflexivity. Qed.

(** X8: on an object whose attribute names are pairwise different,
    [to_json] keeps the attributes in their order, leaves out the names
    that start with an underscore unless [for_serialization] is set, turns
    each datetime into its [TIMESTAMP_FORMAT] string and leaves every other
    value as it is; so no datetime is left in the result. *)
Theorem to_json_layout (self : object) (for_serialization : bool) :
  distinct_keys String.eqb (attrs self) ->
  Base.to_json self for_serialization
  = map (fun kv => (fst kv, Base.json_value (snd kv)))
      (List.filter
         (fun kv => for_serialization || negb (String.prefix "_" (fst kv)))
         (attrs self))
  /\ Forall (fun kv => json_scalar (snd kv) = true)
       (Base.to_json self for_serialization).
Proof.
  intros Hd.
  assert (Heq : Base.to_json self for_serialization
                = map (fun kv => (fst kv, Base.json_value (snd kv)))
                    (List.filter
                       (fun kv => for_serialization
                                  || negb (String.prefix "_" (fst kv)))
                       (attrs self))).
  { unfold Base.to_json.
    rewrite (to_json_fold
               (fun kv => negb for_serialization
                          && String.prefix "_" (fst kv))).
    rewrite (filter_ext
               (fun kv => negb (negb for_serialization
                                && String.prefix "_" (fst kv)))
               (fun kv => for_serialization
                          || negb (String.prefix "_" (fst kv)))).
    - rewrite fold_dict_set_distinct; [reflexivity| |intros k v k' v' []].
      now apply distinct_keys_filter_map.
    - intros kv. now rewrite negb_andb, negb_involutive. }
  split; [exact Heq|]. rewrite Heq. apply Forall_map, Forall_forall.
  intros kv _. apply json_value_is_scalar.
Qed.

Lemma to_json_layout_witness :
  Base.to_json Examples.alice true
  = [("id", VStr "u1");
     ("created_at", VStr "2023-05-17T08:30:59");
     ("updated_at", VStr "2023-05-17T08:31:00");
     ("email", VStr "a@b.com");
     ("_password", VStr (Examples.hexlify "secret"));
     ("first_name", VStr "Alice");
     ("last_name", VNone)].
Proof.
  apply (to_json_layout Examples.alice true).
  cbn. repeat split; intros k' v' Hin;
    repeat (destruct Hin as [[= <- <-]|Hin]; [reflexivity|]);
    destruct Hin.
Defined.

(** ** The store of the first project against the store of the second *)

(** X9: the two [Base.__init__] agree when each of [created_at] and
    [updated_at] is either not given or given with a truthy value.  When
    one is given with a falsy value, the first project hands it to
    [strptime] and raises, where the second reads the clock. *)
Theorem constructors_agree_on_stamps `{E : Env} (s_class : string)
    (kwargs : list (string * value)) (w : world) :
  (forall k v, k = "created_at" \/ k = "updated_at" ->
               sget kwargs k = Some v -> truthy v = true) ->
  Basic_authentication_api.Base.__init__ s_class kwargs w
  = Base.__init__ s_class kwargs w.
Proof.
  intros Hk.
  assert (Hstamp : forall k w0,
             k = "created_at" \/ k = "updated_at" ->
             Basic_authentication_api.Base.timestamp_of kwargs k w0
             = Base._parse_datetime (kwargs_get kwargs k) w0).
  { intros k w0 Hin.
    unfold Basic_authentication_api.Base.timestamp_of, kwargs_get,
      Base._parse_datetime.
    destruct (sget kwargs k) as [v|] eqn:Hv; [|reflexivity].
    rewrite (Hk k v Hin Hv). reflexivity. }
  assert (Hreg :
    (if smem (DATA w) s_class then ret tt
     else set_DATA (sset (DATA w) s_class [])) w
    = (if negb (smem (DATA w) s_class)
       then set_DATA (sset (DATA w) s_class []) else ret tt) w)
    by now destruct (smem (DATA w) s_class).
  unfold Basic_authentication_api.Base.__init__, Base.__init__, bind,
    get_DATA.
  rewrite Hreg.
  destruct ((if negb (smem (DATA w) s_class)
             then set_DATA (sset (DATA w) s_class []) else ret tt) w)
    as [[[]|e] w0]; [|reflexivity].
  destruct (uuid4 w0) as [[u|e] w1]; [|reflexivity].
  rewrite (Hstamp "created_at" w1) by now left.
  destruct (Base._parse_datetime (kwargs_get kwargs "created_at") w1)
    as [[ca|e] w2]; [|reflexivity].
  rewrite (Hstamp "updated_at" w2) by now right.
  reflexivity.
Qed.

Lemma constructors_agree_on_stamps_witness :
  Basic_authentication_api.Base.__init__ (E := Examples.env) "User"
    [("id", VStr "u7"); ("created_at", VStr "2024-03-01T12:00:00")]
    Examples.one_user
  = Base.__init__ (E := Examples.env) "User"
      [("id", VStr "u7"); ("created_at", VStr "2024-03-01T12:00:00")]
      Examples.one_user.
Proof.
  apply (constructors_agree_on_stamps (E := Examples.env)).
  intros k v [-> | ->]; cbn; intros [= <-]; reflexivity.
Defined.

(** X10: where they part: with [created_at] or [updated_at] given as
    [None], as the empty string, as 0 or as [False], the constructor of
    the first project raises ([ValueError] for the empty string,
    [TypeError] otherwise), while [_parse_datetime] of the second reads the
    clock for it and does not raise. *)
Theorem falsy_stamp_parts_the_constructors `{E : Env} (s_class : string)
    (kwargs : list (string * value)) (v : value) (w : world) :
  sget kwargs "created_at" = Some v ->
  truthy v = false ->
  (exists e, fst (Basic_authentication_api.Base.__init__ s_class kwargs w)
             = Raise e
             /\ (e = TypeError \/ exists msg, e = ValueError msg))
  /\ forall w0,
       Base._parse_datetime (kwargs_get kwargs "created_at") w0 = utcnow w0.
Proof.
  intros Hv Hfalsy. split.
  - unfold Basic_authentication_api.Base.__init__, bind, get_DATA.
    destruct ((if smem (DATA w) s_class then ret tt
               else set_DATA (sset (DATA w) s_class [])) w)
      as [[[]|e] w0] eqn:Hreg.
    + unfold uuid4, Basic_authentication_api.Base.timestamp_of.
      rewrite Hv. unfold Basic_authentication_api.Base.strptime_value.
      destruct v as [| | |s|]; try (eexists; split; [reflexivity|now left]).
      cbn [truthy] in Hfalsy. apply negb_false_iff in Hfalsy.
      apply String.eqb_eq in Hfalsy. subst s. cbn.
      eexists. split; [reflexivity|]. right. eauto.
    + destruct (smem (DATA w) s_class); discriminate Hreg.
  - intros w0. unfold Base._parse_datetime, kwargs_get.
    now rewrite Hv, Hfalsy.
Qed.

Lemma falsy_stamp_parts_the_constructors_witness :
  exists e,
    fst (Basic_authentication_api.Base.__init__ (E := Examples.env) "User"
           [("created_at", VNone)] Examples.one_user) = Raise e
    /\ (e = TypeError \/ exists msg, e = ValueError msg).
Proof.
  apply (falsy_stamp_parts_the_constructors (E := Examples.env) "User"
           [("created_at", VNone)] VNone Examples.one_user eq_refl eq_refl).
Defined.

(** X11: when the class has its entry in [DATA], [count], [get] and
    [search] of the first project return what those of the second return;
    when it has none, they return 0, [None] and the empty list, where the
    second project raises [KeyError]. *)
Theorem basic_store_reads (cls : klass) (w : world) :
  (forall d,
     sget (DATA w) (cls_name cls) = Some d ->
     Basic_authentication_api.Base.count cls w = Base.count cls w
     /\ (forall id,
           Basic_authentication_api.Base.get cls id w = Base.get cls id w)
     /\ (forall attributes,
           attributes <> [] ->
           Basic_authentication_api.Base.search cls attributes w
           = Base.search cls attributes w)
     /\ Basic_authentication_api.Base.all cls w = (Ok (map snd d), w))
  /\ (sget (DATA w) (cls_name cls) = None ->
      Basic_authentication_api.Base.count cls w = (Ok 0, w)
      /\ (forall id,
            Basic_authentication_api.Base.get cls id w = (Ok None, w))
      /\ (forall attributes,
            Basic_authentication_api.Base.search cls attributes w
            = (Ok [], w))).
Proof.
  split.
  - intros d Hd.
    assert (Hdata : Basic_authentication_api.Base.data_or_empty cls w
                    = (Ok d, w))
      by (unfold Basic_authentication_api.Base.data_or_empty, bind, get_DATA,
            ret; now rewrite Hd).
    assert (Hdata' : data_of (cls_name cls) w = (Ok d, w))
      by (unfold data_of, bind, get_DATA, ret; now rewrite Hd).
    split; [|split; [|split]].
    + unfold Basic_authentication_api.Base.count, Base.count, bind.
      now rewrite Hdata, Hdata'.
    + intros id. unfold Basic_authentication_api.Base.get, Base.get, bind.
      now rewrite Hdata, Hdata'.
    + intros [|kv attributes] Hne; [contradiction|].
      unfold Basic_authentication_api.Base.search, Base.search, bind.
      now rewrite Hdata, Hdata'.
    + unfold Basic_authentication_api.Base.all,
        Basic_authentication_api.Base.search, bind.
      now rewrite Hdata.
  - intros Hnone.
    assert (Hdata : Basic_authentication_api.Base.data_or_empty cls w
                    = (Ok [], w))
      by (unfold Basic_authentication_api.Base.data_or_empty, bind, get_DATA,
            ret; now rewrite Hnone).
    split; [|split].
    + unfold Basic_authentication_api.Base.count, bind. now rewrite Hdata.
    + intros id. unfold Basic_authentication_api.Base.get, bind.
      now rewrite Hdata.
    + intros [|kv attributes];
        unfold Basic_authentication_api.Base.search, bind;
        now rewrite Hdata.
Qed.

Lemma basic_store_reads_witness :
  Basic_authentication_api.Base.count (User.cls (E := Examples.env))
    Examples.empty_world
  = (Ok 0, Examples.empty_world).
Proof.
  apply (basic_store_reads (User.cls (E := Examples.env))
           Examples.empty_world).
  reflexivity.
Defined.

(** ** The two request gates, and the gate before a view *)

(** X12: for a strategy that protects the path under both lists of
    excluded paths or under neither, a request the gate of the first
    project lets through is let through by the gate of the second, and
    the two gates give the same outcome when the strategy finds no session
    cookie. *)
Theorem session_gate_extends_basic_gate (a : app.Auth) (req : views.request) :
  app.require_auth a (views.path req) app.excluded_list
  = app.require_auth a (views.path req)
      Basic_authentication_api.app.excluded_paths ->
  (Basic_authentication_api.app.handle_auth (Some a) req = Ok tt ->
   fst (app.handle_auth (Some a) req) = Ok tt)
  /\ (truthy (app.session_cookie a req) = false ->
      fst (app.handle_auth (Some a) req)
      = Basic_authentication_api.app.handle_auth (Some a) req).
Proof.
  intros Hreq.
  unfold app.handle_auth, Basic_authentication_api.app.handle_auth.
  rewrite Hreq.
  destruct (app.require_auth a (views.path req)
              Basic_authentication_api.app.excluded_paths); cbn [negb];
    [|split; reflexivity].
  destruct (truthy (app.authorization_header a req)); cbn [negb andb].
  - split; [|intros _];
      destruct (app.current_user_of a req); cbn; auto.
  - split; [discriminate|]. intros ->. reflexivity.
Qed.

Lemma session_gate_extends_basic_gate_witness :
  fst (app.handle_auth (Some basic_only)
         (views.mk_request "/api/v1/status/" views.BodyInvalid None))
  = Ok tt.
Proof.
  apply (session_gate_extends_basic_gate basic_only
           (views.mk_request "/api/v1/status/" views.BodyInvalid None));
    reflexivity.
Defined.

(** X13: when the gate lets a request through on a protected path, the
    request carries the user the strategy resolved, and [GET /users/me]
    answers 200 with that user's [to_json()], without reading the store.
    With no strategy configured the gate leaves the request as it came,
    and on a request that has no [current_user], [GET /users/me] raises
    [AttributeError]. *)
Theorem gate_then_me `{E : Env} (a : app.Auth) (req : views.request)
    (w : world) :
  (app.require_auth a (views.path req) app.excluded_list = true ->
   fst (app.handle_auth (Some a) req) = Ok tt ->
   exists u,
     app.current_user_of a req = Some u
     /\ snd (app.handle_auth (Some a) req)
        = views.mk_request (views.path req) (views.body req) (Some (Some u))
     /\ forall o,
          heap w !! u = Some o ->
          views.view_one_user (snd (app.handle_auth (Some a) req))
            (Some "me") w
          = (Ok (views.PDict (Base.to_json o false), 200), w))
  /\ app.handle_auth None req = (Ok tt, req)
  /\ (views.current_user req = None ->
      views.view_one_user req (Some "me") w = (Raise AttributeError, w)).
Proof.
  split; [|split; [reflexivity|]].
  - unfold app.handle_auth. intros ->. cbn [negb].
    destruct (negb (truthy (app.authorization_header a req))
              && negb (truthy (app.session_cookie a req)));
      [discriminate|].
    cbn [views.current_user].
    destruct (app.current_user_of a req) as [u|]; [|discriminate].
    intros _. exists u. split; [reflexivity|]. split; [reflexivity|].
    intros o Ho. cbn [snd].
    unfold views.view_one_user. cbn [String.eqb Ascii.eqb Bool.eqb
                                       views.current_user].
    unfold bind, views.to_json_of, bind, deref. now rewrite Ho.
  - intros Hnone. unfold views.view_one_user.
    cbn [String.eqb Ascii.eqb Bool.eqb]. now rewrite Hnone.
Qed.

Definition resolves_alice : app.Auth :=
  app.mk_auth
    (fun p excluded => negb (existsb (String.eqb p) excluded))
    (fun _ => VStr "Basic YUBiLmNvbTpzZWNyZXQ=") (fun _ => VNone)
    (fun _ => Some 0%nat).

Lemma gate_then_me_witness :
  views.view_one_user (E := Examples.env)
    (snd (app.handle_auth (Some resolves_alice)
            (views.mk_request "/api/v1/users/me" views.BodyInvalid None)))
    (Some "me") Examples.one_user
  = (Ok (views.PDict (Base.to_json Examples.alice false), 200),
     Examples.one_user).
Proof.
  destruct (gate_then_me (E := Examples.env) resolves_alice
              (views.mk_request "/api/v1/users/me" views.BodyInvalid None)
              Examples.one_user) as (Hgate & _).
  destruct (Hgate eq_refl eq_refl) as (u & Hu & _ & Hme).
  injection Hu as <-. exact (Hme Examples.alice eq_refl).
Defined.

(** ** The user views: refusals *)

Lemma truthy_get_nonempty (d : list (string * value)) (k : string) :
  truthy (kwargs_get d k) = true -> negb (Nat.eqb (length d) 0) = true.
Proof. destruct d; [discriminate|reflexivity]. Qed.

(** X14: [POST /users] answers 400 and changes nothing when the body is
    not JSON, is empty, is not a dictionary, or lacks a truthy [email] or
    [password]; the error carried is the one raised at the first check
    that fails. *)
Theorem create_user_refusals `{E : Env} (req : views.request) (w : world) :
  (views.body req = views.BodyInvalid ->
   views.create_user req w = (Ok (views.PError (HTTPException 400), 400), w))
  /\ (views.body req <> views.BodyInvalid ->
      views.body_truthy (views.body req) = false ->
      views.create_user req w
      = (Ok (views.PError (ValueError "Wrong format"), 400), w))
  /\ (views.body_truthy (views.body req) = true ->
      (forall d, views.body req <> views.BodyObject d) ->
      views.create_user req w = (Ok (views.PError AttributeError, 400), w))
  /\ (forall d,
        views.body req = views.BodyObject d ->
        d <> [] ->
        truthy (kwargs_get d "email") = false ->
        views.create_user req w
        = (Ok (views.PError (ValueError "email missing"), 400), w))
  /\ (forall d,
        views.body req = views.BodyObject d ->
        truthy (kwargs_get d "email") = true ->
        truthy (kwargs_get d "password") = false ->
        views.create_user req w
        = (Ok (views.PError (ValueError "password missing"), 400), w)).
Proof.
  unfold views.create_user, try_except, bind, views.get_json, views.abort,
    ret, raise.
  split; [|split; [|split; [|split]]].
  - intros ->. reflexivity.
  - intros Hvalid Hfalsy.
    destruct (views.body req) as [|v|l|d]; [contradiction|..];
      cbv beta iota; rewrite Hfalsy; reflexivity.
  - intros Htruthy Hobj.
    destruct (views.body req) as [|v|l|d];
      [discriminate| | |now contradiction (Hobj d)];
      cbv beta iota; rewrite Htruthy; reflexivity.
  - intros d -> Hd Hemail. cbv beta iota.
    destruct d as [|kv d]; [contradiction|].
    cbn [views.body_truthy length Nat.eqb negb views.body_get ret].
    rewrite Hemail. reflexivity.
  - intros d -> Hemail Hpassword. cbv beta iota.
    cbn [views.body_truthy views.body_get ret].
    rewrite (truthy_get_nonempty d "email" Hemail), Hemail, Hpassword.
    reflexivity.
Qed.

Lemma create_user_refusals_witness :
  views.create_user (E := Examples.env)
    (views.mk_request "/api/v1/users"
       (views.BodyObject [("email", VStr "c@d.org"); ("password", VStr "")])
       None)
    Examples.one_user
  = (Ok (views.PError (ValueError "password missing"), 400),
     Examples.one_user).
Proof.
  destruct (create_user_refusals (E := Examples.env)
              (views.mk_request "/api/v1/users"
                 (views.BodyObject
                    [("email", VStr "c@d.org"); ("password", VStr "")])
                 None)
              Examples.one_user) as (_ & _ & _ & _ & H).
  exact (H _ eq_refl eq_refl eq_refl).
Defined.

Lemma get_user_by_id_found `{E : Env} (id : string) (u : nat)
    (dd : list (value * nat)) (w : world) :
  sget (DATA w) "User" = Some dd ->
  dict_get py_eq dd (VStr id) = Some u ->
  views.get_user_by_id (Some id) w = (Ok u, w).
Proof.
  intros Hdd Hu.
  unfold views.get_user_by_id, bind, Base.get, bind, data_of, bind, get_DATA.
  cbn [cls_name User.cls]. rewrite Hdd. unfold ret. now rewrite Hu.
Qed.

Lemma get_user_by_id_unknown `{E : Env} (id : string)
    (dd : list (value * nat)) (w : world) :
  sget (DATA w) "User" = Some dd ->
  dict_get py_eq dd (VStr id) = None ->
  views.get_user_by_id (Some id) w = (Raise (HTTPException 404), w).
Proof.
  intros Hdd Hu.
  unfold views.get_user_by_id, bind, Base.get, bind, data_of, bind, get_DATA.
  cbn [cls_name User.cls]. rewrite Hdd. unfold ret. now rewrite Hu.
Qed.



(** X16: [PUT /users/:id] on a stored user with a body that is not JSON or
    is empty answers 400 and changes nothing: the user is not saved and
    its [updated_at] stays. *)
Theorem update_user_bad_body `{E : Env} (req : views.request) (id : string)
    (u : nat) (dd : list (value * nat)) (w : world) :
  sget (DATA w) "User" = Some dd ->
  dict_get py_eq dd (VStr id) = Some u ->
  views.body_truthy (views.body req) = false ->
  exists e,
    views.update_user req (Some id) w = (Ok (views.PError e, 400), w)
    /\ (e = HTTPException 400 \/ e = ValueError "Wrong format").
Proof.
  intros Hdd Hu Hfalsy.
  unfold views.update_user, bind at 1.
  rewrite (get_user_by_id_found id u dd w Hdd Hu).
  unfold try_except, bind, views.get_json, views.abort, ret, raise.
  destruct (views.body req) as [|v|l|d] eqn:Hb; cbv beta iota;
    try rewrite Hfalsy.
  - exists (HTTPException 400). split; [reflexivity|now left].
  - exists (ValueError "Wrong format"). split; [reflexivity|now right].
  - exists (ValueError "Wrong format"). split; [reflexivity|now right].
  - exists (ValueError "Wrong format"). split; [reflexivity|now right].
Qed.

Lemma update_user_bad_body_witness :
  exists e,
    views.update_user (E := Examples.env)
      (views.mk_request "/api/v1/users/u1" (views.BodyObject []) None)
      (Some "u1") Examples.one_user
    = (Ok (views.PError e, 400), Examples.one_user)
    /\ (e = HTTPException 400 \/ e = ValueError "Wrong format").
Proof.
  apply (update_user_bad_body (E := Examples.env)
           (views.mk_request "/api/v1/users/u1" (views.BodyObject []) None)
           "u1" 0%nat [(VStr "u1", 0%nat)] Examples.one_user);
    reflexivity.
Defined.

(** ** The user views: effects *)

Lemma to_json_of_state `{E : Env} (r : nat) (w : world) :
  snd (views.to_json_of r w) = w.
Proof.
  unfold views.to_json_of, bind, deref. now destruct (heap w !! r).
Qed.

(** The user the constructor builds from [kwargs] when no time stamp is
    given. *)
Definition fresh_user `{E : Env} (kwargs : list (string * value)) (w : world)
  : object :=
  mk_object "User"
    [("id", match sget kwargs "id" with
            | Some v => v
            | None => VStr (uuid4_at (uuids w))
            end);
     ("created_at", VDatetime (utcnow_at (clock w)));
     ("updated_at", VDatetime (utcnow_at (S (clock w))));
     ("email", kwargs_get kwargs "email");
     ("_password", kwargs_get kwargs "_password");
     ("first_name", kwargs_get kwargs "first_name");
     ("last_name", kwargs_get kwargs "last_name")].

Lemma new_user_now `{E : Env} (kwargs : list (string * value)) (w : world) :
  truthy (kwargs_get kwargs "created_at") = false ->
  truthy (kwargs_get kwargs "updated_at") = false ->
  new User.cls kwargs w
  = (Ok (length (heap w)),
     mk_world (heap w ++ [fresh_user kwargs w])%list
       (if smem (DATA w) "User" then DATA w else sset (DATA w) "User" [])
       (files w) (S (S (clock w))) (S (uuids w))).
Proof.
  intros Hc Hu. unfold new, bind. cbn [cls_init cls_name User.cls].
  unfold User.__init__, bind.
  rewrite Base_init_unfold, (init_attributes_now _ _ Hc Hu).
  now destruct (smem (DATA w) "User").
Qed.

Lemma smem_sget {V} (d : list (string * V)) (k : string) :
  smem d k = true -> exists v, sget d k = Some v.
Proof.
  unfold smem, dict_mem, sget. destruct (dict_get String.eqb d k) as [v|];
    [eauto|discriminate].
Qed.

(** The keywords [create_user] passes to [User]. *)
Definition create_kwargs (d : list (string * value))
  : list (string * value) :=
  [("email", kwargs_get d "email"); ("password", kwargs_get d "password");
   ("first_name", kwargs_get d "first_name");
   ("last_name", kwargs_get d "last_name")].

Lemma create_user_runs `{E : Env} (req : views.request)
    (d : list (string * value)) (w : world) :
  views.body req = views.BodyObject d ->
  truthy (kwargs_get d "email") = true ->
  truthy (kwargs_get d "password") = true ->
  let u := length (heap w) in
  let w1 := snd (new User.cls (create_kwargs d) w) in
  snd (views.create_user req w) = snd (Base.save u w1)
  /\ (forall o,
        fst (Base.save u w1) = Ok tt ->
        heap (snd (Base.save u w1)) !! u = Some o ->
        fst (views.create_user req w)
        = Ok (views.PDict (Base.to_json o false), 201))
  /\ (forall e,
        fst (Base.save u w1) = Raise e ->
        fst (views.create_user req w) = Ok (views.PError e, 400)).
Proof.
  intros Hb Hemail Hpassword u w1.
  pose proof (new_user_now (create_kwargs d) w eq_refl eq_refl) as Hnew.
  unfold views.create_user, try_except, bind, views.get_json, ret.
  rewrite Hb. cbv beta iota. cbn [views.body_truthy views.body_get ret].
  rewrite (truthy_get_nonempty d "email" Hemail), Hemail, Hpassword.
  cbv beta iota. cbn [negb].
  change [("email", kwargs_get d "email");
          ("password", kwargs_get d "password");
          ("first_name", kwargs_get d "first_name");
          ("last_name", kwargs_get d "last_name")]
    with (create_kwargs d).
  unfold w1. rewrite Hnew. cbn [fst snd]. fold u.
  destruct (Base.save u _) as [[[]|e] w2]; cbn [fst snd].
  - unfold views.to_json_of, bind, deref, ret.
    destruct (heap w2 !! u) as [o|]; cbn [fst snd].
    + split; [reflexivity|]. split; [|discriminate].
      intros o' _ [= <-]. reflexivity.
    + split; [reflexivity|]. split; [|discriminate]. intros o' _ [=].
  - split; [reflexivity|]. split; [discriminate|]. now intros e' [= <-].
Qed.

(** X17: [POST /users] with a dictionary that has a truthy [email] and
    [password] adds one object to the heap: a [User] with a new uuid as
    id, the email and the names of the body, and no stored hash.  The user
    is entered in the store under that id, so [get] finds it.  The answer
    is 201 with the user's [to_json()], or 400 when writing the file
    failed, in which case the user stays in the store all the same. *)
Theorem create_user_registers `{E : Env} (req : views.request)
    (d : list (string * value)) (w : world) :
  views.body req = views.BodyObject d ->
  truthy (kwargs_get d "email") = true ->
  truthy (kwargs_get d "password") = true ->
  exists o,
    heap (snd (views.create_user req w)) !! length (heap w) = Some o
    /\ length (heap (snd (views.create_user req w))) = S (length (heap w))
    /\ class_name o = "User"
    /\ attr o "id" = Ok (VStr (uuid4_at (uuids w)))
    /\ attr o "email" = Ok (kwargs_get d "email")
    /\ attr o "first_name" = Ok (kwargs_get d "first_name")
    /\ attr o "last_name" = Ok (kwargs_get d "last_name")
    /\ attr o "_password" = Ok VNone
    /\ fst (Base.get User.cls (VStr (uuid4_at (uuids w)))
              (snd (views.create_user req w)))
       = Ok (Some (length (heap w)))
    /\ (fst (views.create_user req w)
        = Ok (views.PDict (Base.to_json o false), 201)
        \/ exists e, fst (views.create_user req w)
                     = Ok (views.PError e, 400)).
Proof.
  intros Hb Hemail Hpassword.
  destruct (create_user_runs req d w Hb Hemail Hpassword)
    as (Hstate & Hok & Herr).
  pose proof (new_user_now (create_kwargs d) w eq_refl eq_refl) as Hnew.
  set (u := length (heap w)) in *.
  set (o0 := fresh_user (create_kwargs d) w) in *.
  set (D1 := if smem (DATA w) "User" then DATA w
             else sset (DATA w) "User"
                    ([] : list (value * nat))) in *.
  rewrite Hnew in Hstate, Hok, Herr. cbn [snd] in Hstate, Hok, Herr.
  set (w1 := mk_world (heap w ++ [o0])%list D1 (files w) (S (S (clock w)))
               (S (uuids w))) in *.
  assert (Hu : heap w1 !! u = Some o0)
    by (unfold w1, u; cbn [heap]; now apply list_lookup_middle).
  assert (Hd1 : exists d1, sget (DATA w1) (class_name o0) = Some d1).
  { unfold w1, D1. cbn [DATA class_name o0 fresh_user].
    destruct (smem (DATA w) "User") eqn:Hmem.
    - now apply smem_sget.
    - exists []. apply sget_sset_same. }
  destruct Hd1 as [d1 Hd1].
  destruct (save_heap u o0 w1 Hu) as [Hheap _].
  set (o := setattr o0 "updated_at" (VDatetime (utcnow_at (clock w1)))) in *.
  assert (Ho : heap (snd (Base.save u w1)) !! u = Some o).
  { rewrite Hheap. apply list_lookup_insert_eq.
    now apply lookup_lt_Some in Hu. }
  exists o. rewrite Hstate. split; [exact Ho|].
  split; [rewrite Hheap, length_insert; unfold w1; cbn [heap];
          rewrite length_app; cbn [length]; fold u; lia|].
  split; [reflexivity|]. repeat (split; [reflexivity|]).
  split.
  - unfold Base.get, bind at 1, data_of, bind at 1, get_DATA.
    rewrite (save_DATA u o0 (VStr (uuid4_at (uuids w))) d1 w1 Hu eq_refl Hd1).
    cbn [cls_name User.cls class_name o0 fresh_user].
    rewrite sget_sset_same. unfold ret.
    now rewrite dict_get_set_same by apply py_eq_refl.
  - destruct (fst (Base.save u w1)) as [[]|e] eqn:Hsave.
    + left. now apply Hok.
    + right. exists e. now apply Herr.
Qed.

Lemma create_user_registers_witness :
  exists o,
    heap (snd (views.create_user (E := Examples.env)
                 (views.mk_request "/api/v1/users"
                    (views.BodyObject
                       [("email", VStr "c@d.org"); ("password", VStr "pw");
                        ("first_name", VStr "Carol")])
                    None)
                 Examples.one_user)) !! 1%nat = Some o
    /\ attr o "id" = Ok (VStr "uuid-0")
    /\ attr o "email" = Ok (VStr "c@d.org")
    /\ attr o "first_name" = Ok (VStr "Carol")
    /\ attr o "_password" = Ok VNone.
Proof.
  destruct (create_user_registers (E := Examples.env)
              (views.mk_request "/api/v1/users"
                 (views.BodyObject
                    [("email", VStr "c@d.org"); ("password", VStr "pw");
                     ("first_name", VStr "Carol")])
                 None)
              [("email", VStr "c@d.org"); ("password", VStr "pw");
               ("first_name", VStr "Carol")]
              Examples.one_user eq_refl eq_refl eq_refl)
    as (o & Ho & _ & _ & Hid & Hemail & Hfirst & _ & Hpw & _).
  exists o. auto.
Defined.

Lemma set_attr_run (u : nat) (o : object) (k : string) (v : value)
    (w : world) :
  heap w !! u = Some o ->
  set_attr u k v w
  = (Ok tt, with_heap (<[u := setattr o k v]> (heap w)) w).
Proof. intros Hu. unfold set_attr, bind, deref, store. now rewrite Hu. Qed.

(** The user after the assignments of [update_user], before [save]. *)
Definition renamed (d : list (string * value)) (o : object) : object :=
  let o1 := if smem d "first_name"
            then setattr o "first_name" (kwargs_get d "first_name") else o in
  if smem d "last_name"
  then setattr o1 "last_name" (kwargs_get d "last_name") else o1.

Lemma try_bind_ok {A B} (m : M A) (k : A -> M B) (h : exn -> M B) (a : A)
    (w w' : world) :
  m w = (Ok a, w') ->
  try_except (bind m k) h w = try_except (k a) h w'.
Proof. intros Hm. unfold try_except, bind. now rewrite Hm. Qed.

Lemma try_save_show `{E : Env} (u : nat) (status : Z) (w : world) :
  snd (try_except
         (Base.save u ;;;
          j <- views.to_json_of u ;; ret (views.PDict j, status))%M
         (fun e => ret (views.PError e, 400)) w)
  = snd (Base.save u w).
Proof.
  unfold try_except, bind at 1.
  destruct (Base.save u w) as [[[]|e] w1]; cbn [snd]; [|reflexivity].
  unfold bind. pose proof (to_json_of_state u w1) as Hs.
  destruct (views.to_json_of u w1) as [[j|e] w2]; cbn [snd] in *; now subst.
Qed.

(** [user.k = rj.get(k)] when [k in rj], on a body that is a dictionary *)
Lemma assign_step (d : list (string * value)) (u : nat) (o : object)
    (k : string) (w : world) :
  heap w !! u = Some o ->
  exists w',
    (if smem d k
     then (v <- views.body_get (views.BodyObject d) k ;; set_attr u k v)%M
     else ret tt) w = (Ok tt, w')
    /\ heap w' !! u
       = Some (if smem d k then setattr o k (kwargs_get d k) else o)
    /\ clock w' = clock w.
Proof.
  intros Ho. destruct (smem d k).
  - unfold bind. cbn [views.body_get ret].
    rewrite (set_attr_run u o k _ w Ho). eexists. split; [reflexivity|].
    split; [|reflexivity]. cbn [heap with_heap].
    apply list_lookup_insert_eq. now apply lookup_lt_Some in Ho.
  - exists w. auto.
Qed.

Lemma update_user_runs `{E : Env} (req : views.request) (id : string)
    (d : list (string * value)) (u : nat) (o : object)
    (dd : list (value * nat)) (w : world) :
  views.body req = views.BodyObject d ->
  d <> [] ->
  sget (DATA w) "User" = Some dd ->
  dict_get py_eq dd (VStr id) = Some u ->
  heap w !! u = Some o ->
  exists w2,
    heap w2 !! u = Some (renamed d o)
    /\ clock w2 = clock w
    /\ snd (views.update_user req (Some id) w) = snd (Base.save u w2).
Proof.
  intros Hb Hd Hdd Hu Ho.
  destruct (assign_step d u o "first_name" w Ho) as (w1 & Hstep1 & Ho1 & Hc1).
  destruct (assign_step d u _ "last_name" w1 Ho1) as (w2 & Hstep2 & Ho2 & Hc2).
  exists w2. split; [exact Ho2|]. split; [congruence|].
  unfold views.update_user, bind at 1.
  rewrite (get_user_by_id_found id u dd w Hdd Hu).
  rewrite (try_bind_ok _ _ _ (views.BodyObject d) w w)
    by (unfold views.get_json; now rewrite Hb).
  rewrite (try_bind_ok _ _ _ tt w w)
    by (destruct d; [contradiction|reflexivity]).
  rewrite (try_bind_ok _ _ _ (smem d "first_name") w w) by reflexivity.
  rewrite (try_bind_ok _ _ _ tt w w1) by exact Hstep1.
  rewrite (try_bind_ok _ _ _ (smem d "last_name") w1 w1) by reflexivity.
  rewrite (try_bind_ok _ _ _ tt w1 w2) by exact Hstep2.
  apply try_save_show.
Qed.

(** X18: [PUT /users/:id] on a stored user, with a dictionary that is not
    empty, sets [first_name] and [last_name] to the values of the body for
    the keys the body has (a key given as [null] sets [None]), keeps the
    others, and sets [updated_at] to the reading of the clock; this holds
    whether the file could be written or not. *)
Theorem update_user_applies `{E : Env} (req : views.request) (id : string)
    (d : list (string * value)) (u : nat) (o : object)
    (dd : list (value * nat)) (w : world) :
  views.body req = views.BodyObject d ->
  d <> [] ->
  sget (DATA w) "User" = Some dd ->
  dict_get py_eq dd (VStr id) = Some u ->
  heap w !! u = Some o ->
  exists o',
    heap (snd (views.update_user req (Some id) w)) !! u = Some o'
    /\ attr o' "first_name"
       = (if smem d "first_name" then Ok (kwargs_get d "first_name")
          else attr o "first_name")
    /\ attr o' "last_name"
       = (if smem d "last_name" then Ok (kwargs_get d "last_name")
          else attr o "last_name")
    /\ attr o' "updated_at" = Ok (VDatetime (utcnow_at (clock w))).
Proof.
  intros Hb Hd Hdd Hu Ho.
  destruct (update_user_runs req id d u o dd w Hb Hd Hdd Hu Ho)
    as (w2 & Ho2 & Hc2 & Hstate).
  destruct (save_heap u (renamed d o) w2 Ho2) as [Hheap _].
  rewrite Hstate, Hheap, Hc2.
  eexists. split.
  { apply list_lookup_insert_eq. now apply lookup_lt_Some in Ho2. }
  unfold attr, renamed. cbn [attrs setattr].
  split; [|split].
  - rewrite sget_sset_other by discriminate.
    destruct (smem d "last_name"), (smem d "first_name"); cbn [attrs setattr];
      rewrite ?(sget_sset_other _ "last_name" "first_name") by discriminate;
      rewrite ?sget_sset_same; reflexivity.
  - rewrite sget_sset_other by discriminate.
    destruct (smem d "last_name"), (smem d "first_name"); cbn [attrs setattr];
      rewrite ?sget_sset_same;
      rewrite ?(sget_sset_other _ "first_name" "last_name") by discriminate;
      reflexivity.
  - now rewrite sget_sset_same.
Qed.

Lemma update_user_applies_witness :
  exists o',
    heap (snd (views.update_user (E := Examples.env)
                 (views.mk_request "/api/v1/users/u1"
                    (views.BodyObject [("first_name", VNone)]) None)
                 (Some "u1") Examples.one_user)) !! 0%nat = Some o'
    /\ attr o' "first_name" = Ok VNone
    /\ attr o' "last_name" = Ok VNone
    /\ attr o' "updated_at"
       = Ok (VDatetime (mk_datetime 2024 1 1 0 0 0 123456)).
Proof.
  apply (update_user_applies (E := Examples.env)
           (views.mk_request "/api/v1/users/u1"
              (views.BodyObject [("first_name", VNone)]) None)
           "u1" [("first_name", VNone)] 0%nat Examples.alice
           [(VStr "u1", 0%nat)] Examples.one_user); try reflexivity.
  discriminate.
Defined.

Lemma dict_get_mem (d : list (value * nat)) (k : value) (r : nat) :
  dict_get py_eq d k = Some r -> dict_mem py_eq d k = true.
Proof. unfold dict_mem. now intros ->. Qed.

(** X19: after [DELETE /users/:id] on a user stored under its own id, a
    further request for that id finds no user (404), whether the file
    could be rewritten or not. *)
Theorem delete_user_then_not_found `{E : Env} (id : string) (u : nat)
    (o : object) (dd : list (value * nat)) (w : world) :
  sget (DATA w) "User" = Some dd ->
  distinct_keys py_eq dd ->
  dict_get py_eq dd (VStr id) = Some u ->
  heap w !! u = Some o ->
  class_name o = "User" ->
  attr o "id" = Ok (VStr id) ->
  fst (views.get_user_by_id (Some id) (snd (views.delete_user (Some id) w)))
  = Raise (HTTPException 404).
Proof.
  intros Hdd Hdist Hu Ho Hcls Hid.
  assert (Hstate : snd (views.delete_user (Some id) w)
                   = snd (Base.remove u w)).
  { unfold views.delete_user, bind at 1.
    rewrite (get_user_by_id_found id u dd w Hdd Hu).
    unfold bind. now destruct (Base.remove u w) as [[[]|e] w1]. }
  rewrite Hstate.
  assert (Hdd' : sget (DATA w) (class_name o) = Some dd) by now rewrite Hcls.
  pose proof (remove_DATA u o (VStr id) dd w Ho Hid Hdd'
                (dict_get_mem dd _ u Hu)) as HD.
  rewrite Hcls in HD.
  rewrite (get_user_by_id_unknown id (dict_del py_eq dd (VStr id))).
  - reflexivity.
  - rewrite HD. apply sget_sset_same.
  - now apply dict_get_del_same.
Qed.

Lemma delete_user_then_not_found_witness :
  fst (views.get_user_by_id (E := Examples.env) (Some "u1")
         (snd (views.delete_user (E := Examples.env) (Some "u1")
                 Examples.one_user)))
  = Raise (HTTPException 404).
Proof.
  apply (delete_user_then_not_found (E := Examples.env) "u1" 0%nat
           Examples.alice [(VStr "u1", 0%nat)] Examples.one_user);
    try reflexivity.
  split; [intros k' v' []|exact I].
Defined.





(** ** Counting, and the two password checks *)

Lemma dict_set_length (d : list (value * nat)) (k : value) (r : nat) :
  length (dict_set py_eq d k r)
  = (length d + (if dict_mem py_eq d k then 0 else 1))%nat.
Proof.
  unfold dict_mem. induction d as [|[k0 r0] d IH]; [reflexivity|].
  cbn [dict_set dict_get]. destruct (py_eq k0 k); cbn [length]; [lia|].
  rewrite IH. reflexivity.
Qed.

(** X21: [save] adds one to [count] when the id of the object is not yet a
    key of the store of its class, and leaves [count] as it is when it is:
    saving an object again does not enter it twice. *)
Theorem save_counts_once `{E : Env} (cls : klass) (self : nat) (o : object)
    (id : value) (d : list (value * nat)) (w : world) :
  heap w !! self = Some o ->
  attr o "id" = Ok id ->
  cls_name cls = class_name o ->
  sget (DATA w) (class_name o) = Some d ->
  fst (Base.count cls (snd (Base.save self w)))
  = Ok (Z.of_nat (length d) + (if dict_mem py_eq d id then 0 else 1))
  /\ fst (Base.count cls (snd (Base.save self (snd (Base.save self w)))))
     = fst (Base.count cls (snd (Base.save self w))).
Proof.
  intros Hself Hid Hcls Hd.
  assert (Hcount : forall w0 d0,
             heap w0 !! self = Some o \/
             (exists o', heap w0 !! self = Some o'
                         /\ attr o' "id" = Ok id
                         /\ class_name o' = class_name o) ->
             sget (DATA w0) (class_name o) = Some d0 ->
             fst (Base.count cls (snd (Base.save self w0)))
             = Ok (Z.of_nat (length (dict_set py_eq d0 id self)))).
  { intros w0 d0 Hobj Hd0.
    assert (Hobj' : exists o', heap w0 !! self = Some o'
                               /\ attr o' "id" = Ok id
                               /\ class_name o' = class_name o)
      by (destruct Hobj as [H|H]; [exists o; auto|exact H]).
    destruct Hobj' as (o' & Ho' & Hid' & Hcls').
    unfold Base.count, bind, data_of, bind, get_DATA.
    rewrite <- Hcls' in Hd0.
    rewrite (save_DATA self o' id d0 w0 Ho' Hid' Hd0), Hcls, Hcls'.
    now rewrite sget_sset_same. }
  split.
  - rewrite (Hcount w d (or_introl Hself) Hd), dict_set_length.
    f_equal. destruct (dict_mem py_eq d id); lia.
  - destruct (save_heap self o w Hself) as [Hheap _].
    rewrite (Hcount (snd (Base.save self w)) (dict_set py_eq d id self)).
    + rewrite (Hcount w d (or_introl Hself) Hd).
      rewrite (dict_set_length (dict_set py_eq d id self)).
      unfold dict_mem. rewrite dict_get_set_same by apply py_eq_refl.
      now rewrite Nat.add_0_r.
    + right. eexists. split; [|split].
      * rewrite Hheap. apply list_lookup_insert_eq.
        now apply lookup_lt_Some in Hself.
      * unfold attr in *. cbn [attrs setattr].
        rewrite sget_sset_other; [exact Hid|discriminate].
      * reflexivity.
    + rewrite (save_DATA self o id d w Hself Hid Hd). apply sget_sset_same.
Qed.

Lemma save_counts_once_witness :
  fst (Base.count (User.cls (E := Examples.env))
         (snd (Base.save (E := Examples.env) 0%nat Examples.one_user)))
  = Ok 1.
Proof.
  apply (save_counts_once (E := Examples.env) User.cls 0%nat Examples.alice
           (VStr "u1") [(VStr "u1", 0%nat)] Examples.one_user);
    reflexivity.
Defined.

(** X22: the password getter, the password setter and
    [is_valid_password] of the first project and those of the second do
    the same on every object and every value, raising included. *)
Theorem password_implementations_agree `{E : Env} (self : object)
    (pwd : value) :
  Basic_authentication.User.set_password self pwd = User.set_password self pwd
  /\ Basic_authentication.User.is_valid_password self pwd
     = User.is_valid_password self pwd
  /\ Basic_authentication.User.password self = User.password self.
Proof.
  unfold Basic_authentication.User.set_password, User.set_password,
    Basic_authentication.User.is_valid_password, User.is_valid_password,
    Basic_authentication.User.password, User.password,
    Basic_authentication.User._hash_password.
  destruct pwd as [| | |s|]; repeat split; try reflexivity.
  - destruct (encode s); reflexivity.
  - destruct (attr self "_password") as [[| | | |]|]; cbn [rbind];
      try reflexivity; destruct (encode s); reflexivity.
Qed.

(** ** Redacting a log line *)

Section FilterDatum.
Import Personal_data.

Lemma has_char_app c a b :
  has_char c (a ++ b) = has_char c a || has_char c b.
Proof.
  induction a as [|x a IH]; simpl; [reflexivity|].
  now rewrite IH, orb_assoc.
Qed.

Lemma strip_prefix_Some p : forall s v,
  strip_prefix p s = Some v -> s = (p ++ v)%string.
Proof.
  induction p as [|a p IH]; intros s v H; simpl in *.
  - now inversion H.
  - destruct s as [|b s]; [discriminate|].
    destruct (Ascii.eqb_spec a b) as [->|]; [|discriminate].
    now rewrite (IH _ _ H).
Qed.

Lemma strip_prefix_app p s : strip_prefix p (p ++ s) = Some s.
Proof.
  induction p as [|a p IH]; simpl; [reflexivity|].
  now rewrite Ascii.eqb_refl.
Qed.

(** A text without [=] is left as it is, whatever the fields. *)
Lemma match_here_no_equals sep alts s :
  has_char "=" s = false -> match_here sep alts s = None.
Proof.
  intros Hs. induction alts as [|f alts IH]; simpl; [reflexivity|].
  destruct (strip_prefix (f ++ "=") s) as [v|] eqn:Hp; [|exact IH].
  apply strip_prefix_Some in Hp. subst s.
  rewrite !has_char_app in Hs. simpl in Hs.
  rewrite orb_true_r in Hs. discriminate.
Qed.

End FilterDatum.

Section FilterRecords.
Import Personal_data.

(** A log line of records [key=value] separated by one character. *)
Definition record_text (r : string * string) : string :=
  (fst r ++ "=" ++ snd r)%string.

Fixpoint join_records (sep : ascii) (rs : list (string * string)) : string :=
  match rs with
  | [] => EmptyString
  | r :: rest =>
      match rest with
      | [] => record_text r
      | _ => (record_text r ++ String sep (join_records sep rest))%string
      end
  end.

(** [f] is the end of [k]. *)
Fixpoint ends_with (f k : string) : bool :=
  String.eqb f k ||
  match k with
  | EmptyString => false
  | String _ k' => ends_with f k'
  end.

(** The records the pattern reaches: the key ends with one of the
    alternatives and the value is not empty. *)
Definition redacts (alts : list string) (k v : string) : bool :=
  negb (String.eqb v EmptyString) && existsb (fun f => ends_with f k) alts.

Definition redact_record (alts : list string) (redaction : string)
    (r : string * string) : string * string :=
  (fst r, if redacts alts (fst r) (snd r) then redaction else snd r).

(** A text without [=] and without the separator. *)
Definition plain (sep : ascii) (f : string) : bool :=
  negb (has_char "=" f) && negb (has_char sep f).

(** A field that does not hold the separator. *)
Definition sep_free (sep : ascii) (f : string) : bool :=
  negb (has_char sep f).

(** A record whose key has no [=] and whose value has neither [=] nor the
    separator. *)
Definition well_formed (sep : ascii) (r : string * string) : bool :=
  negb (has_char "=" (fst r)) &&
  negb (has_char "=" (snd r)) && negb (has_char sep (snd r)).

(** The text is over, or goes on with the separator. *)
Definition tail_ok (sep : ascii) (rest : string) : bool :=
  match rest with
  | EmptyString => true
  | String c _ => Ascii.eqb c sep
  end.

(** No [=] before the first separator. *)
Fixpoint blocked (sep : ascii) (s : string) : bool :=
  match s with
  | EmptyString => true
  | String c r =>
      if Ascii.eqb c sep then true
      else if Ascii.eqb c "=" then false else blocked sep r
  end.

Lemma append_nil_r (s : string) : (s ++ "")%string = s.
Proof. induction s as [|c s IH]; simpl; [reflexivity | now rewrite IH]. Qed.

Lemma append_assoc (a b c : string) :
  ((a ++ b) ++ c)%string = (a ++ (b ++ c))%string.
Proof. induction a as [|x a IH]; simpl; [reflexivity | now rewrite IH]. Qed.

Lemma append_length (a b : string) :
  String.length (a ++ b) = (String.length a + String.length b)%nat.
Proof. induction a as [|x a IH]; simpl; [reflexivity | now rewrite IH]. Qed.

Lemma strip_key g : forall k t v',
  has_char "=" g = false -> has_char "=" k = false ->
  strip_prefix (g ++ "=") (k ++ "=" ++ t) = Some v' -> g = k /\ v' = t.
Proof.
  induction g as [|a g IH]; intros [|c k] t v' Hg Hk H;
    cbn [append strip_prefix has_char] in *.
  - rewrite Ascii.eqb_refl in H. inversion H. now split.
  - apply orb_false_elim in Hk as [Hc _]. rewrite Ascii.eqb_sym, Hc in H.
    discriminate.
  - apply orb_false_elim in Hg as [Ha _]. rewrite Ha in H. discriminate.
  - apply orb_false_elim in Hg as [_ Hg], Hk as [_ Hk].
    destruct (Ascii.eqb_spec a c) as [->|]; [|discriminate].
    destruct (IH _ _ _ Hg Hk H) as [-> ->]. now split.
Qed.

Lemma value_length_app sep v rest :
  has_char sep v = false -> tail_ok sep rest = true ->
  value_length sep (v ++ rest) = String.length v.
Proof.
  intros Hv Hr. induction v as [|c v IH]; simpl in *.
  - destruct rest as [|c r]; simpl in *; [reflexivity | now rewrite Hr].
  - apply orb_false_elim in Hv as [Hc Hv]. rewrite Hc. now rewrite IH.
Qed.

Lemma no_equals_of_plain sep alts :
  forallb (plain sep) alts = true ->
  Forall (fun f => has_char "=" f = false /\ has_char sep f = false) alts.
Proof.
  intros H. apply List.Forall_forall. intros f Hf.
  rewrite forallb_forall in H. specialize (H f Hf).
  unfold plain in H. apply andb_prop in H as [H1 H2].
  split; [now destruct (has_char "=" f) | now destruct (has_char sep f)].
Qed.

Lemma match_here_key_in sep alts k v rest :
  forallb (plain sep) alts = true -> has_char "=" k = false ->
  In k alts -> v <> EmptyString -> has_char sep v = false ->
  tail_ok sep rest = true ->
  match_here sep alts (k ++ "=" ++ v ++ rest)
  = Some (k, (String.length k + 1 + String.length v)%nat).
Proof.
  intros Hp Hk Hin Hv Hs Hr. apply no_equals_of_plain in Hp.
  induction alts as [|g alts IH]; [destruct Hin|].
  inversion Hp as [|? ? [Hg _] Hp']; subst. cbn [match_here].
  destruct (strip_prefix (g ++ "=") (k ++ "=" ++ v ++ rest)) as [v'|] eqn:Hsp.
  - destruct (strip_key _ _ _ _ Hg Hk Hsp) as [-> ->].
    rewrite value_length_app by assumption.
    destruct v as [|c v]; [congruence|]. reflexivity.
  - destruct Hin as [->|Hin]; [|now apply IH].
    change (k ++ "=" ++ v ++ rest)%string
      with (k ++ ("=" ++ v ++ rest))%string in Hsp.
    rewrite <- append_assoc, strip_prefix_app in Hsp. discriminate.
Qed.

Lemma match_here_key_out sep alts k v rest :
  forallb (plain sep) alts = true -> has_char "=" k = false ->
  ~ In k alts \/ v = EmptyString -> has_char sep v = false ->
  tail_ok sep rest = true ->
  match_here sep alts (k ++ "=" ++ v ++ rest) = None.
Proof.
  intros Hp Hk Hout Hs Hr. apply no_equals_of_plain in Hp.
  induction alts as [|g alts IH]; [reflexivity|].
  inversion Hp as [|? ? [Hg _] Hp']; subst. cbn [match_here].
  assert (Hout' : ~ In k alts \/ v = EmptyString).
  { destruct Hout as [Hn|Hv]; [left|now right]. intros Hi. apply Hn. now right. }
  destruct (strip_prefix (g ++ "=") (k ++ "=" ++ v ++ rest)) as [v'|] eqn:Hsp;
    [|now apply IH].
  destruct (strip_key _ _ _ _ Hg Hk Hsp) as [-> ->].
  destruct Hout as [Hn | ->]; [exfalso; apply Hn; now left|].
  simpl. destruct rest as [|c r]; simpl in *; [now apply IH|].
  rewrite Hr. now apply IH.
Qed.

Lemma blocked_field sep g t :
  sep <> "="%char -> has_char "=" g = false -> has_char sep g = false ->
  blocked sep (g ++ "=" ++ t) = false.
Proof.
  intros Hsep Hg Hs.
  induction g as [|a g IH]; cbn [append blocked has_char] in *.
  - destruct (Ascii.eqb_spec "=" sep) as [E|_]; [now symmetry in E|].
    now rewrite Ascii.eqb_refl.
  - apply orb_false_elim in Hg as [Ha Hg], Hs as [Hb Hs].
    rewrite Hb, Ha. now apply IH.
Qed.

Lemma match_here_blocked sep alts s :
  sep <> "="%char -> forallb (plain sep) alts = true ->
  blocked sep s = true -> match_here sep alts s = None.
Proof.
  intros Hsep Hp Hb. apply no_equals_of_plain in Hp.
  induction alts as [|g alts IH]; [reflexivity|].
  inversion Hp as [|? ? [Hg Hs] Hp']; subst. cbn [match_here].
  destruct (strip_prefix (g ++ "=") s) as [v'|] eqn:Hsp; [|now apply IH].
  apply strip_prefix_Some in Hsp. subst s.
  rewrite append_assoc, blocked_field in Hb by assumption. discriminate.
Qed.

Lemma blocked_value sep v rest :
  has_char "=" v = false -> tail_ok sep rest = true ->
  blocked sep (v ++ rest) = true.
Proof.
  intros Hv Hr. induction v as [|c v IH]; cbn [append blocked has_char] in *.
  - destruct rest as [|c r]; cbn [blocked tail_ok] in *;
      [reflexivity | now rewrite Hr].
  - apply orb_false_elim in Hv as [Hc Hv]. rewrite Hc.
    destruct (Ascii.eqb c sep); [reflexivity | now apply IH].
Qed.

Lemma sub_copies_value sep alts redaction v rest :
  sep <> "="%char -> forallb (plain sep) alts = true ->
  has_char "=" v = false -> tail_ok sep rest = true ->
  sub sep alts redaction O (v ++ rest)
  = (v ++ sub sep alts redaction O rest)%string.
Proof.
  intros Hsep Hp Hv Hr. induction v as [|c v IH]; [reflexivity|].
  pose proof (blocked_value sep (String c v) rest Hv Hr) as Hb.
  apply (match_here_blocked sep alts _ Hsep Hp) in Hb.
  simpl in Hv. apply orb_false_elim in Hv as [_ Hv].
  change (String c v ++ rest)%string with (String c (v ++ rest)) in *.
  cbn [sub]. rewrite Hb. cbn [append]. now rewrite IH.
Qed.

Lemma sub_skips sep alts redaction a : forall b,
  sub sep alts redaction (String.length a) (a ++ b)
  = sub sep alts redaction O b.
Proof.
  induction a as [|c a IH]; intros b; simpl.
  - destruct b; reflexivity.
  - apply IH.
Qed.

Lemma ends_with_refl k : ends_with k k = true.
Proof. destruct k; simpl; now rewrite ?String.eqb_refl, ?Ascii.eqb_refl. Qed.

Lemma sub_scans_record sep alts redaction v rest :
  sep <> "="%char -> forallb (plain sep) alts = true ->
  has_char "=" v = false -> has_char sep v = false ->
  tail_ok sep rest = true ->
  forall k, has_char "=" k = false ->
  sub sep alts redaction O (k ++ "=" ++ v ++ rest)
  = (k ++ "=" ++ (if redacts alts k v then redaction else v)
       ++ sub sep alts redaction O rest)%string.
Proof.
  intros Hsep Hp Hv Hs Hr k Hk.
  assert (Hcase : forall k, has_char "=" k = false ->
            (In k alts /\ v <> EmptyString /\ redacts alts k v = true) \/
            ((~ In k alts \/ v = EmptyString) /\
             redacts alts k v
             = match k with
               | EmptyString => false
               | String _ k' => redacts alts k' v
               end)).
  { clear k Hk. intros k Hk. unfold redacts.
    destruct (String.eqb_spec v EmptyString) as [->|Hne].
    - right. split; [now right|]. now destruct k.
    - destruct (in_dec string_dec k alts) as [Hin|Hnin].
      + left. repeat split; try assumption. simpl.
        apply existsb_exists. exists k. split; [assumption|apply ends_with_refl].
      + right. split; [now left|]. simpl.
        destruct k as [|c k].
        * apply not_true_is_false. intros H. apply existsb_exists in H.
          destruct H as [f [Hf He]]. simpl in He. rewrite orb_false_r in He.
          apply String.eqb_eq in He. subst f. contradiction.
        * apply eq_true_iff_eq. rewrite <- !not_false_iff_true.
          rewrite <- !not_true_iff_false.
          assert (Hex : existsb (fun f => ends_with f (String c k)) alts = true
                  <-> existsb (fun f => ends_with f k) alts = true).
          { rewrite !existsb_exists. split; intros [f [Hf He]]; exists f;
              (split; [assumption|]).
            - cbn [ends_with] in He. apply orb_prop in He as [He|He];
                [|exact He]. apply String.eqb_eq in He. subst f. contradiction.
            - cbn [ends_with]. rewrite He. apply orb_true_r. }
          tauto. }
  induction k as [|c k IH].
  - destruct (Hcase EmptyString Hk) as [[Hin [Hne Hred]]|[Hout Hred]];
      rewrite Hred.
    + pose proof (match_here_key_in sep alts EmptyString v rest
                    Hp Hk Hin Hne Hs Hr) as Hm.
      cbn [append] in *. cbn [sub]. rewrite Hm. cbn [append String.length].
      replace (0 + 1 + String.length v - 1)%nat with (String.length v) by lia.
      now rewrite sub_skips.
    + pose proof (match_here_key_out sep alts EmptyString v rest
                    Hp Hk Hout Hs Hr) as Hm.
      cbn [append] in *. cbn [sub]. rewrite Hm.
      now rewrite sub_copies_value.
  - pose proof Hk as Hk'. simpl in Hk'. apply orb_false_elim in Hk' as [_ Hk'].
    destruct (Hcase (String c k) Hk) as [[Hin [Hne Hred]]|[Hout Hred]];
      rewrite Hred.
    + pose proof (match_here_key_in sep alts (String c k) v rest
                    Hp Hk Hin Hne Hs Hr) as Hm.
      cbn [append] in *. cbn [sub]. rewrite Hm. cbn [append String.length].
      replace (S (String.length k) + 1 + String.length v - 1)%nat
        with (String.length (k ++ "=" ++ v)) by
        (rewrite !append_length; simpl; lia).
      replace (k ++ String "=" (v ++ rest))%string
        with ((k ++ "=" ++ v) ++ rest)%string
        by (rewrite append_assoc; reflexivity).
      now rewrite sub_skips.
    + pose proof (match_here_key_out sep alts (String c k) v rest
                    Hp Hk Hout Hs Hr) as Hm.
      cbn [append] in *. cbn [sub]. rewrite Hm.
      now rewrite (IH Hk').
Qed.


Lemma sub_joined sep alts redaction :
  sep <> "="%char -> forallb (plain sep) alts = true ->
  forall records, forallb (well_formed sep) records = true ->
  sub sep alts redaction O (join_records sep records)
  = join_records sep (map (redact_record alts redaction) records).
Proof.
  intros Hsep Hp records. induction records as [|[k v] rs IH]; intros Hw;
    [reflexivity|].
  cbn [forallb] in Hw. apply andb_prop in Hw as [Hr Hrs].
  unfold well_formed in Hr. cbn [fst snd] in Hr.
  apply andb_prop in Hr as [Hr Hvs]. apply andb_prop in Hr as [Hk Hv].
  apply negb_true_iff in Hk, Hv, Hvs.
  cbn [join_records map]. destruct rs as [|r rs].
  - cbn [map]. unfold record_text, redact_record. cbn [fst snd].
    rewrite <- (append_nil_r v) at 1.
    rewrite sub_scans_record by (assumption || reflexivity).
    cbn [sub]. now rewrite append_nil_r.
  - specialize (IH Hrs). remember (r :: rs) as rest eqn:Hrest.
    assert (Hmap : map (redact_record alts redaction) rest <> []).
    { subst rest. discriminate. }
    destruct (map (redact_record alts redaction) rest) as [|r' rs'] eqn:Hm;
      [congruence|]. rewrite <- Hm in *. clear Hm r' rs' Hmap.
    subst rest. unfold record_text at 1. cbn [fst snd].
    rewrite !append_assoc. cbn [append].
    change (k ++ String "=" (v ++ String sep (join_records sep (r :: rs))))%string
      with (k ++ "=" ++ v ++ String sep (join_records sep (r :: rs)))%string.
    rewrite sub_scans_record
      by (try assumption; cbn [tail_ok]; apply Ascii.eqb_refl).
    assert (Hb : match_here sep alts (String sep (join_records sep (r :: rs)))
                 = None).
    { apply match_here_blocked; try assumption.
      cbn [blocked]. now rewrite Ascii.eqb_refl. }
    cbn [sub]. rewrite Hb, IH.
    unfold record_text, redact_record at 2. cbn [fst snd].
    rewrite !append_assoc. reflexivity.
Qed.

Lemma literal_no_equals f : literal f = true -> has_char "=" f = false.
Proof.
  induction f as [|c f IH]; cbn [literal has_char]; [reflexivity|].
  intros H. apply andb_prop in H as [Hc Hf]. rewrite (IH Hf), orb_false_r.
  destruct (Ascii.eqb_spec c "=") as [->|_]; [discriminate Hc | reflexivity].
Qed.

Lemma followed_literal fields redaction sep :
  followed fields redaction sep = true -> forallb literal fields = true.
Proof.
  unfold followed. intros H.
  apply andb_prop in H as [H _]. apply andb_prop in H as [H _].
  now apply andb_prop in H as [H _].
Qed.

Lemma plain_of_literal sep fields :
  forallb literal fields = true -> forallb (sep_free sep) fields = true ->
  forallb (plain sep) fields = true.
Proof.
  rewrite !forallb_forall. intros Hl Hs f Hf.
  specialize (Hl f Hf). specialize (Hs f Hf).
  unfold plain. unfold sep_free in Hs.
  now rewrite (literal_no_equals f Hl), Hs.
Qed.

Lemma plain_alternatives sep fields :
  forallb (plain sep) fields = true ->
  forallb (plain sep) (alternatives fields) = true.
Proof.
  destruct fields as [|f fields]; [|trivial]. intros _.
  cbn [alternatives forallb]. unfold plain. cbn [has_char]. reflexivity.
Qed.

(** X23: in a call where the fields are made of letters, digits and
    underscores, the redaction has no backslash and the separator is one
    ASCII character other than the backslash, a message without an equals
    sign passes [filter_datum] unchanged. *)
Theorem filter_datum_without_equals fields redaction message separator :
  followed fields redaction separator = true ->
  has_char "=" message = false ->
  filter_datum fields redaction message (String separator EmptyString)
  = Some message.
Proof.
  intros Hf. unfold filter_datum. rewrite Hf. clear Hf.
  generalize (alternatives fields) as alts. intros alts Hm. f_equal.
  induction message as [|c m IH]; [reflexivity|].
  pose proof (match_here_no_equals separator alts _ Hm) as Hnone.
  cbn [has_char] in Hm. apply orb_false_elim in Hm as [_ Hm].
  cbn [sub]. rewrite Hnone. now rewrite IH.
Qed.

Lemma filter_datum_without_equals_witness :
  followed PII_FIELDS REDACTION ";" = true /\
  has_char "=" "user logged in; session 12" = false /\
  filter_datum PII_FIELDS REDACTION "user logged in; session 12" SEPARATOR
  = Some "user logged in; session 12".
Proof.
  split; [reflexivity|]. split; [reflexivity|].
  apply (filter_datum_without_equals PII_FIELDS REDACTION
           "user logged in; session 12" ";"%char); reflexivity.
Defined.

(** X24: in such a call, with a separator other than [=] that occurs in
    no field, on a line of records [key=value] joined by the separator
    whose keys have no [=] and whose values have neither [=] nor the
    separator, [filter_datum] rewrites the line record by record: the
    value becomes the redaction when it is not empty and the key ends with
    one of the fields (any key, when there is no field at all), and every
    other record is kept as it is. *)
Theorem filter_datum_redacts_records fields redaction records separator :
  followed fields redaction separator = true ->
  separator <> "="%char ->
  forallb (sep_free separator) fields = true ->
  forallb (well_formed separator) records = true ->
  filter_datum fields redaction (join_records separator records)
    (String separator EmptyString)
  = Some (join_records separator
            (map (redact_record (alternatives fields) redaction) records)).
Proof.
  intros Hf Hsep Hp Hw. unfold filter_datum. rewrite Hf. f_equal.
  apply sub_joined; [assumption | | assumption].
  apply plain_alternatives, plain_of_literal; [|assumption].
  exact (followed_literal _ _ _ Hf).
Qed.

Lemma filter_datum_redacts_records_witness :
  followed PII_FIELDS REDACTION ";" = true /\
  ";"%char <> "="%char /\
  forallb (sep_free ";") PII_FIELDS = true /\
  forallb (well_formed ";")
    [("name", "Bob"); (" username", "bob7"); (" ip", "10.0.0.1");
     (" password", "")] = true /\
  filter_datum PII_FIELDS REDACTION
    "name=Bob; username=bob7; ip=10.0.0.1; password=" SEPARATOR
  = Some "name=***; username=***; ip=10.0.0.1; password=".
Proof.
  split; [reflexivity|]. split; [discriminate|]. split; [reflexivity|].
  split; [reflexivity|].
  apply (filter_datum_redacts_records PII_FIELDS REDACTION
           [("name", "Bob"); (" username", "bob7"); (" ip", "10.0.0.1");
            (" password", "")] ";"%char);
    [reflexivity | discriminate | reflexivity | reflexivity].
Defined.

(** X25: under the conditions of X24 on the call and on the line, and
    with a redaction that has neither [=] nor the separator, filtering the
    filtered line a second time changes nothing more. *)
Theorem filter_datum_twice fields redaction records separator :
  followed fields redaction separator = true ->
  separator <> "="%char ->
  forallb (sep_free separator) fields = true ->
  forallb (well_formed separator) records = true ->
  plain separator redaction = true ->
  exists once,
    filter_datum fields redaction (join_records separator records)
      (String separator EmptyString)
    = Some once
    /\ filter_datum fields redaction once (String separator EmptyString)
       = Some once.
Proof.
  intros Hf Hsep Hs Hw Hred. unfold filter_datum. rewrite Hf.
  pose proof (plain_alternatives _ _
                (plain_of_literal _ _ (followed_literal _ _ _ Hf) Hs)) as Ha.
  eexists. split; [reflexivity|]. f_equal.
  rewrite (sub_joined separator _ redaction Hsep Ha records Hw).
  rewrite sub_joined; try assumption.
  - f_equal. rewrite map_map. apply map_ext. intros [k v].
    unfold redact_record. cbn [fst snd]. f_equal.
    destruct (redacts (alternatives fields) k v) eqn:Hr; [|now rewrite Hr].
    unfold redacts in *. apply andb_prop in Hr as [_ Hr]. rewrite Hr.
    now destruct (negb (String.eqb redaction EmptyString)).
  - rewrite forallb_forall. intros r Hin. apply in_map_iff in Hin.
    destruct Hin as [[k v] [<- Hin]].
    rewrite forallb_forall in Hw. specialize (Hw _ Hin).
    unfold well_formed, redact_record in *. cbn [fst snd] in *.
    apply andb_prop in Hw as [Hw Hvs]. apply andb_prop in Hw as [Hk Hv].
    rewrite Hk. unfold plain in Hred.
    destruct (redacts (alternatives fields) k v); [exact Hred|].
    now rewrite Hv, Hvs.
Qed.

Lemma filter_datum_twice_witness :
  exists once,
    filter_datum PII_FIELDS REDACTION "email=a@b.c; age=3" SEPARATOR
    = Some once
    /\ filter_datum PII_FIELDS REDACTION once SEPARATOR = Some once.
Proof.
  apply (filter_datum_twice PII_FIELDS REDACTION
           [("email", "a@b.c"); (" age", "3")] ";"%char);
    [reflexivity | discriminate | reflexivity | reflexivity | reflexivity].
Defined.

End FilterRecords.
